(** * A3Dshell configuration GUI: the configuration-file lifecycle

    A shallow embedding of [gui_app.py]: the boundary validators, the loader
    that hydrates the session from a stored INI file, the writer that emits
    the INI text, the ROI tab that maintains the validation flag and the
    masking flags, and the run block with its temporary file.

    Python text is modelled as byte strings, exceptions as a [result] type,
    the session dictionary as a [gmap], and the third-party libraries
    (shapely/geopandas, the subprocess) as explicit interfaces. *)

From Stdlib Require Import ZArith String Ascii List Bool Lia Decimal DecimalString.
From Stdlib Require DecimalZ DecimalPos.
From stdpp Require Import base option gmap strings list fin_maps.

Local Open Scope Z_scope.

(** ** Exceptions and results *)

Inductive exn : Type :=
  | MissingSectionHeaderError
  | DuplicateSectionError (section : string)
  | DuplicateOptionError (section option : string)
  | ParsingError
  | InterpolationSyntaxError
  | InterpolationMissingOptionError
  | InterpolationDepthError
  | ValueError (msg : string)
  | Exception (msg : string).

(** [str(e)], as far as the program prints it. *)
Definition exn_str (e : exn) : string :=
  match e with
  | MissingSectionHeaderError => "File contains no section headers."
  | DuplicateSectionError s => "Section " +:+ s +:+ " already exists"
  | DuplicateOptionError s o => "Option " +:+ o +:+ " in section " +:+ s +:+ " already exists"
  | ParsingError => "Source contains parsing errors"
  | InterpolationSyntaxError => "bad interpolation syntax"
  | InterpolationMissingOptionError => "bad interpolation variable reference"
  | InterpolationDepthError => "recursion limit exceeded in value substitution"
  | ValueError m => m
  | Exception m => m
  end.

Inductive result (A : Type) : Type :=
  | Ok (a : A)
  | Raise (e : exn).
Arguments Ok {A} a.
Arguments Raise {A} e.

Definition bind {A B : Type} (m : result A) (k : A → result B) : result B :=
  match m with
  | Ok a => k a
  | Raise e => Raise e
  end.

Notation "'let!' x ':=' m 'in' k" := (bind m (fun x => k))
  (at level 10, x pattern, m at level 100, k at level 200).

(** ** Text *)

Definition code (c : ascii) : N := N_of_ascii c.

(** [str.isspace] on the ASCII range. *)
Definition isspace (c : ascii) : bool :=
  let n := code c in
  ((9 <=? n) && (n <=? 13) || (28 <=? n) && (n <=? 32))%N.

Definition is_upper (c : ascii) : bool :=
  let n := code c in ((65 <=? n) && (n <=? 90))%N.

Definition lower_char (c : ascii) : ascii :=
  if is_upper c then ascii_of_N (code c + 32) else c.

(** [str.lower] on the ASCII range. *)
Fixpoint lower (s : string) : string :=
  match s with
  | EmptyString => EmptyString
  | String c s' => String (lower_char c) (lower s')
  end.

Fixpoint lstrip (s : string) : string :=
  match s with
  | EmptyString => EmptyString
  | String c s' => if isspace c then lstrip s' else s
  end.

Fixpoint rstrip (s : string) : string :=
  match s with
  | EmptyString => EmptyString
  | String c s' =>
      match rstrip s' with
      | EmptyString => if isspace c then EmptyString else String c EmptyString
      | r => String c r
      end
  end.

Definition strip (s : string) : string := rstrip (lstrip s).

Definition startswith (s : string) (c : ascii) : bool :=
  match s with
  | String c' _ => bool_decide (c' = c)
  | EmptyString => false
  end.

Fixpoint string_forallb (f : ascii → bool) (s : string) : bool :=
  match s with
  | EmptyString => true
  | String c s' => f c && string_forallb f s'
  end.

Definition contains_char (c : ascii) (s : string) : bool :=
  negb (string_forallb (fun c' => negb (bool_decide (c' = c))) s).

(** Index of the first character that is not white space ([re.search(r"\S")]). *)
Fixpoint first_nonspace (s : string) : nat :=
  match s with
  | EmptyString => O
  | String c s' => if isspace c then S (first_nonspace s') else O
  end.

(** The lines of a text file opened in text mode: a line ends at a line feed,
    a carriage return, or a carriage return followed by a line feed. *)
Fixpoint split_lines (s : string) : list string :=
  match s with
  | EmptyString => []
  | String c s' =>
      if bool_decide (c = "010"%char) then EmptyString :: split_lines s'
      else if bool_decide (c = "013"%char) then
        match s' with
        | String "010"%char _ => split_lines s'
        | _ => EmptyString :: split_lines s'
        end
      else
        match split_lines s' with
        | [] => [String c EmptyString]
        | l :: ls => String c l :: ls
        end
  end.

Definition nl : string := String "010"%char EmptyString.

(** ['\n'.join(parts)] *)
Fixpoint join_nl (parts : list string) : string :=
  match parts with
  | [] => EmptyString
  | [p] => p
  | p :: ps => p +:+ nl +:+ join_nl ps
  end.

(** ** Numbers *)

(** [str(n)] for a Python [int]. *)
Definition int_str (n : Z) : string := NilZero.string_of_int (Z.to_int n).

Definition digit (n : nat) : ascii := ascii_of_nat (48 + n mod 10).

(** [%02d] and [%04d] as [strftime] uses them. *)
Definition pad2 (n : nat) : string :=
  String (digit (n / 10)) (String (digit n) EmptyString).
Definition pad4 (n : nat) : string :=
  String (digit (n / 1000)) (String (digit (n / 100)) (pad2 n)).

(** Python [float]s are kept abstract: the program prints them, compares them
    and adds or subtracts half an extent, and none of the properties below
    depends on how these operations round.  The one law is that [str(x)] is a
    non-empty run of characters among digits, sign, point, exponent and the
    letters of [inf] and [nan]. *)
Definition token_char (c : ascii) : bool :=
  let n := code c in
  ((33 <=? n) && (n <=? 126))%N
  && negb (bool_decide (c = "#"%char)) && negb (bool_decide (c = "%"%char))
  && negb (bool_decide (c = "="%char)) && negb (bool_decide (c = ":"%char)).

Definition is_token (s : string) : bool :=
  negb (bool_decide (s = EmptyString)) && string_forallb token_char s.

Class PyFloat (F : Type) : Type := {
  float_str : F → string;          (* str(x), as an f-string renders {x} *)
  float_fmt0 : F → string;         (* f"{x:.0f}" *)
  float_of_int : Z → F;            (* an int constant met in a float comparison *)
  int_truediv2 : Z → F;            (* n / 2 *)
  float_add : F → F → F;
  float_sub : F → F → F;
  float_leb : F → F → bool;
  float_ltb : F → F → bool;
  float_str_token : ∀ x, is_token (float_str x) = true
}.

(** ** Dates *)

Record datetime : Type := {
  year : nat; month : nat; day : nat;
  hour : nat; minute : nat; second : nat
}.

(** [dt.strftime('%Y-%m-%dT%H:%M:%S')] *)
Definition strftime_iso (dt : datetime) : string :=
  pad4 (year dt) +:+ "-" +:+ pad2 (month dt) +:+ "-" +:+ pad2 (day dt) +:+ "T"
  +:+ pad2 (hour dt) +:+ ":" +:+ pad2 (minute dt) +:+ ":" +:+ pad2 (second dt).

(** [dt.strftime('%Y-%m-%d %H:%M:%S')] *)
Definition strftime_stamp (dt : datetime) : string :=
  pad4 (year dt) +:+ "-" +:+ pad2 (month dt) +:+ "-" +:+ pad2 (day dt) +:+ " "
  +:+ pad2 (hour dt) +:+ ":" +:+ pad2 (minute dt) +:+ ":" +:+ pad2 (second dt).

(** ** The INI reader

    [configparser.ConfigParser(inline_comment_prefixes=("#",))] with its
    defaults: full-line comments start with [#] or [;], the delimiters are
    [=] and [:], option names are lower-cased, empty lines may sit inside
    values, duplicates are errors, values go through basic interpolation when
    they are read. *)

Module ConfigParser.

Definition default_section : string := "DEFAULT".

(** The text before an inline comment, if one starts on this line: a [#] at
    index 0 or right after a white-space character. *)
Fixpoint inline_comment (after_space : bool) (line : string) : option string :=
  match line with
  | EmptyString => None
  | String c rest =>
      if bool_decide (c = "#"%char) && after_space then Some EmptyString
      else String c <$> inline_comment (isspace c) rest
  end.

Definition is_comment_line (line : string) : bool :=
  startswith (strip line) "#"%char || startswith (strip line) ";"%char.

(** [line[:comment_start]] and whether [comment_start] was set. *)
Definition payload (line : string) : string * bool :=
  if is_comment_line line then (EmptyString, true)
  else match inline_comment true line with
       | Some text => (text, true)
       | None => (line, false)
       end.

Inductive line_form : Type :=
  | Blank (commented : bool)
  | Content (indent : nat) (value : string).

Definition line_form_of (line : string) : line_form :=
  let '(text, commented) := payload line in
  let value := strip text in
  if bool_decide (value = EmptyString) then Blank commented
  else Content (first_nonspace line) value.

(** [SECTCRE]: an opening bracket, a non-empty header, and the last closing
    bracket of the line. *)
Fixpoint before_last_bracket (s : string) : option string :=
  match s with
  | EmptyString => None
  | String c rest =>
      match before_last_bracket rest with
      | Some h => Some (String c h)
      | None => if bool_decide (c = "]"%char) then Some EmptyString else None
      end
  end.

Definition match_section (value : string) : option string :=
  match value with
  | String c rest =>
      if bool_decide (c = "["%char) then
        match before_last_bracket rest with
        | Some (String c' h) => Some (String c' h)
        | _ => None
        end
      else None
  | EmptyString => None
  end.

Definition is_delim (c : ascii) : bool :=
  bool_decide (c = "="%char) || bool_decide (c = ":"%char).

Fixpoint split_delim (s : string) : option (string * string) :=
  match s with
  | EmptyString => None
  | String c rest =>
      if is_delim c then Some (EmptyString, rest)
      else match split_delim rest with
           | Some (a, b) => Some (String c a, b)
           | None => None
           end
  end.

(** [OPTCRE]: the option name is what precedes the first delimiter, without
    the white space before it; the value is what follows, stripped. *)
Definition match_option (value : string) : option (string * string) :=
  match split_delim value with
  | Some (a, b) => Some (rstrip a, strip b)
  | None => None
  end.

(** [optionxform] *)
Definition optionxform (option : string) : string := lower option.

Record read_state : Type := {
  rs_sections : gmap string (gmap string (list string));
  rs_defaults : gmap string (list string);
  rs_cursect : option string;
  rs_optname : option string;
  rs_indent_level : nat;
  rs_added_sections : gset string;
  rs_added_options : gset (string * string);
  rs_error : bool
}.

Definition rs_init : read_state :=
  {| rs_sections := ∅; rs_defaults := ∅; rs_cursect := None; rs_optname := None;
     rs_indent_level := 0; rs_added_sections := ∅; rs_added_options := ∅;
     rs_error := false |}.

Definition with_sections (f : gmap string (gmap string (list string)) →
                              gmap string (gmap string (list string)))
    (st : read_state) : read_state :=
  {| rs_sections := f (rs_sections st); rs_defaults := rs_defaults st;
     rs_cursect := rs_cursect st; rs_optname := rs_optname st;
     rs_indent_level := rs_indent_level st;
     rs_added_sections := rs_added_sections st;
     rs_added_options := rs_added_options st; rs_error := rs_error st |}.

Definition with_defaults (f : gmap string (list string) → gmap string (list string))
    (st : read_state) : read_state :=
  {| rs_sections := rs_sections st; rs_defaults := f (rs_defaults st);
     rs_cursect := rs_cursect st; rs_optname := rs_optname st;
     rs_indent_level := rs_indent_level st;
     rs_added_sections := rs_added_sections st;
     rs_added_options := rs_added_options st; rs_error := rs_error st |}.

Definition with_cursor (sect opt : option string) (st : read_state) : read_state :=
  {| rs_sections := rs_sections st; rs_defaults := rs_defaults st;
     rs_cursect := sect; rs_optname := opt;
     rs_indent_level := rs_indent_level st;
     rs_added_sections := rs_added_sections st;
     rs_added_options := rs_added_options st; rs_error := rs_error st |}.

Definition with_indent (n : nat) (st : read_state) : read_state :=
  {| rs_sections := rs_sections st; rs_defaults := rs_defaults st;
     rs_cursect := rs_cursect st; rs_optname := rs_optname st;
     rs_indent_level := n; rs_added_sections := rs_added_sections st;
     rs_added_options := rs_added_options st; rs_error := rs_error st |}.

Definition mark_section (name : string) (st : read_state) : read_state :=
  {| rs_sections := rs_sections st; rs_defaults := rs_defaults st;
     rs_cursect := rs_cursect st; rs_optname := rs_optname st;
     rs_indent_level := rs_indent_level st;
     rs_added_sections := {[name]} ∪ rs_added_sections st;
     rs_added_options := rs_added_options st; rs_error := rs_error st |}.

Definition mark_option (sect opt : string) (st : read_state) : read_state :=
  {| rs_sections := rs_sections st; rs_defaults := rs_defaults st;
     rs_cursect := rs_cursect st; rs_optname := rs_optname st;
     rs_indent_level := rs_indent_level st;
     rs_added_sections := rs_added_sections st;
     rs_added_options := {[(sect, opt)]} ∪ rs_added_options st;
     rs_error := rs_error st |}.

Definition with_error (err : bool) (st : read_state) : read_state :=
  {| rs_sections := rs_sections st; rs_defaults := rs_defaults st;
     rs_cursect := rs_cursect st; rs_optname := rs_optname st;
     rs_indent_level := rs_indent_level st;
     rs_added_sections := rs_added_sections st;
     rs_added_options := rs_added_options st; rs_error := rs_error st || err |}.

(** The option that further lines extend: [cursect is not None and optname]. *)
Definition open_option (st : read_state) : option (string * string) :=
  match rs_cursect st, rs_optname st with
  | Some sect, Some opt =>
      if bool_decide (opt = EmptyString) then None else Some (sect, opt)
  | _, _ => None
  end.

(** The dictionary [cursect] refers to: the default section's or a section's own. *)
Definition update_options (sect : string)
    (f : gmap string (list string) → gmap string (list string))
    (st : read_state) : read_state :=
  if bool_decide (sect = default_section) then with_defaults f st
  else with_sections (alter f sect) st.

(** [cursect[optname].append(value)] *)
Definition append_value (sect opt value : string) (st : read_state) : read_state :=
  update_options sect (alter (fun vs => (vs ++ [value])%list) opt) st.

Definition enter_section (name : string) (st : read_state) : result read_state :=
  if bool_decide (name ∈ dom (rs_sections st)) then
    if bool_decide (name ∈ rs_added_sections st) then Raise (DuplicateSectionError name)
    else Ok (with_cursor (Some name) None (mark_section name st))
  else if bool_decide (name = default_section) then
    Ok (with_cursor (Some name) None st)
  else
    Ok (with_cursor (Some name) None
          (mark_section name (with_sections (<[name := ∅]>) st))).

Definition set_option (sect name value : string) (st : read_state) : result read_state :=
  let opt := optionxform name in
  if bool_decide ((sect, opt) ∈ rs_added_options st) then
    Raise (DuplicateOptionError sect opt)
  else
    Ok (with_cursor (Some sect) (Some opt)
          (mark_option sect opt (update_options sect (<[opt := [value]]>) st))).

(** A line that is not a continuation: a section header, or an option. *)
Definition read_entry (st : read_state) (value : string) : result read_state :=
  match match_section value with
  | Some name => enter_section name st
  | None =>
      match rs_cursect st with
      | None => Raise MissingSectionHeaderError
      | Some sect =>
          match match_option value with
          | Some (name, optval) =>
              set_option sect name optval
                (with_error (bool_decide (name = EmptyString)) st)
          | None => Ok (with_error true st)
          end
      end
  end.

(** One turn of the loop of [_read]. *)
Definition read_step (st : read_state) (line : string) : result read_state :=
  match line_form_of line with
  | Blank commented =>
      match open_option st with
      | Some (sect, opt) =>
          if commented then Ok st else Ok (append_value sect opt EmptyString st)
      | None => Ok st
      end
  | Content indent value =>
      match open_option st with
      | Some (sect, opt) =>
          if (rs_indent_level st <? indent)%nat
          then Ok (append_value sect opt value st)
          else read_entry (with_indent indent st) value
      | None => read_entry (with_indent indent st) value
      end
  end.

Fixpoint read_lines (st : read_state) (lines : list string) : result read_state :=
  match lines with
  | [] => Ok st
  | line :: rest => let! st' := read_step st line in read_lines st' rest
  end.

(** The parser once a file is read: every value joined and right-stripped. *)
Record parser : Type := {
  p_sections : gmap string (gmap string string);
  p_defaults : gmap string string
}.

Definition empty_parser : parser := {| p_sections := ∅; p_defaults := ∅ |}.

Definition join_value (vs : list string) : string := rstrip (join_nl vs).

Definition join_multiline_values (st : read_state) : parser :=
  {| p_sections := (fun d : gmap string (list string) => join_value <$> d)
                     <$> rs_sections st;
     p_defaults := join_value <$> rs_defaults st |}.

Definition read_string (text : string) : result parser :=
  let! st := read_lines rs_init (split_lines text) in
  if rs_error st then Raise ParsingError else Ok (join_multiline_values st).

(** [parser.read(path)]: a file that cannot be opened is skipped. *)
Definition read (file : option string) : result parser :=
  match file with
  | Some text => read_string text
  | None => Ok empty_parser
  end.

(** [section in parser] *)
Definition has_section (p : parser) (section : string) : bool :=
  bool_decide (section ∈ dom (p_sections p)).

Definition contains_section (p : parser) (section : string) : bool :=
  bool_decide (section = default_section) || has_section p section.

(** [option in parser[section]] *)
Definition has_option (p : parser) (section option : string) : bool :=
  if bool_decide (section = EmptyString) || bool_decide (section = default_section) then
    bool_decide (optionxform option ∈ dom (p_defaults p))
  else
    match p_sections p !! section with
    | None => false
    | Some d =>
        bool_decide (optionxform option ∈ dom d)
        || bool_decide (optionxform option ∈ dom (p_defaults p))
    end.

(** The chain of a section's own options and the defaults; [None] is
    [NoSectionError]. *)
Definition unify_values (p : parser) (section : string)
    : option (string → option string) :=
  match p_sections p !! section with
  | Some d =>
      Some (fun k => match d !! k with Some v => Some v | None => p_defaults p !! k end)
  | None =>
      if bool_decide (section = default_section)
      then Some (fun k => p_defaults p !! k) else None
  end.

(** Basic interpolation: [%%] is a percent sign, [%(name)s] the value of
    another option, anything else after [%] an error. *)
Inductive scan_mode : Type :=
  | Plain
  | Percent
  | Key (name : string)
  | Closed (name : string).

Fixpoint interpolate_some (fuel : nat) (map : string → option string)
    (rest : string) : result string :=
  match fuel with
  | O => Raise InterpolationDepthError
  | S fuel' =>
      (fix scan (mode : scan_mode) (s : string) {struct s} : result string :=
         match s with
         | EmptyString =>
             match mode with
             | Plain => Ok EmptyString
             | _ => Raise InterpolationSyntaxError
             end
         | String c s' =>
             match mode with
             | Plain =>
                 if bool_decide (c = "%"%char) then scan Percent s'
                 else let! r := scan Plain s' in Ok (String c r)
             | Percent =>
                 if bool_decide (c = "%"%char) then
                   let! r := scan Plain s' in Ok (String c r)
                 else if bool_decide (c = "("%char) then scan (Key EmptyString) s'
                 else Raise InterpolationSyntaxError
             | Key name =>
                 if bool_decide (c = ")"%char) then
                   if bool_decide (name = EmptyString) then Raise InterpolationSyntaxError
                   else scan (Closed name) s'
                 else scan (Key (name +:+ String c EmptyString)) s'
             | Closed name =>
                 if bool_decide (c = "s"%char) then
                   match map (optionxform name) with
                   | None => Raise InterpolationMissingOptionError
                   | Some v =>
                       let! v' := (if contains_char "%"%char v
                                   then interpolate_some fuel' map v else Ok v) in
                       let! r := scan Plain s' in
                       Ok (v' +:+ r)
                   end
                 else Raise InterpolationSyntaxError
             end
         end) Plain rest
  end.

Definition MAX_INTERPOLATION_DEPTH : nat := 10.

Definition before_get (map : string → option string) (value : string) : result string :=
  interpolate_some MAX_INTERPOLATION_DEPTH map value.

(** [parser.get(section, option, fallback=fallback)] *)
Definition get (p : parser) (section option fallback : string) : result string :=
  match unify_values p section with
  | None => Ok fallback
  | Some d =>
      match d (optionxform option) with
      | None => Ok fallback
      | Some value => before_get d value
      end
  end.

Definition convert_to_boolean (value : string) : result bool :=
  let v := lower value in
  if bool_decide (v = "1") || bool_decide (v = "yes") || bool_decide (v = "true")
     || bool_decide (v = "on") then Ok true
  else if bool_decide (v = "0") || bool_decide (v = "no") || bool_decide (v = "false")
     || bool_decide (v = "off") then Ok false
  else Raise (ValueError ("Not a boolean: " +:+ value)).

(** [parser.getboolean(section, option, fallback=fallback)] *)
Definition getboolean (p : parser) (section option : string) (fallback : bool)
    : result bool :=
  match unify_values p section with
  | None => Ok fallback
  | Some d =>
      match d (optionxform option) with
      | None => Ok fallback
      | Some value => let! v := before_get d value in convert_to_boolean v
      end
  end.

End ConfigParser.

(** ** The session

    [st.session_state]: the ambient [config] dictionary, the validation flag
    and the list of points of interest.  The values the program stores in
    [config] are strings, booleans and [None]. *)

Inductive pyval : Type :=
  | VStr (s : string)
  | VBool (b : bool)
  | VNone.

(** Python truth value. *)
Definition truthy (v : pyval) : bool :=
  match v with
  | VStr s => negb (bool_decide (s = EmptyString))
  | VBool b => b
  | VNone => false
  end.

Abbreviation config_dict := (gmap string pyval).

(** [config.get(key, default)] *)
Definition config_get (cfg : config_dict) (key : string) (default : pyval) : pyval :=
  from_option id default (cfg !! key).

(** Module-level code mutates [config] key by key, and an exception leaves
    the keys already written in place: a command returns the dictionary it
    reached together with the exception that stopped it, if any. *)
Definition cmd : Type := config_dict → config_dict * option exn.

Definition skip : cmd := fun cfg => (cfg, None).

Definition seq (a b : cmd) : cmd :=
  fun cfg => match a cfg with
             | (cfg', None) => b cfg'
             | stopped => stopped
             end.

Notation "a >>> b" := (seq a b) (at level 61, left associativity).

(** [config[key] = <expression>] *)
Definition assign (key : string) (value : result pyval) : cmd :=
  fun cfg => match value with
             | Ok v => (<[key := v]> cfg, None)
             | Raise e => (cfg, Some e)
             end.

Definition when (guard : bool) (body : cmd) : cmd := if guard then body else skip.

Definition str_of (r : result string) : result pyval :=
  let! s := r in Ok (VStr s).
Definition bool_of (r : result bool) : result pyval :=
  let! b := r in Ok (VBool b).

(** ** Loading a stored configuration (the block under [Load selected config]) *)

Section Load.
Import ConfigParser.
Variable parser : ConfigParser.parser.

Definition load_general : cmd :=
  assign "simu_name" (str_of (get parser "GENERAL" "SIMULATION_NAME" "")) >>>
  assign "start_date" (str_of (get parser "GENERAL" "START_DATE" "")) >>>
  assign "end_date" (str_of (get parser "GENERAL" "END_DATE" "")).

Definition load_input : cmd :=
  assign "poi_x" (str_of (get parser "INPUT" "EAST_epsg2056" "")) >>>
  assign "poi_y" (str_of (get parser "INPUT" "NORTH_epsg2056" "")) >>>
  assign "poi_z" (str_of (get parser "INPUT" "altLV95" "")) >>>
  assign "use_shp" (bool_of (getboolean parser "INPUT" "USE_SHP_ROI" false)) >>>
  assign "roi_size" (str_of (get parser "INPUT" "ROI" "1000")) >>>
  assign "buffer_size" (str_of (get parser "INPUT" "BUFFERSIZE" "50000")) >>>
  assign "roi_shapefile" (str_of (get parser "INPUT" "ROI_SHAPEFILE" "")).

Definition load_output : cmd :=
  assign "coord_sys" (str_of (get parser "OUTPUT" "OUT_COORDSYS" "CH1903+")) >>>
  assign "gsd" (str_of (get parser "OUTPUT" "GSD" "10.0")) >>>
  assign "gsd_ref" (str_of (get parser "OUTPUT" "GSD_ref" "2.0")).

(** The land-cover source: the new [LUS_SOURCE] key, else the old boolean
    [USE_LUS_TLM], else the first source. *)
Definition load_lus_source : cmd :=
  if has_option parser "A3D" "LUS_SOURCE" then
    assign "lus_source" (str_of (get parser "A3D" "LUS_SOURCE" "tlm"))
  else if has_option parser "A3D" "USE_LUS_TLM" then
    assign "lus_source"
      (let! use_tlm := getboolean parser "A3D" "USE_LUS_TLM" false in
       Ok (VStr (if use_tlm then "tlm" else "constant")))
  else
    assign "lus_source" (Ok (VStr "tlm")).

Definition load_a3d : cmd :=
  load_lus_source >>>
  assign "lus_cst" (str_of (get parser "A3D" "LUS_PREVAH_CST" "11500")).

Definition load_parsed : cmd :=
  when (contains_section parser "GENERAL") load_general >>>
  when (contains_section parser "INPUT") load_input >>>
  when (contains_section parser "OUTPUT") load_output >>>
  when (contains_section parser "A3D") load_a3d.
End Load.

(** [parser.read(config_path)] followed by the assignments. *)
Definition load_selected_config (file : option string) : cmd :=
  fun cfg => match ConfigParser.read file with
             | Ok parser => load_parsed parser cfg
             | Raise e => (cfg, Some e)
             end.

(** ** The parameter set and its INI text *)

Inductive coord_sys_t : Type := CH1903plus | CH1903 | WGS84.

Definition coord_sys_str (c : coord_sys_t) : string :=
  match c with
  | CH1903plus => "CH1903+"
  | CH1903 => "CH1903"
  | WGS84 => "WGS84"
  end.

Inductive lus_source_t : Type := Tlm | Bfs | Constant.

(** [lus_source_map] of the land-cover tab, in the order of its options. *)
Definition lus_source_str (s : lus_source_t) : string :=
  match s with
  | Tlm => "tlm"
  | Bfs => "bfs"
  | Constant => "constant"
  end.

Definition py_bool_str (b : bool) : string := if b then "true" else "false".

Section Model.
Context {F : Type} {FL : PyFloat F}.

(** One entry of [poi_list_ch]. *)
Record poi : Type := {
  poi_name : string;
  poi_east : F;
  poi_north : F;
  poi_elev : F
}.

(** The values the [Save Config] handler writes: the widgets' values, the
    two masking flags as [config.get(key, True)] gives them, and the list
    of points of interest. *)
Record ParameterSet : Type := {
  simu_name : string;
  start_dt : datetime;
  end_dt : datetime;
  poi_x : F;
  poi_y : F;
  poi_z : F;
  use_shapefile : bool;
  roi_shapefile : string;
  roi_size : Z;
  buffer_size : Z;
  coord_sys : coord_sys_t;
  gsd : F;
  gsd_ref : F;
  mask_dem_to_polygon : bool;
  mask_lus_to_polygon : bool;
  lus_source : lus_source_t;
  lus_constant : Z;
  poi_list : list poi
}.

(** The loop over [poi_list_ch]. *)
Fixpoint pois_content (pois : list poi) : string :=
  match pois with
  | [] => EmptyString
  | q :: rest =>
      (poi_name q +:+ " = " +:+ float_str (poi_east q) +:+ ","
       +:+ float_str (poi_north q) +:+ "," +:+ float_str (poi_elev q) +:+ nl)
      +:+ pois_content rest
  end.

(** [config_content] of the [Save Config] handler; [now] is the reading of
    the clock, [datetime.now()]. *)
Definition serialize (now : datetime) (p : ParameterSet) : string :=
  let config_content :=
    "# A3Dshell Configuration" +:+ nl
    +:+ "# Generated: " +:+ strftime_stamp now +:+ nl
    +:+ nl
    +:+ "[GENERAL]" +:+ nl
    +:+ "SIMULATION_NAME = " +:+ simu_name p +:+ nl
    +:+ "START_DATE = " +:+ strftime_iso (start_dt p) +:+ nl
    +:+ "END_DATE = " +:+ strftime_iso (end_dt p) +:+ nl
    +:+ nl
    +:+ "[INPUT]" +:+ nl
    +:+ "EAST_epsg2056 = " +:+ float_str (poi_x p) +:+ nl
    +:+ "NORTH_epsg2056 = " +:+ float_str (poi_y p) +:+ nl
    +:+ "altLV95 = " +:+ float_str (poi_z p) +:+ nl
    +:+ "USE_SHP_ROI = " +:+ py_bool_str (use_shapefile p) +:+ nl in
  let config_content :=
    if use_shapefile p
    then config_content +:+ "ROI_SHAPEFILE = " +:+ roi_shapefile p +:+ nl
    else config_content +:+ "ROI = " +:+ int_str (roi_size p) +:+ nl in
  let config_content := config_content +:+ "BUFFERSIZE = " +:+ int_str (buffer_size p) +:+ nl in
  let config_content := config_content +:+ nl +:+ "[OUTPUT]" +:+ nl in
  let config_content := config_content +:+ "OUT_COORDSYS = " +:+ coord_sys_str (coord_sys p) +:+ nl in
  let config_content := config_content +:+ "GSD = " +:+ float_str (gsd p) +:+ nl in
  let config_content := config_content +:+ "GSD_ref = " +:+ float_str (gsd_ref p) +:+ nl in
  let config_content := config_content +:+ "DEM_ADDFMTLIST =" +:+ nl in
  let config_content := config_content +:+ "MESH_FMT = vtu" +:+ nl in
  let config_content :=
    config_content +:+ "MASK_DEM_TO_POLYGON = "
    +:+ py_bool_str (mask_dem_to_polygon p) +:+ nl in
  let config_content :=
    config_content +:+ "MASK_LUS_TO_POLYGON = "
    +:+ py_bool_str (mask_lus_to_polygon p) +:+ nl in
  let config_content := config_content +:+ nl +:+ "[MAPS]" +:+ nl in
  let config_content := config_content +:+ "PLOT_HORIZON = false" +:+ nl in
  let config_content := config_content +:+ nl +:+ "[A3D]" +:+ nl in
  let config_content := config_content +:+ "USE_GROUNDEYE = false" +:+ nl in
  let config_content :=
    config_content +:+ "LUS_SOURCE = " +:+ lus_source_str (lus_source p) +:+ nl in
  let config_content :=
    match lus_source p with
    | Constant => config_content +:+ "LUS_PREVAH_CST = " +:+ int_str (lus_constant p) +:+ nl
    | _ => config_content
    end in
  let config_content := config_content +:+ "DO_PVP_3D = false" +:+ nl in
  let config_content := config_content +:+ "PVP_3D_FMT = vtu" +:+ nl in
  let config_content := config_content +:+ "SP_BIN_PATH = snowpack" +:+ nl in
  match poi_list p with
  | [] => config_content
  | pois => config_content +:+ nl +:+ "[POIS]" +:+ nl +:+ pois_content pois
  end.

End Model.

(** ** The geometry libraries

    shapely and geopandas are outside the program: every call may raise.
    [G] is a shapely geometry, [J] a GeoJSON geometry object as the map
    widget returns it. *)

Class Geometry (F G J : Type) : Type := {
  Point : F → F → result G;
  box : F → F → F → F → result G;
  Polygon : list (F * F) → result G;
  contains : G → G → result bool;
  intersects : G → G → result bool;
  bounds : G → result (F * F * F * F);
  (** [shape(geojson)] *)
  shapely_shape : J → result G;
  (** A one-row [GeoDataFrame] in EPSG:4326, [to_crs('EPSG:2056')], and the
      geometry of its first row. *)
  to_lv95 : G → result G;
  (** [gdf.to_file(path)], with the creation of the parent directory. *)
  to_file : G → string → result unit;
  (** What the request to the Swisstopo service yields: an exception, no
      usable ring, or the first ring of the first result that has one. *)
  swisstopo_rings : result (option (list (F * F)))
}.

Section Validators.
Context {F G J : Type} {FL : PyFloat F} {GL : Geometry F G J}.

Definition simplified_coords : list (Z * Z) :=
  [ (2485000, 1075000); (2485000, 1110000); (2490000, 1145000);
    (2495000, 1185000); (2510000, 1230000); (2525000, 1265000);
    (2570000, 1295000); (2630000, 1296000); (2720000, 1295000);
    (2795000, 1280000); (2834000, 1255000); (2830000, 1220000);
    (2815000, 1185000); (2785000, 1150000); (2750000, 1110000);
    (2715000, 1085000); (2680000, 1080000); (2630000, 1085000);
    (2580000, 1095000); (2530000, 1085000); (2490000, 1078000);
    (2485000, 1075000) ].

(** The service's polygon, else the simplified outline, else [None]. *)
Definition get_swiss_boundary_polygon : option G :=
  match (let! rings := swisstopo_rings in
         match rings with
         | Some ring => Polygon ring
         | None =>
             Polygon (map (fun en => (float_of_int (fst en), float_of_int (snd en)))
                          simplified_coords)
         end) with
  | Ok polygon => Some polygon
  | Raise _ => None
  end.

Definition SWISS_MIN_E : Z := 2485000.
Definition SWISS_MAX_E : Z := 2834000.
Definition SWISS_MIN_N : Z := 1075000.
Definition SWISS_MAX_N : Z := 1296000.

(** [lo <= v <= hi] with integer bounds. *)
Definition between (lo : Z) (v : F) (hi : Z) : bool :=
  float_leb (float_of_int lo) v && float_leb v (float_of_int hi).

(** [if roi_size:] *)
Definition roi_size_truthy (roi_size : option Z) : option Z :=
  match roi_size with
  | Some n => if bool_decide (n = 0) then None else Some n
  | None => None
  end.

Definition point_msg (x y : F) (tail : string) : string :=
  "⚠️ Point (" +:+ float_fmt0 x +:+ ", " +:+ float_fmt0 y +:+ ")" +:+ tail.

(** The body of the [try] of [check_swiss_boundaries]. *)
Definition check_swiss_boundaries_try (x y : F) (roi_size : option Z)
    : result (bool * string) :=
  match get_swiss_boundary_polygon with
  | None =>
      if negb (between SWISS_MIN_E x SWISS_MAX_E && between SWISS_MIN_N y SWISS_MAX_N)
      then Ok (false, point_msg x y " appears outside Swiss boundaries")
      else
        match roi_size_truthy roi_size with
        | Some size =>
            let half_size := int_truediv2 size in
            let min_x := float_sub x half_size in
            let max_x := float_add x half_size in
            let min_y := float_sub y half_size in
            let max_y := float_add y half_size in
            if negb (float_leb (float_of_int SWISS_MIN_E) min_x
                     && float_leb max_x (float_of_int SWISS_MAX_E)
                     && float_leb (float_of_int SWISS_MIN_N) min_y
                     && float_leb max_y (float_of_int SWISS_MAX_N))
            then Ok (false, "⚠️ ROI extends outside Swiss boundaries. Reduce ROI size or move center point.")
            else Ok (true, "✅ Within Swiss boundaries")
        | None => Ok (true, "✅ Within Swiss boundaries")
        end
  | Some swiss_boundary =>
      let! point := Point x y in
      let! inside := contains swiss_boundary point in
      if negb inside
      then Ok (false, point_msg x y " is outside Switzerland")
      else
        match roi_size_truthy roi_size with
        | Some size =>
            let half_size := int_truediv2 size in
            let! roi_box := box (float_sub x half_size) (float_sub y half_size)
                                (float_add x half_size) (float_add y half_size) in
            let! fits := contains swiss_boundary roi_box in
            if negb fits
            then Ok (false, "⚠️ ROI extends outside Switzerland. Reduce ROI size or move center point.")
            else Ok (true, "✅ Within Switzerland")
        | None => Ok (true, "✅ Within Switzerland")
        end
  end.

Definition check_swiss_boundaries (x y : F) (roi_size : option Z) : bool * string :=
  match check_swiss_boundaries_try x y roi_size with
  | Ok verdict => verdict
  | Raise _ => (true, "⚠️ Could not validate boundaries")
  end.

Definition crosses_msg : string :=
  "⚠️ Drawn ROI crosses Swiss border. Part of the ROI is outside Switzerland. Please redraw within Swiss borders.".
Definition outside_msg : string :=
  "⚠️ Drawn ROI is completely outside Switzerland. Please redraw within Swiss borders.".

(** The body of the [try] of [check_polygon_in_swiss_boundaries]. *)
Definition check_polygon_in_swiss_boundaries_try (geojson_geometry : J)
    : result (bool * string) :=
  let! geom_wgs84 := shapely_shape geojson_geometry in
  let! geom_lv95 := to_lv95 geom_wgs84 in
  match get_swiss_boundary_polygon with
  | None =>
      let! extent := bounds geom_lv95 in
      let '(minx, miny, maxx, maxy) := extent in
      if float_ltb minx (float_of_int SWISS_MIN_E) || float_ltb (float_of_int SWISS_MAX_E) maxx
      then Ok (false, "⚠️ Drawn ROI extends outside Swiss boundaries (East-West). Please redraw within Switzerland.")
      else if float_ltb miny (float_of_int SWISS_MIN_N) || float_ltb (float_of_int SWISS_MAX_N) maxy
      then Ok (false, "⚠️ Drawn ROI extends outside Swiss boundaries (North-South). Please redraw within Switzerland.")
      else Ok (true, "✅ ROI within Swiss boundaries (bounding box check)")
  | Some swiss_boundary =>
      let! inside := contains swiss_boundary geom_lv95 in
      if negb inside then
        let! touches := intersects swiss_boundary geom_lv95 in
        if touches then Ok (false, crosses_msg) else Ok (false, outside_msg)
      else Ok (true, "✅ ROI within Switzerland (boundary polygon check)")
  end.

Definition check_polygon_in_swiss_boundaries (geojson_geometry : J) : bool * string :=
  match check_polygon_in_swiss_boundaries_try geojson_geometry with
  | Ok verdict => verdict
  | Raise e =>
      (false, "❌ Could not validate boundaries (error: " +:+ exn_str e
              +:+ "). Please check your ROI.")
  end.

Definition save_drawn_roi (geojson_geometry : J) (output_path : string) : bool * string :=
  match (let! geom := shapely_shape geojson_geometry in
         let! gdf := to_lv95 geom in
         to_file gdf output_path) with
  | Ok _ => (true, "✅ ROI saved successfully to " +:+ output_path)
  | Raise e => (false, "❌ Error saving ROI: " +:+ exn_str e)
  end.

End Validators.

Arguments poi F : clear implicits.
Arguments ParameterSet F : clear implicits.

(** ** The session and the ROI tab *)

Section Gui.
Context {F G J : Type} {FL : PyFloat F} {GL : Geometry F G J}.

(** [st.session_state]: [config], [roi_validated], [poi_list_ch] (absent
    until the POI tab creates it) and [poi_list] of the other mode. *)
Record session : Type := {
  config : config_dict;
  roi_validated : bool;
  poi_list_ch : option (list (poi F));
  poi_list_other : list (poi F)
}.

Definition session_init : session :=
  {| config := ∅; roi_validated := false; poi_list_ch := None; poi_list_other := [] |}.

Definition set_config (f : config_dict → config_dict) (s : session) : session :=
  {| config := f (config s); roi_validated := roi_validated s;
     poi_list_ch := poi_list_ch s; poi_list_other := poi_list_other s |}.

Definition set_roi_validated (b : bool) (s : session) : session :=
  {| config := config s; roi_validated := b;
     poi_list_ch := poi_list_ch s; poi_list_other := poi_list_other s |}.

Definition set_poi_list_ch (l : option (list (poi F))) (s : session) : session :=
  {| config := config s; roi_validated := roi_validated s;
     poi_list_ch := l; poi_list_other := poi_list_other s |}.

Definition set_poi_list_other (l : list (poi F)) (s : session) : session :=
  {| config := config s; roi_validated := roi_validated s;
     poi_list_ch := poi_list_ch s; poi_list_other := l |}.

Inductive shapefile_option_t : Type := DrawOnMap | UseExistingShapefile.

(** What the widgets of the ROI tab return in one run of the script. *)
Record roi_inputs : Type := {
  w_use_shapefile : bool;
  w_shapefile_option : shapefile_option_t;
  w_found_shapefiles : list string;
  w_selected_shapefile : string;
  w_shapefile_path : string;
  w_mask_lus : bool;
  w_mask_dem : bool;
  w_last_active_drawing : option J;
  w_shapefile_name : string;
  w_save_button : bool;
  w_poi_x : F;
  w_poi_y : F;
  w_roi_size : Z
}.

(** A call of a boundary validator and its verdict. *)
Inductive validation : Type :=
  | CheckedBox (x y : F) (roi_size : Z) (ok : bool)
  | CheckedPolygon (geometry : J) (ok : bool).

(** [bool(text)] *)
Definition nonempty (s : string) : bool := negb (bool_decide (s = EmptyString)).

(** The two masking check boxes and the assignments that follow them. *)
Definition store_masks (mask_lus mask_dem : bool) (s : session) : session :=
  let s := set_config (<["mask_lus_to_polygon" := VBool mask_lus]>) s in
  set_config (<["mask_dem_to_polygon" := VBool (if mask_lus then mask_dem else false)]>) s.

(** The branch [Use existing shapefile]. *)
Definition roi_existing_shapefile (w : roi_inputs) (s : session) : session :=
  let s :=
    match w_found_shapefiles w with
    | _ :: _ =>
        if negb (bool_decide (w_selected_shapefile w = "[Type path manually]"))
        then set_roi_validated true s
        else set_roi_validated (nonempty (w_shapefile_path w)) s
    | [] => set_roi_validated (nonempty (w_shapefile_path w)) s
    end in
  store_masks (w_mask_lus w) (w_mask_dem w) s.

(** The branch [Draw on interactive map]. *)
Definition roi_draw_on_map (w : roi_inputs) (s : session) : session * list validation :=
  let '(s, checks) :=
    match w_last_active_drawing w with
    | Some drawn_geom =>
        let '(is_valid, boundary_msg) := check_polygon_in_swiss_boundaries drawn_geom in
        let s :=
          if is_valid then
            if w_save_button w && nonempty (w_shapefile_name w) then
              let shapefile_path := "config/shapefiles/" +:+ w_shapefile_name w +:+ ".shp" in
              let '(success, message) := save_drawn_roi drawn_geom shapefile_path in
              if success then
                set_roi_validated true
                  (set_config (<["roi_shapefile" := VStr shapefile_path]>) s)
              else set_roi_validated false s
            else s
          else set_roi_validated false s in
        (s, [CheckedPolygon drawn_geom is_valid])
    | None => (s, [])
    end in
  (store_masks (w_mask_lus w) (w_mask_dem w) s, checks).

(** The branch of the centre point and the square extent. *)
Definition roi_center_point (w : roi_inputs) (s : session) : session * list validation :=
  let s := set_config (<["mask_dem_to_polygon" := VBool true]>) s in
  let s := set_config (<["mask_lus_to_polygon" := VBool true]>) s in
  let '(is_valid, boundary_msg) :=
    check_swiss_boundaries (w_poi_x w) (w_poi_y w) (Some (w_roi_size w)) in
  (set_roi_validated is_valid s,
   [CheckedBox (w_poi_x w) (w_poi_y w) (w_roi_size w) is_valid]).

(** One run of the ROI tab: the session it leaves and the validator calls it made. *)
Definition roi_tab (w : roi_inputs) (s : session) : session * list validation :=
  if w_use_shapefile w then
    match w_shapefile_option w with
    | UseExistingShapefile => (roi_existing_shapefile w s, [])
    | DrawOnMap => roi_draw_on_map w s
    end
  else roi_center_point w s.

(** [disabled=not roi_validated] of the [Start Run] button. *)
Definition start_run_disabled (s : session) : bool := negb (roi_validated s).

(** The steps that change the session: loading a stored file, a run of the
    ROI tab, an assignment to a key of [config] other than the two masking
    flags (the land-cover tab, the binary paths, the working directory, the
    DEM path), and the edits of the POI lists. *)
Inductive session_step : session → session → Prop :=
  | step_load file s :
      session_step s (set_config (fun cfg => fst (load_selected_config file cfg)) s)
  | step_roi_tab w s :
      session_step s (fst (roi_tab w s))
  | step_assign key v s :
      key ≠ "mask_dem_to_polygon" → key ≠ "mask_lus_to_polygon" →
      session_step s (set_config (<[key := v]>) s)
  | step_poi_list_ch l s :
      session_step s (set_poi_list_ch l s)
  | step_poi_list_other l s :
      session_step s (set_poi_list_other l s).

Inductive reachable : session → Prop :=
  | reach_init : reachable session_init
  | reach_step s s' : reachable s → session_step s s' → reachable s'.

(** [config.get('mask_dem_to_polygon', True)] and its sibling, as the writer
    and the summary read them. *)
Definition effective_mask_dem (s : session) : bool :=
  truthy (config_get (config s) "mask_dem_to_polygon" (VBool true)).
Definition effective_mask_lus (s : session) : bool :=
  truthy (config_get (config s) "mask_lus_to_polygon" (VBool true)).

(** The parameter set the handlers write: the widgets' values [w], with the
    masking flags and the points of interest read from the session. *)
Definition saved_parameter_set (w : ParameterSet F) (s : session) : ParameterSet F :=
  {| simu_name := simu_name w; start_dt := start_dt w; end_dt := end_dt w;
     poi_x := poi_x w; poi_y := poi_y w; poi_z := poi_z w;
     use_shapefile := use_shapefile w; roi_shapefile := roi_shapefile w;
     roi_size := roi_size w; buffer_size := buffer_size w;
     coord_sys := coord_sys w; gsd := gsd w; gsd_ref := gsd_ref w;
     mask_dem_to_polygon := effective_mask_dem s;
     mask_lus_to_polygon := effective_mask_lus s;
     lus_source := lus_source w; lus_constant := lus_constant w;
     poi_list := from_option id [] (poi_list_ch s) |}.

(** The text the [Save Config] handler writes. *)
Definition save_config (now : datetime) (w : ParameterSet F) (s : session) : string :=
  serialize now (saved_parameter_set w s).

End Gui.

(** ** The run blocks

    The file system is a map from paths to contents; a directory counts as a
    path.  The external process is given by what [Popen] and its pipe do. *)

Abbreviation files := (gmap string string).

Inductive run_outcome : Type :=
  (** [subprocess.Popen] raises. *)
  | LaunchError (e : exn)
  (** The process starts, these lines are read, then reading or waiting raises. *)
  | StreamError (lines : list string) (e : exn)
  (** The process prints these lines and exits with this code. *)
  | Exited (lines : list string) (returncode : Z).

(** The process world: for a command line, the outcome seen by the program
    and what the process did to the files meanwhile. *)
Record process_world : Type := {
  popen : list string → run_outcome;
  side_effect : list string → files → files
}.

Inductive ui_event : Type :=
  | UiInfo (text : string)
  | UiSuccess (text : string)
  | UiWarning (text : string)
  | UiError (text : string)
  | UiCode (text : string)
  | UiSnow
  | UiDownload (file_name data : string).

Inductive file_event : Type :=
  | WriteFile (path : string)
  | Unlink (path : string).

Record run_state : Type := {
  run_files : files;
  run_config : config_dict;
  run_ui : list ui_event;
  run_file_events : list file_event
}.

Definition say (e : ui_event) (r : run_state) : run_state :=
  {| run_files := run_files r; run_config := run_config r;
     run_ui := run_ui r ++ [e]; run_file_events := run_file_events r |}.

(** [open(path, 'w')] and [f.write(content)] *)
Definition write_file (path content : string) (r : run_state) : run_state :=
  {| run_files := <[path := content]> (run_files r); run_config := run_config r;
     run_ui := run_ui r; run_file_events := run_file_events r ++ [WriteFile path] |}.

(** [path.unlink()] *)
Definition unlink (path : string) (r : run_state) : run_state :=
  {| run_files := delete path (run_files r); run_config := run_config r;
     run_ui := run_ui r; run_file_events := run_file_events r ++ [Unlink path] |}.

Definition exists_path (path : string) (r : run_state) : bool :=
  bool_decide (path ∈ dom (run_files r)).

(** The [finally] clause: [if temp_config.exists(): temp_config.unlink()] *)
Definition cleanup (temp_config : string) (r : run_state) : run_state :=
  if exists_path temp_config r then unlink temp_config r else r.

Definition with_files (f : files → files) (r : run_state) : run_state :=
  {| run_files := f (run_files r); run_config := run_config r;
     run_ui := run_ui r; run_file_events := run_file_events r |}.

Definition with_run_config (f : config_dict → config_dict) (r : run_state) : run_state :=
  {| run_files := run_files r; run_config := f (run_config r);
     run_ui := run_ui r; run_file_events := run_file_events r |}.

(** The loop over [process.stdout]: each line joins the log, which is shown anew. *)
Fixpoint stream_output (full_log lines : list string) (r : run_state) : run_state :=
  match lines with
  | [] => r
  | line :: rest =>
      let full_log := (full_log ++ [rstrip line])%list in
      stream_output full_log rest (say (UiCode (join_nl full_log)) r)
  end.

(** [" ".join(cmd)] *)
Fixpoint join_space (parts : list string) : string :=
  match parts with
  | [] => EmptyString
  | [p] => p
  | p :: ps => p +:+ " " +:+ join_space ps
  end.

(** [try: ... except Exception as e: ... finally: ...] over a run state. *)
Definition try_except_finally (body : run_state → run_state * option exn)
    (handler : exn → run_state → run_state) (final : run_state → run_state)
    (r : run_state) : run_state :=
  match body r with
  | (r', None) => final r'
  | (r', Some e) => final (handler e r')
  end.

Section Run.
Context {F : Type} {FL : PyFloat F}.
Variable world : process_world.

(** [config_content] of the [Start Run] handler: the lines of the literal
    carry the indentation of the source. *)
Definition temp_config_content (p : ParameterSet F) : string :=
  let config_content :=
    "# Temporary A3Dshell Configuration" +:+ nl
    +:+ "    [GENERAL]" +:+ nl
    +:+ "    SIMULATION_NAME = " +:+ simu_name p +:+ nl
    +:+ "    START_DATE = " +:+ strftime_iso (start_dt p) +:+ nl
    +:+ "    END_DATE = " +:+ strftime_iso (end_dt p) +:+ nl
    +:+ "    " +:+ nl
    +:+ "    [INPUT]" +:+ nl
    +:+ "    EAST_epsg2056 = " +:+ float_str (poi_x p) +:+ nl
    +:+ "    NORTH_epsg2056 = " +:+ float_str (poi_y p) +:+ nl
    +:+ "    altLV95 = " +:+ float_str (poi_z p) +:+ nl
    +:+ "    USE_SHP_ROI = " +:+ py_bool_str (use_shapefile p) +:+ nl
    +:+ "    " in
  let config_content :=
    if use_shapefile p
    then config_content +:+ "ROI_SHAPEFILE = " +:+ roi_shapefile p +:+ nl
    else config_content +:+ "ROI = " +:+ int_str (roi_size p) +:+ nl in
  let config_content := config_content +:+ "BUFFERSIZE = " +:+ int_str (buffer_size p) +:+ nl in
  let config_content := config_content +:+ nl +:+ "[OUTPUT]" +:+ nl in
  let config_content := config_content +:+ "OUT_COORDSYS = " +:+ coord_sys_str (coord_sys p) +:+ nl in
  let config_content := config_content +:+ "GSD = " +:+ float_str (gsd p) +:+ nl in
  let config_content := config_content +:+ "GSD_ref = " +:+ float_str (gsd_ref p) +:+ nl in
  let config_content := config_content +:+ "DEM_ADDFMTLIST =" +:+ nl in
  let config_content := config_content +:+ "MESH_FMT = vtu" +:+ nl in
  let config_content :=
    config_content +:+ "MASK_DEM_TO_POLYGON = "
    +:+ py_bool_str (mask_dem_to_polygon p) +:+ nl in
  let config_content :=
    config_content +:+ "MASK_LUS_TO_POLYGON = "
    +:+ py_bool_str (mask_lus_to_polygon p) +:+ nl in
  let config_content := config_content +:+ nl +:+ "[MAPS]" +:+ nl in
  let config_content := config_content +:+ "PLOT_HORIZON = false" +:+ nl in
  let config_content := config_content +:+ nl +:+ "[A3D]" +:+ nl in
  let config_content := config_content +:+ "USE_GROUNDEYE = false" +:+ nl in
  let config_content :=
    config_content +:+ "LUS_SOURCE = " +:+ lus_source_str (lus_source p) +:+ nl in
  let config_content :=
    match lus_source p with
    | Constant => config_content +:+ "LUS_PREVAH_CST = " +:+ int_str (lus_constant p) +:+ nl
    | _ => config_content
    end in
  let config_content := config_content +:+ "DO_PVP_3D = false" +:+ nl in
  let config_content := config_content +:+ "PVP_3D_FMT = vtu" +:+ nl in
  let config_content := config_content +:+ "SP_BIN_PATH = snowpack" +:+ nl in
  match poi_list p with
  | [] => config_content
  | pois => config_content +:+ nl +:+ "[POIS]" +:+ nl +:+ pois_content pois
  end.

(** The body of the [try] of the [Start Run] handler. *)
Definition start_run_try (simu_name : string) (command : list string)
    (r : run_state) : run_state * option exn :=
  match popen world command with
  | LaunchError e => (r, Some e)
  | StreamError lines e =>
      (stream_output [] lines (with_files (side_effect world command) r), Some e)
  | Exited lines returncode =>
      let r := stream_output [] lines (with_files (side_effect world command) r) in
      if bool_decide (returncode = 0) then
        let r := say UiSnow (say (UiSuccess "✅ Run completed successfully!") r) in
        let output_dir := "output/" +:+ simu_name in
        if exists_path output_dir r then
          let r := say (UiInfo ("Output location: " +:+ output_dir)) r in
          let r := with_run_config (<["a3d_working_dir" := VStr output_dir]>) r in
          let r := say (UiInfo "Working directory set for **Run A3D** tab.") r in
          let zip_path := "output/" +:+ simu_name +:+ ".zip" in
          match run_files r !! zip_path with
          | Some zip_data => (say (UiDownload (simu_name +:+ ".zip") zip_data) r, None)
          | None => (say (UiWarning ("ZIP file not found at " +:+ zip_path)) r, None)
          end
        else (r, None)
      else
        (say (UiError ("❌ Run failed with exit code " +:+ int_str returncode)) r, None)
  end.

(** The handler of the [Start Run] button, once the button is pressed. *)
Definition start_run (p : ParameterSet F) (log_level : string) (skip_snowpack : bool)
    (r : run_state) : run_state :=
  if bool_decide (simu_name p = EmptyString) then
    say (UiError "Please provide a simulation name") r
  else
    let temp_config := "config/_temp_" +:+ simu_name p +:+ ".ini" in
    let r := write_file temp_config (temp_config_content p) r in
    let command :=
      (["python"; "-m"; "src.cli"; "--config"; temp_config; "--log-level"; log_level]
       ++ (if skip_snowpack then ["--skip-snowpack"] else []))%list in
    let r := say (UiInfo ("🚀 Starting simulation: " +:+ simu_name p)) r in
    let r := say (UiCode (join_space command)) r in
    try_except_finally
      (start_run_try (simu_name p) command)
      (fun e => say (UiError ("❌ Error running simulation: " +:+ exn_str e)))
      (cleanup temp_config)
      r.

(** The values the other mode writes. *)
Record OtherParameters : Type := {
  simu_name_other : string;
  target_epsg : Z;
  lus_constant_other : Z
}.

(** [f"{config.get('user_dem_path', '')}"] *)
Definition user_dem_path_str (cfg : config_dict) : string :=
  match config_get cfg "user_dem_path" (VStr EmptyString) with
  | VStr s => s
  | VBool b => if b then "True" else "False"
  | VNone => "None"
  end.

Definition temp_config_content_other (o : OtherParameters) (cfg : config_dict)
    (pois : list (poi F)) : string :=
  let config_content :=
    "# Temporary A3Dshell Configuration - Other Locations" +:+ nl
    +:+ "[GENERAL]" +:+ nl
    +:+ "SIMULATION_NAME = " +:+ simu_name_other o +:+ nl
    +:+ nl
    +:+ "[INPUT]" +:+ nl
    +:+ "DEM_MODE = user_provided" +:+ nl
    +:+ "USER_DEM_PATH = " +:+ user_dem_path_str cfg +:+ nl
    +:+ "TARGET_EPSG = " +:+ int_str (target_epsg o) +:+ nl in
  let config_content := config_content +:+ nl +:+ "[OUTPUT]" +:+ nl in
  let config_content := config_content +:+ "OUT_COORDSYS = EPSG:" +:+ int_str (target_epsg o) +:+ nl in
  let config_content := config_content +:+ "DEM_ADDFMTLIST =" +:+ nl in
  let config_content := config_content +:+ "MESH_FMT = vtu" +:+ nl in
  let config_content := config_content +:+ nl +:+ "[MAPS]" +:+ nl in
  let config_content := config_content +:+ "PLOT_HORIZON = false" +:+ nl in
  let config_content := config_content +:+ nl +:+ "[A3D]" +:+ nl in
  let config_content := config_content +:+ "USE_GROUNDEYE = false" +:+ nl in
  let config_content := config_content +:+ "LUS_SOURCE = constant" +:+ nl in
  let config_content :=
    config_content +:+ "LUS_PREVAH_CST = " +:+ int_str (lus_constant_other o) +:+ nl in
  let config_content := config_content +:+ "DO_PVP_3D = false" +:+ nl in
  let config_content := config_content +:+ "PVP_3D_FMT = vtu" +:+ nl in
  let config_content := config_content +:+ "SP_BIN_PATH = input/bin/snowpack" +:+ nl in
  match pois with
  | [] => config_content
  | _ => config_content +:+ nl +:+ "[POIS]" +:+ nl +:+ pois_content pois
  end.

(** The body of the [try] of the [Start Setup] handler. *)
Definition start_setup_try (simu_name : string) (command : list string)
    (r : run_state) : run_state * option exn :=
  match popen world command with
  | LaunchError e => (r, Some e)
  | StreamError lines e =>
      (stream_output [] lines (with_files (side_effect world command) r), Some e)
  | Exited lines returncode =>
      let r := stream_output [] lines (with_files (side_effect world command) r) in
      if bool_decide (returncode = 0) then
        let r := say (UiSuccess "✅ Setup completed successfully!") r in
        (say (UiInfo ("**Next Steps**: Add your SMET meteorological files to `output/"
                      +:+ simu_name +:+ "/input/meteo/`")) r, None)
      else
        (say (UiError ("❌ Setup failed with exit code " +:+ int_str returncode)) r, None)
  end.

(** The handler of the [Start Setup] button of the other mode. *)
Definition start_setup (o : OtherParameters) (pois : list (poi F)) (log_level : string)
    (r : run_state) : run_state :=
  if bool_decide (simu_name_other o = EmptyString) then
    say (UiError "Please provide a simulation name") r
  else if negb (truthy (config_get (run_config r) "user_dem_path" VNone)) then
    say (UiError "Please select a DEM file") r
  else
    let temp_config := "config/_temp_" +:+ simu_name_other o +:+ ".ini" in
    let r := write_file temp_config (temp_config_content_other o (run_config r) pois) r in
    let command :=
      ["python"; "-m"; "src.cli"; "--config"; temp_config;
       "--log-level"; log_level; "--skip-snowpack"] in
    try_except_finally
      (start_setup_try (simu_name_other o) command)
      (fun e => say (UiError ("❌ Error running setup: " +:+ exn_str e)))
      (cleanup temp_config)
      r.

End Run.

(** ** Conversions of the standard library

    [int(text)], [datetime.fromisoformat(text)] and [repr(text)] are kept
    abstract.  What the program relies on is that [int] reads back what
    [str] printed for an integer of a number input, and that
    [fromisoformat] reads back a date and a time of day printed with a space
    between them. *)

Definition is_leap (y : nat) : bool :=
  ((y mod 4 =? 0) && negb (y mod 100 =? 0) || (y mod 400 =? 0))%nat.

Definition days_in_month (y m : nat) : nat :=
  match m with
  | 2 => if is_leap y then 29 else 28
  | 4 | 6 | 9 | 11 => 30
  | _ => 31
  end%nat.

(** A date and a time of day that a [datetime] holds, with a year of four digits. *)
Definition valid_datetime (dt : datetime) : bool :=
  (1000 <=? Z.of_nat (year dt)) && (Z.of_nat (year dt) <=? 9999)
  && ((1 <=? month dt) && (month dt <=? 12)
   && (1 <=? day dt) && (day dt <=? days_in_month (year dt) (month dt))
   && (hour dt <? 24) && (minute dt <? 60) && (second dt <? 60))%nat.

(** The integers a number input returns. *)
Definition number_input_int (n : Z) : bool := (- 2 ^ 53 <? n) && (n <? 2 ^ 53).

Class PyConvert : Type := {
  int_of_str : string → result Z;             (* int(text) *)
  fromisoformat : string → result datetime;   (* datetime.fromisoformat(text) *)
  repr : string → string;                     (* repr(text) *)
  int_of_int_str : ∀ n, number_input_int n = true → int_of_str (int_str n) = Ok n;
  fromisoformat_stamp :
    ∀ dt, valid_datetime dt = true → fromisoformat (strftime_stamp dt) = Ok dt
}.

(** ** The tabs and their defaults *)

Section Tabs.
Context {PC : PyConvert}.

(** [options.index(value)] on a list of texts. *)
Fixpoint list_index (value : string) (options : list string) : option nat :=
  match options with
  | [] => None
  | o :: rest =>
      if bool_decide (o = value) then Some O else S <$> list_index value rest
  end.

Definition py_repr (v : pyval) : string :=
  match v with
  | VStr s => repr s
  | VBool b => if b then "True" else "False"
  | VNone => "None"
  end.

(** [options.index(v)] for a value of [config]: only a text can be found. *)
Definition options_index (options : list string) (v : pyval) : result nat :=
  match (match v with VStr s => list_index s options | _ => None end) with
  | Some i => Ok i
  | None => Raise (ValueError (py_repr v +:+ " is not in list"))
  end.

(** [text.replace('T', ' ')] *)
Fixpoint replace_T (s : string) : string :=
  match s with
  | EmptyString => EmptyString
  | String c s' => String (if bool_decide (c = "T"%char) then " "%char else c) (replace_T s')
  end.

(** The default of the widgets of a date: what [fromisoformat] makes of the
    stored text, and the fallback when the key is missing or falsy or when
    anything in the [try] raises. *)
Definition default_datetime (cfg : config_dict) (key : string) (fallback : datetime)
    : datetime :=
  let v := config_get cfg key VNone in
  if truthy v then
    match (match v with
           | VStr s => fromisoformat (replace_T s)
           | _ => Raise (Exception "'bool' object has no attribute 'replace'")
           end) with
    | Ok dt => dt
    | Raise _ => fallback
    end
  else fallback.

Definition coord_sys_options : list string := ["CH1903+"; "CH1903"; "WGS84"].

(** The values the widgets of the [General] tab start from. *)
Record general_widgets : Type := {
  gw_simu_name : pyval;
  gw_coord_sys_index : nat;
  gw_default_start : datetime;
  gw_default_end : datetime
}.

(** The [General] tab up to its date widgets. *)
Definition general_tab (cfg : config_dict) : result general_widgets :=
  let simu_name := config_get cfg "simu_name" (VStr EmptyString) in
  let! index := options_index coord_sys_options
                  (config_get cfg "coord_sys" (VStr "CH1903+")) in
  let default_start :=
    default_datetime cfg "start_date"
      {| year := 2023; month := 10; day := 1; hour := 0; minute := 0; second := 0 |} in
  let default_end :=
    default_datetime cfg "end_date"
      {| year := 2023; month := 10; day := 31; hour := 23; minute := 59; second := 59 |} in
  Ok {| gw_simu_name := simu_name; gw_coord_sys_index := index;
        gw_default_start := default_start; gw_default_end := default_end |}.

(** [int(config.get(key, default))] with an integer default. *)
Definition config_int (cfg : config_dict) (key : string) (default : Z) : result Z :=
  match cfg !! key with
  | None => Ok default
  | Some (VStr s) => int_of_str s
  | Some (VBool b) => Ok (if b then 1 else 0)
  | Some VNone =>
      Raise (Exception "int() argument must be a string, a bytes-like object or a real number, not 'NoneType'")
  end.

(** [value=] of the check box of the spatial mode, of the ROI size, and of
    the buffer size of the meteo tab. *)
Definition use_shapefile_default (cfg : config_dict) : pyval :=
  config_get cfg "use_shp" (VBool true).
Definition roi_size_default (cfg : config_dict) : result Z := config_int cfg "roi_size" 1000.
Definition buffer_size_default (cfg : config_dict) : result Z :=
  config_int cfg "buffer_size" 10000.

(** The land-cover tab. *)
Definition lus_source_options : list string :=
  ["SwissTLMRegio"; "BFS Arealstatistik (NOAS04)"; "Constant Value"].

Definition lus_source_map : list (string * string) :=
  [ ("SwissTLMRegio", "tlm"); ("BFS Arealstatistik (NOAS04)", "bfs");
    ("Constant Value", "constant") ].

(** [{v: k for k, v in lus_source_map.items()}] *)
Definition lus_source_reverse : list (string * string) :=
  map (fun kv => (snd kv, fst kv)) lus_source_map.

(** [d.get(key, default)] on a dictionary of texts. *)
Fixpoint dict_get (key : string) (d : list (string * string)) (default : string) : string :=
  match d with
  | [] => default
  | (k, v) :: rest => if bool_decide (k = key) then v else dict_get key rest default
  end.

Definition lus_default_index (cfg : config_dict) : result nat :=
  let default_source := config_get cfg "lus_source" (VStr "tlm") in
  let default_source :=
    match default_source with
    | VStr s => if bool_decide (s ∈ map snd lus_source_map) then s else "tlm"
    | _ => "tlm"
    end in
  let default_display := dict_get default_source lus_source_reverse "SwissTLMRegio" in
  options_index lus_source_options (VStr default_display).

(** What the land-cover tab starts from: the index of the source, and the
    code [int(config.get('lus_cst', 11500))]. *)
Definition landcover_defaults (cfg : config_dict) : result (nat * Z) :=
  let! default_idx := lus_default_index cfg in
  let! lus_constant := config_int cfg "lus_cst" 11500 in
  Ok (default_idx, lus_constant).

(** [os.environ.get(name, '').lower() in ('true', '1', 'yes')] *)
Definition env_flag (value : option string) : bool :=
  let v := lower (default EmptyString value) in
  bool_decide (v = "true") || bool_decide (v = "1") || bool_decide (v = "yes").

(** The check box [Skip Snowpack preprocessing]: checked and disabled when
    the IMIS database is out of reach, else as the user leaves it. *)
Definition skip_snowpack_checkbox (imis_available : option string) (checked : bool) : bool :=
  if negb (env_flag imis_available) then true else checked.

(** The DEM selection of the other mode: [absolute] is [Path.absolute]. *)
Definition dem_tab (absolute : string → string) (dem_files : list string)
    (selected_dem : string) (cfg : config_dict) : config_dict :=
  match dem_files with
  | _ :: _ =>
      if negb (bool_decide (selected_dem = "[Select a DEM file]"))
      then <["user_dem_path" := VStr (absolute ("config/dem/" +:+ selected_dem))]> cfg
      else <["user_dem_path" := VNone]> cfg
  | [] => <["user_dem_path" := VNone]> cfg
  end.

End Tabs.

(** ** Saving in the other mode *)

Section OtherSave.
Context {F : Type} {FL : PyFloat F}.

(** [config_content] of the [Save Config] handler of the other mode; the
    DEM path is read from [config]. *)
Definition serialize_other (now : datetime) (o : OtherParameters) (gsd_other : F)
    (cfg : config_dict) (pois : list (poi F)) : string :=
  let config_content :=
    "# A3Dshell Configuration - Other Locations Mode" +:+ nl
    +:+ "# Generated: " +:+ strftime_iso now +:+ nl
    +:+ nl
    +:+ "[GENERAL]" +:+ nl
    +:+ "SIMULATION_NAME = " +:+ simu_name_other o +:+ nl
    +:+ nl
    +:+ "[INPUT]" +:+ nl
    +:+ "DEM_MODE = user_provided" +:+ nl
    +:+ "USER_DEM_PATH = " +:+ user_dem_path_str cfg +:+ nl
    +:+ "TARGET_EPSG = " +:+ int_str (target_epsg o) +:+ nl
    +:+ nl
    +:+ "[OUTPUT]" +:+ nl
    +:+ "OUT_COORDSYS = EPSG:" +:+ int_str (target_epsg o) +:+ nl
    +:+ "GSD = " +:+ float_str gsd_other +:+ nl
    +:+ "DEM_ADDFMTLIST =" +:+ nl
    +:+ "MESH_FMT = vtu" +:+ nl
    +:+ nl
    +:+ "[MAPS]" +:+ nl
    +:+ "PLOT_HORIZON = false" +:+ nl
    +:+ nl
    +:+ "[A3D]" +:+ nl
    +:+ "USE_GROUNDEYE = false" +:+ nl
    +:+ "LUS_SOURCE = constant" +:+ nl
    +:+ "LUS_PREVAH_CST = " +:+ int_str (lus_constant_other o) +:+ nl
    +:+ "DO_PVP_3D = false" +:+ nl
    +:+ "PVP_3D_FMT = vtu" +:+ nl
    +:+ "SP_BIN_PATH = input/bin/snowpack" +:+ nl in
  match pois with
  | [] => config_content
  | _ => config_content +:+ nl +:+ "[POIS]" +:+ nl +:+ pois_content pois
  end.

End OtherSave.

(** ** The forms of the points of interest *)

(** [x == y] on floats. *)
Class PyFloatEq (F : Type) : Type := {
  float_eqb : F → F → bool
}.

Section PoiForms.
Context {F G J : Type} {FL : PyFloat F} {FE : PyFloatEq F} {GL : Geometry F G J}.

(** [is_poi_in_roi]: the polygon of the shapefile when there is one and the
    shapefile mode is on, else the bounds of the ROI, else no test. *)
Definition is_poi_in_roi (roi_polygon : option G) (use_shapefile : bool)
    (roi_bounds : option (F * F * F * F)) (x y : F) : result bool :=
  match roi_polygon, use_shapefile with
  | Some polygon, true => let! point := Point x y in contains polygon point
  | _, _ =>
      match roi_bounds with
      | Some (minx, miny, maxx, maxy) =>
          Ok (float_leb minx x && float_leb x maxx && (float_leb miny y && float_leb y maxy))
      | None => Ok true
      end
  end.

(** The [Add POI] button of the Switzerland mode: the list it leaves and the
    error it shows, if any. *)
Definition add_poi_ch (roi_polygon : option G) (use_shapefile : bool)
    (roi_bounds : option (F * F * F * F))
    (poi_name_ch : string) (poi_x_ch poi_y_ch poi_z_ch : F) (pois : list (poi F))
    : result (list (poi F) * option string) :=
  if negb (nonempty poi_name_ch) then Ok (pois, Some "Please enter a POI name")
  else if float_eqb poi_x_ch (float_of_int 0) && float_eqb poi_y_ch (float_of_int 0) then
    Ok (pois, Some "Please click on the map or enter coordinates")
  else
    let! inside := is_poi_in_roi roi_polygon use_shapefile roi_bounds poi_x_ch poi_y_ch in
    if negb inside then Ok (pois, Some "POI is outside the defined ROI boundary")
    else Ok ((pois ++ [{| poi_name := poi_name_ch; poi_east := poi_x_ch;
                          poi_north := poi_y_ch; poi_elev := poi_z_ch |}])%list, None).

(** The [Add POI] button of the other mode. *)
Definition add_poi_other (add_button : bool) (poi_name : string) (x y z : F)
    (pois : list (poi F)) : list (poi F) :=
  if add_button && nonempty poi_name then
    (pois ++ [{| poi_name := poi_name; poi_east := x; poi_north := y; poi_elev := z |}])%list
  else pois.

(** The button that deletes the point at [idx]: [poi_list.pop(idx)]. *)
Definition pop_poi (idx : nat) (pois : list (poi F)) : list (poi F) := delete idx pois.

End PoiForms.

(** * Properties *)

(** ** Text lemmas *)

Lemma append_cons c s t : String c s +:+ t = String c (s +:+ t).
Proof. reflexivity. Qed.

Lemma append_nil_l s : EmptyString +:+ s = s.
Proof. reflexivity. Qed.

Lemma append_nil_r s : s +:+ EmptyString = s.
Proof. induction s as [|c s IH]; [done|]. by rewrite append_cons, IH. Qed.

Lemma append_assoc a b c : (a +:+ b) +:+ c = a +:+ (b +:+ c).
Proof. induction a as [|x a IH]; [done|]. by rewrite !append_cons, IH. Qed.

Lemma string_forallb_app f a b :
  string_forallb f (a +:+ b) = string_forallb f a && string_forallb f b.
Proof.
  induction a as [|x a IH]; [done|].
  rewrite append_cons. simpl. by rewrite IH, andb_assoc.
Qed.

Lemma string_forallb_impl (f g : ascii → bool) s :
  (∀ c, f c = true → g c = true) →
  string_forallb f s = true → string_forallb g s = true.
Proof.
  intros Hfg. induction s as [|c s IH]; [done|]. simpl.
  intros [Hc Hs]%andb_true_iff. rewrite (Hfg _ Hc). by apply IH.
Qed.

Lemma uint_str_token d : string_forallb token_char (NilEmpty.string_of_uint d) = true.
Proof. induction d; simpl; try done; by rewrite IHd. Qed.

Lemma int_str_forall n : string_forallb token_char (int_str n) = true.
Proof.
  unfold int_str. destruct (Z.to_int n) as [d|d]; simpl.
  - destruct d; try done; apply (uint_str_token (_ _)).
  - destruct d; try done; apply (uint_str_token (_ _)).
Qed.

Lemma int_str_nonempty n : int_str n ≠ EmptyString.
Proof. unfold int_str. destruct (Z.to_int n) as [d|d]; simpl; by destruct d. Qed.

Lemma is_token_intro s :
  s ≠ EmptyString → string_forallb token_char s = true → is_token s = true.
Proof.
  intros Hne Hall. unfold is_token. rewrite Hall, andb_true_r.
  by rewrite bool_decide_eq_false_2.
Qed.

Lemma is_token_elim s :
  is_token s = true → s ≠ EmptyString ∧ string_forallb token_char s = true.
Proof.
  unfold is_token. intros [Hne Hall]%andb_true_iff. split; [|done].
  by apply negb_true_iff, bool_decide_eq_false in Hne.
Qed.

Lemma int_str_token n : is_token (int_str n) = true.
Proof. apply is_token_intro; [apply int_str_nonempty | apply int_str_forall]. Qed.

(** ** Test doubles

    A float type and two geometry libraries to run the model on: multiples
    of one half (doubles hold them, their sums and their differences
    exactly below 2^52, and [str] prints them with one decimal), and
    axis-aligned rectangles with the hard-coded Swiss extent as the
    reference polygon. *)

Definition half_str (h : Z) : string :=
  (if h <? 0 then "-" else "") +:+ int_str (Z.abs h / 2)
  +:+ (if Z.even h then ".0" else ".5").

(** Rounding to an integer, ties to even. *)
Definition half_fmt0 (h : Z) : string :=
  let q := Z.abs h / 2 in
  let r := if Z.even h then q else if Z.even q then q else q + 1 in
  (if h <? 0 then "-" else "") +:+ int_str r.

Lemma half_str_token h : is_token (half_str h) = true.
Proof.
  unfold half_str. apply is_token_intro.
  - destruct (h <? 0); [done|]. rewrite append_nil_l.
    pose proof (int_str_nonempty (Z.abs h / 2)).
    destruct (int_str (Z.abs h / 2)); done.
  - rewrite !string_forallb_app, int_str_forall.
    by destruct (h <? 0), (Z.even h).
Qed.

#[export] Instance HalfFloat : PyFloat Z := {|
  float_str := half_str;
  float_fmt0 := half_fmt0;
  float_of_int := fun n => 2 * n;
  int_truediv2 := fun n => n;
  float_add := Z.add;
  float_sub := Z.sub;
  float_leb := Z.leb;
  float_ltb := Z.ltb;
  float_str_token := half_str_token
|}.

(** A rectangle [(x0, y0, x1, y1)]; a point is a rectangle without extent. *)
Definition rect : Type := Z * Z * Z * Z.

Definition rect_contains (a b : rect) : bool :=
  let '(ax0, ay0, ax1, ay1) := a in
  let '(bx0, by0, bx1, by1) := b in
  if bool_decide (bx0 = bx1 ∧ by0 = by1)
  then (ax0 <? bx0) && (bx0 <? ax1) && (ay0 <? by0) && (by0 <? ay1)
  else (ax0 <=? bx0) && (bx1 <=? ax1) && (ay0 <=? by0) && (by1 <=? ay1).

Definition rect_intersects (a b : rect) : bool :=
  let '(ax0, ay0, ax1, ay1) := a in
  let '(bx0, by0, bx1, by1) := b in
  (ax0 <=? bx1) && (bx0 <=? ax1) && (ay0 <=? by1) && (by0 <=? ay1).

(** The bounding rectangle of a ring. *)
Definition rect_of_ring (ring : list (Z * Z)) : result rect :=
  match ring with
  | [] => Raise (ValueError "A linearring requires at least 4 coordinates.")
  | (x, y) :: rest =>
      Ok (fold_right (fun '(px, py) '(x0, y0, x1, y1) =>
                        (Z.min px x0, Z.min py y0, Z.max px x1, Z.max py y1))
                     (x, y, x, y) rest)
  end.

Definition swiss_extent_ring : list (Z * Z) :=
  [ (2 * 2485000, 2 * 1075000); (2 * 2834000, 2 * 1075000);
    (2 * 2834000, 2 * 1296000); (2 * 2485000, 2 * 1296000);
    (2 * 2485000, 2 * 1075000) ].

#[export] Instance RectGeometry : Geometry Z rect rect := {|
  Point := fun x y => Ok (x, y, x, y);
  box := fun x0 y0 x1 y1 => Ok (x0, y0, x1, y1);
  Polygon := rect_of_ring;
  contains := fun a b => Ok (rect_contains a b);
  intersects := fun a b => Ok (rect_intersects a b);
  bounds := fun g => Ok g;
  shapely_shape := fun j => Ok j;
  to_lv95 := fun g => Ok g;
  to_file := fun _ _ => Ok ();
  swisstopo_rings := Ok (Some swiss_extent_ring)
|}.

(** The same library when its predicates fail on the reference polygon. *)
Definition topology_error : exn := Exception "TopologyException: side location conflict".

Definition FailingGeometry : Geometry Z rect rect := {|
  Point := fun x y => Ok (x, y, x, y);
  box := fun x0 y0 x1 y1 => Ok (x0, y0, x1, y1);
  Polygon := rect_of_ring;
  contains := fun _ _ => Raise topology_error;
  intersects := fun _ _ => Raise topology_error;
  bounds := fun g => Ok g;
  shapely_shape := fun j => Ok j;
  to_lv95 := fun g => Ok g;
  to_file := fun _ _ => Ok ();
  swisstopo_rings := Ok (Some swiss_extent_ring)
|}.

(** ** The boundary validators *)

Section ValidatorProperties.
Context {F G J : Type} {FL : PyFloat F} {GL : Geometry F G J}.

(** The verdict on the centre point alone: the point test of either path,
    with no box built and no extent compared. *)
Definition center_point_verdict (x y : F) : bool * string :=
  match get_swiss_boundary_polygon with
  | None =>
      if negb (between SWISS_MIN_E x SWISS_MAX_E && between SWISS_MIN_N y SWISS_MAX_N)
      then (false, point_msg x y " appears outside Swiss boundaries")
      else (true, "✅ Within Swiss boundaries")
  | Some swiss_boundary =>
      match (let! point := Point x y in contains swiss_boundary point) with
      | Ok inside =>
          if negb inside then (false, point_msg x y " is outside Switzerland")
          else (true, "✅ Within Switzerland")
      | Raise _ => (true, "⚠️ Could not validate boundaries")
      end
  end.

(** C10. When [roi_size] is [None] or [0], [check_swiss_boundaries] skips the
    containment test of the ROI box and returns the verdict on the centre
    point alone, in the degraded path and in the polygon path alike. *)
Theorem check_swiss_boundaries_without_roi_size (x y : F) :
  check_swiss_boundaries x y None = center_point_verdict x y
  ∧ check_swiss_boundaries x y (Some 0) = center_point_verdict x y.
Proof.
  unfold check_swiss_boundaries, check_swiss_boundaries_try, center_point_verdict.
  simpl roi_size_truthy.
  destruct get_swiss_boundary_polygon as [swiss_boundary|].
  - destruct (Point x y) as [point|e]; simpl; [|done].
    destruct (contains swiss_boundary point) as [[]|e]; simpl; done.
  - destruct (negb _); done.
Qed.

Definition error_msg (e : exn) : string :=
  "❌ Could not validate boundaries (error: " +:+ exn_str e +:+ "). Please check your ROI.".

(** C3, as the code has it. An internal failure makes the polygon validator
    answer failure (a malformed geometry and a failed reprojection among
    them), and makes the point-and-box validator answer success with the
    warning that the boundaries could not be validated. *)
Theorem internal_failure_verdicts :
  (∀ (g : J) e, shapely_shape g = Raise e →
     check_polygon_in_swiss_boundaries g = (false, error_msg e))
  ∧ (∀ (g : J) h e, shapely_shape g = Ok h → to_lv95 h = Raise e →
     check_polygon_in_swiss_boundaries g = (false, error_msg e))
  ∧ (∀ (g : J) e, check_polygon_in_swiss_boundaries_try g = Raise e →
     check_polygon_in_swiss_boundaries g = (false, error_msg e))
  ∧ (∀ (x y : F) roi_size e, check_swiss_boundaries_try x y roi_size = Raise e →
     check_swiss_boundaries x y roi_size = (true, "⚠️ Could not validate boundaries")).
Proof.
  repeat split.
  - intros g e Hg. unfold check_polygon_in_swiss_boundaries,
      check_polygon_in_swiss_boundaries_try. by rewrite Hg.
  - intros g h e Hg Hh. unfold check_polygon_in_swiss_boundaries,
      check_polygon_in_swiss_boundaries_try. rewrite Hg. simpl. by rewrite Hh.
  - intros g e Hg. unfold check_polygon_in_swiss_boundaries. by rewrite Hg.
  - intros x y roi_size e Hb. unfold check_swiss_boundaries. by rewrite Hb.
Qed.

Definition roi_outside_msg : string :=
  "⚠️ ROI extends outside Switzerland. Reduce ROI size or move center point.".

(** C5, as the code has it. With the reference polygon at hand and the
    library answering: a drawn geometry that is not contained fails, with
    the message of a crossing when it intersects the polygon and the
    different message of a geometry completely outside when it does not; a
    centre point that is not contained fails with the message about the
    point, whatever the size of the box; a box that is not contained around
    a centre that is fails with the message about the ROI. *)
Theorem containment_failure_messages :
  (∀ (g : J) h lv swiss_boundary touches,
     shapely_shape g = Ok h → to_lv95 h = Ok lv →
     get_swiss_boundary_polygon = Some swiss_boundary →
     contains swiss_boundary lv = Ok false →
     intersects swiss_boundary lv = Ok touches →
     check_polygon_in_swiss_boundaries g
     = (false, if touches then crosses_msg else outside_msg))
  ∧ crosses_msg ≠ outside_msg
  ∧ (∀ (x y : F) roi_size swiss_boundary point,
     get_swiss_boundary_polygon = Some swiss_boundary →
     Point x y = Ok point → contains swiss_boundary point = Ok false →
     check_swiss_boundaries x y roi_size
     = (false, point_msg x y " is outside Switzerland"))
  ∧ (∀ (x y : F) size swiss_boundary point roi_box,
     get_swiss_boundary_polygon = Some swiss_boundary →
     Point x y = Ok point → contains swiss_boundary point = Ok true →
     size ≠ 0 →
     box (float_sub x (int_truediv2 size)) (float_sub y (int_truediv2 size))
         (float_add x (int_truediv2 size)) (float_add y (int_truediv2 size))
     = Ok roi_box →
     contains swiss_boundary roi_box = Ok false →
     check_swiss_boundaries x y (Some size) = (false, roi_outside_msg)).
Proof.
  repeat split.
  - intros g h lv b touches Hg Hh Hb Hc Hi.
    unfold check_polygon_in_swiss_boundaries, check_polygon_in_swiss_boundaries_try.
    rewrite Hg; simpl. rewrite Hh; simpl. rewrite Hb, Hc; simpl. rewrite Hi; simpl.
    by destruct touches.
  - discriminate.
  - intros x y roi_size b point Hb Hp Hc.
    unfold check_swiss_boundaries, check_swiss_boundaries_try.
    rewrite Hb, Hp; simpl. by rewrite Hc.
  - intros x y size b point roi_box Hb Hp Hc Hsize Hbox Hfit.
    unfold check_swiss_boundaries, check_swiss_boundaries_try.
    rewrite Hb, Hp; simpl. rewrite Hc; simpl.
    unfold roi_size_truthy. rewrite bool_decide_eq_false_2 by done.
    rewrite Hbox; simpl. by rewrite Hfit.
Qed.

End ValidatorProperties.

(** The swiss extent of the rectangle double, in halves. *)
Definition swiss_rect : rect :=
  (2 * 2485000, 2 * 1075000, 2 * 2834000, 2 * 1296000).

(** C3, the claim as stated, refuted: the library fails on the containment
    test of a centre point and [check_swiss_boundaries] answers success. *)
Lemma check_swiss_boundaries_fails_open :
  check_swiss_boundaries_try (GL := FailingGeometry)
    (2 * 2600000) (2 * 1200000) (Some 1000) = Raise topology_error
  ∧ check_swiss_boundaries (GL := FailingGeometry)
      (2 * 2600000) (2 * 1200000) (Some 1000)
    = (true, "⚠️ Could not validate boundaries").
Proof. split; reflexivity. Qed.

Lemma internal_failure_verdicts_witness :
  check_polygon_in_swiss_boundaries_try (GL := FailingGeometry) swiss_rect
    = Raise topology_error
  ∧ check_polygon_in_swiss_boundaries (GL := FailingGeometry) swiss_rect
    = (false, error_msg topology_error)
  ∧ check_swiss_boundaries_try (GL := FailingGeometry)
      (2 * 2600000) (2 * 1200000) (Some 1000) = Raise topology_error
  ∧ check_swiss_boundaries (GL := FailingGeometry)
      (2 * 2600000) (2 * 1200000) (Some 1000)
    = (true, "⚠️ Could not validate boundaries").
Proof.
  destruct (internal_failure_verdicts (GL := FailingGeometry)) as (_ & _ & Hpoly & Hbox).
  split; [reflexivity|]. split; [apply Hpoly; reflexivity|].
  split; [reflexivity|]. apply (Hbox _ _ _ topology_error). reflexivity.
Defined.

(** C5, the claim as stated, refuted on boxes: around the same centre west
    of the extent, a box of 1000 m lies completely outside and a box of
    400 km crosses the border, and both get the same message. *)
Lemma box_messages_do_not_tell_crossing_from_outside :
  let x := 2 * 2400000 in
  let y := 2 * 1200000 in
  let small := (x - 1000, y - 1000, x + 1000, y + 1000) in
  let large := (x - 400000, y - 400000, x + 400000, y + 400000) in
  rect_intersects swiss_rect small = false
  ∧ rect_intersects swiss_rect large = true
  ∧ rect_contains swiss_rect large = false
  ∧ check_swiss_boundaries (GL := RectGeometry) x y (Some 1000)
    = (false, "⚠️ Point (2400000, 1200000) is outside Switzerland")
  ∧ check_swiss_boundaries (GL := RectGeometry) x y (Some 400000)
    = (false, "⚠️ Point (2400000, 1200000) is outside Switzerland").
Proof. repeat split; vm_compute; reflexivity. Qed.

Lemma containment_failure_messages_witness :
  let crossing : rect := (2 * 2400000, 2 * 1100000, 2 * 2500000, 2 * 1200000) in
  let far : rect := (2 * 2400000, 2 * 1100000, 2 * 2450000, 2 * 1200000) in
  check_polygon_in_swiss_boundaries (GL := RectGeometry) crossing = (false, crosses_msg)
  ∧ check_polygon_in_swiss_boundaries (GL := RectGeometry) far = (false, outside_msg)
  ∧ check_swiss_boundaries (GL := RectGeometry) (2 * 2400000) (2 * 1200000) (Some 1000)
    = (false, point_msg (2 * 2400000) (2 * 1200000) " is outside Switzerland")
  ∧ check_swiss_boundaries (GL := RectGeometry) (2 * 2486000) (2 * 1200000) (Some 4000)
    = (false, roi_outside_msg).
Proof.
  destruct (containment_failure_messages (GL := RectGeometry))
    as (Hpoly & _ & Hpoint & Hbox).
  intros crossing far. split; [|split; [|split]].
  - by apply (Hpoly crossing crossing crossing swiss_rect true).
  - by apply (Hpoly far far far swiss_rect false).
  - by apply (Hpoint _ _ _ swiss_rect (2 * 2400000, 2 * 1200000, 2 * 2400000, 2 * 1200000)).
  - by eapply (Hbox _ _ _ swiss_rect (2 * 2486000, 2 * 1200000, 2 * 2486000, 2 * 1200000)).
Defined.


(** ** The validation flag and the run button *)

Section FlagProperties.
Context {F G J : Type} {FL : PyFloat F} {GL : Geometry F G J}.

(** C4, as the code has it. The run button is disabled exactly when the flag
    [roi_validated] is false.  A run of the ROI tab in the centre-point mode
    calls the box validator on the centre and size at hand and stores its
    verdict.  With an existing shapefile no validator is called: the flag is
    true for a file picked from the list and otherwise tells whether a path
    was typed.  On the map, a drawing that fails the polygon validator clears
    the flag, a valid drawing sets it when it is saved (and clears it when
    the saving fails), and without a drawing, or with a valid drawing not
    yet saved, the flag keeps the value it had. *)
Theorem run_gate_follows_roi_validated (w : roi_inputs (F := F) (J := J)) (s : session) :
  start_run_disabled (fst (roi_tab w s)) = negb (roi_validated (fst (roi_tab w s)))
  ∧ (w_use_shapefile w = false →
       roi_validated (fst (roi_tab w s))
       = fst (check_swiss_boundaries (w_poi_x w) (w_poi_y w) (Some (w_roi_size w)))
       ∧ snd (roi_tab w s)
         = [CheckedBox (w_poi_x w) (w_poi_y w) (w_roi_size w)
              (fst (check_swiss_boundaries (w_poi_x w) (w_poi_y w) (Some (w_roi_size w))))])
  ∧ (w_use_shapefile w = true → w_shapefile_option w = UseExistingShapefile →
       snd (roi_tab w s) = []
       ∧ roi_validated (fst (roi_tab w s))
         = match w_found_shapefiles w with
           | _ :: _ =>
               if bool_decide (w_selected_shapefile w = "[Type path manually]")
               then nonempty (w_shapefile_path w) else true
           | [] => nonempty (w_shapefile_path w)
           end)
  ∧ (w_use_shapefile w = true → w_shapefile_option w = DrawOnMap →
       roi_validated (fst (roi_tab w s))
       = match w_last_active_drawing w with
         | None => roi_validated s
         | Some drawn_geom =>
             if fst (check_polygon_in_swiss_boundaries drawn_geom) then
               if w_save_button w && nonempty (w_shapefile_name w) then
                 fst (save_drawn_roi drawn_geom
                        ("config/shapefiles/" +:+ w_shapefile_name w +:+ ".shp"))
               else roi_validated s
             else false
         end).
Proof.
  split; [done|]. unfold roi_tab. split; [|split].
  - intros ->. unfold roi_center_point.
    by destruct (check_swiss_boundaries _ _ _) as [is_valid msg].
  - intros -> ->. split; [done|]. unfold roi_existing_shapefile. simpl.
    destruct (w_found_shapefiles w); [done|]. by case_bool_decide.
  - intros -> ->. unfold roi_draw_on_map.
    destruct (w_last_active_drawing w) as [g|]; [|done].
    destruct (check_polygon_in_swiss_boundaries g) as [[] msg]; simpl; [|done].
    destruct (w_save_button w && nonempty (w_shapefile_name w)); [|done].
    by destruct (save_drawn_roi _ _) as [[] m].
Qed.

End FlagProperties.

(** Inputs of the ROI tab on the rectangle double: an existing shapefile
    picked from the list. *)
Definition pick_listed_shapefile : roi_inputs (F := Z) (J := rect) :=
  {| w_use_shapefile := true; w_shapefile_option := UseExistingShapefile;
     w_found_shapefiles := ["config/shapefiles/elsewhere.shp"];
     w_selected_shapefile := "config/shapefiles/elsewhere.shp";
     w_shapefile_path := ""; w_mask_lus := true; w_mask_dem := true;
     w_last_active_drawing := None; w_shapefile_name := "roi_drawn";
     w_save_button := false;
     w_poi_x := 2 * 2645000; w_poi_y := 2 * 1115000; w_roi_size := 1000 |}.

(** A centre inside the extent, with a box of 1000 m. *)
Definition center_inside : roi_inputs (F := Z) (J := rect) :=
  {| w_use_shapefile := false; w_shapefile_option := DrawOnMap;
     w_found_shapefiles := []; w_selected_shapefile := "";
     w_shapefile_path := ""; w_mask_lus := true; w_mask_dem := true;
     w_last_active_drawing := None; w_shapefile_name := "roi_drawn";
     w_save_button := false;
     w_poi_x := 2 * 2645000; w_poi_y := 2 * 1115000; w_roi_size := 1000 |}.

(** The switch to the map, nothing drawn yet. *)
Definition switch_to_map : roi_inputs (F := Z) (J := rect) :=
  {| w_use_shapefile := true; w_shapefile_option := DrawOnMap;
     w_found_shapefiles := []; w_selected_shapefile := "";
     w_shapefile_path := ""; w_mask_lus := true; w_mask_dem := true;
     w_last_active_drawing := None; w_shapefile_name := "roi_drawn";
     w_save_button := false;
     w_poi_x := 2 * 2645000; w_poi_y := 2 * 1115000; w_roi_size := 1000 |}.

(** A drawing that crosses the western border. *)
Definition draw_across_border : roi_inputs (F := Z) (J := rect) :=
  {| w_use_shapefile := true; w_shapefile_option := DrawOnMap;
     w_found_shapefiles := []; w_selected_shapefile := "";
     w_shapefile_path := ""; w_mask_lus := true; w_mask_dem := true;
     w_last_active_drawing := Some (2 * 2400000, 2 * 1100000, 2 * 2500000, 2 * 1200000);
     w_shapefile_name := "roi_drawn"; w_save_button := true;
     w_poi_x := 2 * 2645000; w_poi_y := 2 * 1115000; w_roi_size := 1000 |}.

(** C4, the claim as stated, refuted.  In a fresh session a shapefile picked
    from the list enables the run although no validator was called; and a
    flag earned by a centre point stays set after the switch to the map,
    where nothing is drawn and nothing is validated. *)
Lemma run_enabled_without_validation :
  (let '(s, checks) := roi_tab (GL := RectGeometry) pick_listed_shapefile session_init in
   checks = [] ∧ start_run_disabled s = false)
  ∧ (let '(s1, checks1) := roi_tab (GL := RectGeometry) center_inside session_init in
     let '(s2, checks2) := roi_tab (GL := RectGeometry) switch_to_map s1 in
     checks2 = [] ∧ start_run_disabled s2 = false).
Proof. split; vm_compute; split; reflexivity. Qed.

Lemma run_gate_follows_roi_validated_witness :
  roi_validated (fst (roi_tab (GL := RectGeometry) center_inside session_init)) = true
  ∧ roi_validated (fst (roi_tab (GL := RectGeometry) pick_listed_shapefile session_init)) = true
  ∧ roi_validated (fst (roi_tab (GL := RectGeometry) draw_across_border
                          (fst (roi_tab (GL := RectGeometry) center_inside session_init))))
    = false.
Proof.
  split; [|split].
  - destruct (run_gate_follows_roi_validated (GL := RectGeometry) center_inside session_init)
      as (_ & Hbox & _ & _).
    destruct (Hbox eq_refl) as [-> _]. reflexivity.
  - destruct (run_gate_follows_roi_validated (GL := RectGeometry)
                pick_listed_shapefile session_init) as (_ & _ & Hshp & _).
    destruct (Hshp eq_refl eq_refl) as [_ ->]. reflexivity.
  - destruct (run_gate_follows_roi_validated (GL := RectGeometry) draw_across_border
                (fst (roi_tab (GL := RectGeometry) center_inside session_init)))
      as (_ & _ & _ & Hdraw).
    rewrite (Hdraw eq_refl eq_refl). reflexivity.
Defined.

(** ** The temporary configuration of a run *)






Lemma stream_output_files full_log lines r :
  run_files (stream_output full_log lines r) = run_files r
  ∧ run_file_events (stream_output full_log lines r) = run_file_events r.
Proof.
  revert full_log r. induction lines as [|l lines IH]; intros full_log r; [done|].
  simpl. destruct (IH (full_log ++ [rstrip l])%list
                      (say (UiCode (join_nl (full_log ++ [rstrip l]))) r)) as [-> ->].
  done.
Qed.

Section RunProperties.
Context {F : Type} {FL : PyFloat F}.
Variable world : process_world.

(** What the body of a [try] may do to the files: nothing, or what the process did. *)
Definition body_effect (command : list string) (r r' : run_state) : Prop :=
  run_file_events r' = run_file_events r
  ∧ (run_files r' = run_files r
     ∨ run_files r' = side_effect world command (run_files r)).

Lemma start_run_try_effect name command r :
  body_effect command r (fst (start_run_try world name command r)).
Proof.
  unfold start_run_try, body_effect.
  destruct (popen world command) as [e|lines e|lines code]; simpl.
  - auto.
  - destruct (stream_output_files [] lines (with_files (side_effect world command) r))
      as [-> ->]. auto.
  - pose proof (stream_output_files [] lines (with_files (side_effect world command) r))
      as [Hf He].
    case_bool_decide; simpl; [|rewrite Hf, He; auto].
    unfold exists_path. simpl. case_bool_decide; simpl; [|rewrite Hf, He; auto].
    match goal with |- context [?m !! ?k] => destruct (m !! k) end;
      simpl; rewrite Hf, He; auto.
Qed.

Lemma start_setup_try_effect name command r :
  body_effect command r (fst (start_setup_try world name command r)).
Proof.
  unfold start_setup_try, body_effect.
  destruct (popen world command) as [e|lines e|lines code]; simpl.
  - auto.
  - destruct (stream_output_files [] lines (with_files (side_effect world command) r))
      as [-> ->]. auto.
  - pose proof (stream_output_files [] lines (with_files (side_effect world command) r))
      as [Hf He].
    case_bool_decide; simpl; rewrite Hf, He; auto.
Qed.



End RunProperties.

(** ** Text that survives the writer and the reader

    A value is kept as it is when it is empty or made of printable ASCII
    characters other than [#] and [%], without a space at either end; an
    option name when, besides, it holds no delimiter and does not start with
    a bracket or a semicolon. *)

Definition text_char (c : ascii) : bool :=
  ((32 <=? code c) && (code c <=? 126))%N
  && negb (bool_decide (c = "#"%char)) && negb (bool_decide (c = "%"%char)).

Definition starts_nonspace (s : string) : bool :=
  match s with
  | String c _ => negb (isspace c)
  | EmptyString => false
  end.

Fixpoint ends_nonspace (s : string) : bool :=
  match s with
  | EmptyString => false
  | String c EmptyString => negb (isspace c)
  | String _ s' => ends_nonspace s'
  end.

Definition text_ok (v : string) : bool :=
  string_forallb text_char v && starts_nonspace v && ends_nonspace v.

Definition value_ok (v : string) : bool := bool_decide (v = EmptyString) || text_ok v.

Definition key_char (c : ascii) : bool := text_char c && negb (ConfigParser.is_delim c).

Definition key_head_ok (k : string) : bool :=
  match k with
  | String c _ =>
      negb (isspace c) && negb (bool_decide (c = "["%char))
      && negb (bool_decide (c = ";"%char))
  | EmptyString => false
  end.

Definition key_ok (k : string) : bool :=
  string_forallb key_char k && key_head_ok k && ends_nonspace k.

Ltac andb_hyps :=
  repeat match goal with
         | H : _ && _ = true |- _ => apply andb_true_iff in H as [? ?]
         end.

Lemma token_char_key_char c : token_char c = true → key_char c = true.
Proof.
  unfold token_char, key_char, text_char, ConfigParser.is_delim.
  intros H. andb_hyps.
  repeat (apply andb_true_iff; split); try done.
  - apply N.leb_le. match goal with H : (33 <=? _)%N = true |- _ => apply N.leb_le in H end. lia.
  - rewrite negb_orb. by apply andb_true_iff.
Qed.

Lemma key_char_text_char c : key_char c = true → text_char c = true.
Proof. unfold key_char. by intros [? _]%andb_true_iff. Qed.

Lemma token_char_nonspace c : token_char c = true → isspace c = false.
Proof.
  unfold token_char, isspace. intros H. andb_hyps.
  match goal with H : (33 <=? _)%N = true |- _ => apply N.leb_le in H end.
  apply orb_false_iff; split; apply andb_false_iff; right; apply N.leb_gt; lia.
Qed.

Lemma ends_nonspace_app a b :
  ends_nonspace (a +:+ b)
  = if bool_decide (b = EmptyString) then ends_nonspace a else ends_nonspace b.
Proof.
  induction a as [|c a IH].
  - rewrite append_nil_l. case_bool_decide as Hb; [by subst|done].
  - rewrite append_cons. simpl. rewrite IH.
    destruct a as [|c' a]; [|by rewrite append_cons].
    rewrite append_nil_l. case_bool_decide as Hb; [by subst|].
    by destruct b.
Qed.

Lemma token_ends_nonspace s : is_token s = true → ends_nonspace s = true.
Proof.
  intros [Hne Hall]%is_token_elim. induction s as [|c s IH]; [done|].
  simpl in Hall. apply andb_true_iff in Hall as [Hc Hs].
  destruct s as [|c' s]; simpl.
  - by rewrite (token_char_nonspace _ Hc).
  - by apply IH.
Qed.

Lemma token_starts_nonspace s : is_token s = true → starts_nonspace s = true.
Proof.
  intros [Hne Hall]%is_token_elim. destruct s as [|c s]; [done|].
  simpl in *. apply andb_true_iff in Hall as [Hc _].
  by rewrite (token_char_nonspace _ Hc).
Qed.

Lemma token_text_ok s : is_token s = true → text_ok s = true.
Proof.
  intros Htok. unfold text_ok.
  rewrite (token_starts_nonspace _ Htok), (token_ends_nonspace _ Htok), !andb_true_r.
  apply is_token_elim in Htok as [_ Hall].
  eapply string_forallb_impl; [|done].
  intros c Hc. by apply key_char_text_char, token_char_key_char.
Qed.

Lemma lstrip_id s : starts_nonspace s = true → lstrip s = s.
Proof. destruct s as [|c s]; [done|]. simpl. by intros ->%negb_true_iff. Qed.

Lemma rstrip_id s : ends_nonspace s = true → rstrip s = s.
Proof.
  induction s as [|c s IH]; [done|]. simpl. destruct s as [|c' s].
  - simpl. by intros ->%negb_true_iff.
  - intros H. by rewrite (IH H).
Qed.

Lemma rstrip_app a b :
  rstrip (a +:+ b)
  = match rstrip b with
    | EmptyString => rstrip a
    | r => a +:+ r
    end.
Proof.
  induction a as [|c a IH].
  - rewrite append_nil_l. by destruct (rstrip b).
  - rewrite append_cons. simpl. rewrite IH. destruct (rstrip b) as [|d r]; [done|].
    rewrite append_cons. by destruct a.
Qed.

Lemma strip_id s : starts_nonspace s = true → ends_nonspace s = true → strip s = s.
Proof. intros Hs He. unfold strip. by rewrite (lstrip_id _ Hs), (rstrip_id _ He). Qed.

Definition no_hash (c : ascii) : bool := negb (bool_decide (c = "#"%char)).

Lemma inline_comment_none b s :
  string_forallb no_hash s = true → ConfigParser.inline_comment b s = None.
Proof.
  revert b. induction s as [|c s IH]; intros b; [done|]. simpl.
  intros [Hc Hs]%andb_true_iff. unfold no_hash in Hc.
  apply negb_true_iff in Hc. rewrite Hc. simpl. by rewrite (IH _ Hs).
Qed.

Lemma split_delim_at k d rest :
  string_forallb (fun c => negb (ConfigParser.is_delim c)) k = true →
  ConfigParser.is_delim d = true →
  ConfigParser.split_delim (k +:+ String d rest) = Some (k, rest).
Proof.
  intros Hk Hd. induction k as [|c k IH].
  - rewrite append_nil_l. simpl. by rewrite Hd.
  - rewrite append_cons. simpl in *. apply andb_true_iff in Hk as [Hc Hk].
    apply negb_true_iff in Hc. rewrite Hc. by rewrite (IH Hk).
Qed.

Lemma text_char_no_hash c : text_char c = true → no_hash c = true.
Proof.
  unfold text_char, no_hash. intros H. by andb_hyps.
Qed.

Lemma key_ok_elim k :
  key_ok k = true →
  string_forallb key_char k = true ∧ key_head_ok k = true ∧ ends_nonspace k = true.
Proof.
  unfold key_ok. intros H. by andb_hyps.
Qed.

Lemma text_ok_elim v :
  text_ok v = true →
  string_forallb text_char v = true ∧ starts_nonspace v = true ∧ ends_nonspace v = true.
Proof.
  unfold text_ok. intros H. by andb_hyps.
Qed.

(** ** Lines of an INI text, as the reader sees them *)

Definition entry_line (k v : string) : string := k +:+ " = " +:+ v.
Definition bare_line (k : string) : string := k +:+ " =".
Definition header_line (n : string) : string := "[" +:+ n +:+ "]".

(** What is left of an entry line once it is stripped. *)
Definition entry_value_line (k v : string) : string :=
  if bool_decide (v = EmptyString) then bare_line k else entry_line k v.

Lemma value_ok_cases v : value_ok v = true → v = EmptyString ∨ text_ok v = true.
Proof.
  unfold value_ok. intros [H|H]%orb_true_iff; [left|by right].
  by apply bool_decide_eq_true in H.
Qed.

Lemma entry_line_strip k v :
  key_ok k = true → value_ok v = true → strip (entry_line k v) = entry_value_line k v.
Proof.
  intros (Hk & Hh & He)%key_ok_elim Hv. unfold strip.
  rewrite lstrip_id.
  2:{ destruct k as [|c k]; [done|]. unfold entry_line. rewrite append_cons. simpl.
      unfold key_head_ok in Hh. by andb_hyps. }
  unfold entry_value_line, entry_line, bare_line.
  destruct (value_ok_cases _ Hv) as [->|Hv'].
  - rewrite bool_decide_eq_true_2 by done. rewrite rstrip_app. simpl.
    rewrite <- (rstrip_id (k +:+ " =")) at 2; [|by rewrite ends_nonspace_app].
    by rewrite rstrip_app.
  - apply text_ok_elim in Hv' as (_ & _ & Hend).
    assert (v ≠ EmptyString) by (by destruct v).
    rewrite bool_decide_eq_false_2 by done.
    apply rstrip_id. rewrite ends_nonspace_app.
    rewrite bool_decide_eq_false_2; [|by destruct v].
    change (" = " +:+ v) with (String " " (String "=" (String " " v))).
    simpl. by destruct v.
Qed.

Lemma key_head c k :
  key_head_ok (String c k) = true →
  isspace c = false ∧ c ≠ "["%char ∧ c ≠ ";"%char.
Proof.
  unfold key_head_ok. intros H. andb_hyps.
  repeat match goal with
         | H : negb _ = true |- _ => apply negb_true_iff in H
         | H : bool_decide _ = false |- _ => apply bool_decide_eq_false in H
         end.
  done.
Qed.

Lemma key_no_hash k : string_forallb key_char k = true → string_forallb no_hash k = true.
Proof.
  apply string_forallb_impl. intros c Hc. by apply text_char_no_hash, key_char_text_char.
Qed.

Lemma value_no_hash v : value_ok v = true → string_forallb no_hash v = true.
Proof.
  intros [->|Hv]%value_ok_cases; [done|].
  apply text_ok_elim in Hv as (Hall & _ & _).
  eapply string_forallb_impl; [|done]. apply text_char_no_hash.
Qed.

(** An entry line is content at indent 0: no comment, and the stripped line. *)
Lemma line_form_entry k v :
  key_ok k = true → value_ok v = true →
  ConfigParser.line_form_of (entry_line k v)
  = ConfigParser.Content 0 (entry_value_line k v).
Proof.
  intros Hk Hv. pose proof (entry_line_strip k v Hk Hv) as Hstrip.
  apply key_ok_elim in Hk as (Hall & Hh & He).
  destruct k as [|c k]; [done|]. apply key_head in Hh as (Hsp & Hbr & Hsc).
  assert (Hhash : c ≠ "#"%char).
  { simpl in Hall. apply andb_true_iff in Hall as [Hc _].
    apply key_char_text_char, text_char_no_hash in Hc.
    by apply negb_true_iff, bool_decide_eq_false in Hc. }
  unfold ConfigParser.line_form_of, ConfigParser.payload, ConfigParser.is_comment_line.
  rewrite Hstrip.
  assert (Hstart : ∀ d, d ≠ c → startswith (entry_value_line (String c k) v) d = false).
  { intros d Hd. unfold entry_value_line, entry_line, bare_line.
    case_bool_decide; rewrite append_cons; simpl; by rewrite bool_decide_eq_false_2. }
  rewrite !Hstart by done. simpl orb. cbv iota.
  rewrite inline_comment_none.
  2:{ unfold entry_line. rewrite !string_forallb_app, (key_no_hash _ Hall),
        (value_no_hash _ Hv). done. }
  rewrite Hstrip. rewrite bool_decide_eq_false_2.
  2:{ unfold entry_value_line, entry_line, bare_line. by case_bool_decide. }
  unfold entry_line at 1. rewrite append_cons. simpl. by rewrite Hsp.
Qed.

Lemma line_form_bare k :
  key_ok k = true →
  ConfigParser.line_form_of (bare_line k) = ConfigParser.Content 0 (bare_line k).
Proof.
  intros Hk. apply key_ok_elim in Hk as (Hall & Hh & He).
  destruct k as [|c k]; [done|]. apply key_head in Hh as (Hsp & Hbr & Hsc).
  assert (Hhash : c ≠ "#"%char).
  { simpl in Hall. apply andb_true_iff in Hall as [Hc _].
    apply key_char_text_char, text_char_no_hash in Hc.
    by apply negb_true_iff, bool_decide_eq_false in Hc. }
  assert (Hstrip : strip (bare_line (String c k)) = bare_line (String c k)).
  { apply strip_id.
    - unfold bare_line. rewrite append_cons. simpl. by rewrite Hsp.
    - unfold bare_line. by rewrite ends_nonspace_app. }
  unfold ConfigParser.line_form_of, ConfigParser.payload, ConfigParser.is_comment_line.
  rewrite Hstrip. unfold bare_line at 1 2. rewrite append_cons. simpl startswith.
  rewrite !bool_decide_eq_false_2 by done. simpl orb. cbv iota.
  rewrite inline_comment_none.
  2:{ unfold bare_line. by rewrite string_forallb_app, (key_no_hash _ Hall). }
  rewrite Hstrip. rewrite bool_decide_eq_false_2 by done.
  unfold bare_line at 1. rewrite append_cons. simpl. by rewrite Hsp.
Qed.

Lemma match_section_entry k v :
  key_ok k = true → ConfigParser.match_section (entry_value_line k v) = None.
Proof.
  intros (Hall & Hh & He)%key_ok_elim.
  destruct k as [|c k]; [done|]. apply key_head in Hh as (Hsp & Hbr & Hsc).
  unfold entry_value_line, entry_line, bare_line.
  case_bool_decide; rewrite append_cons; simpl; by rewrite bool_decide_eq_false_2.
Qed.

Lemma key_no_delim k :
  string_forallb key_char k = true →
  string_forallb (fun c => negb (ConfigParser.is_delim c)) k = true.
Proof. apply string_forallb_impl. unfold key_char. by intros c [_ ?]%andb_true_iff. Qed.

Lemma match_option_entry k v :
  key_ok k = true → value_ok v = true →
  ConfigParser.match_option (entry_value_line k v) = Some (k, v).
Proof.
  intros (Hall & Hh & He)%key_ok_elim Hv. unfold ConfigParser.match_option.
  assert (Hsplit : ∀ rest,
            ConfigParser.split_delim (k +:+ String " " (String "=" rest))
            = Some (k +:+ " ", rest)).
  { intros rest.
    change (k +:+ String " " (String "=" rest)) with (k +:+ (" " +:+ String "=" rest)).
    rewrite <- append_assoc. apply split_delim_at; [|done].
    by rewrite string_forallb_app, (key_no_delim _ Hall). }
  assert (Hkey : rstrip (k +:+ " ") = k).
  { rewrite rstrip_app. simpl. by apply rstrip_id. }
  unfold entry_value_line, entry_line, bare_line. case_bool_decide as Hempty.
  - subst v. change (k +:+ " =") with (k +:+ String " " (String "=" EmptyString)).
    by rewrite Hsplit, Hkey.
  - change (k +:+ " = " +:+ v) with (k +:+ String " " (String "=" (String " " v))).
    rewrite Hsplit, Hkey. do 2 f_equal.
    destruct (value_ok_cases _ Hv) as [->|Hv']; [done|].
    apply text_ok_elim in Hv' as (_ & Hs & Hend).
    unfold strip. simpl. by rewrite (lstrip_id _ Hs), (rstrip_id _ Hend).
Qed.

(** A line that starts with [#] is a comment. *)
Lemma line_form_comment rest :
  ConfigParser.line_form_of (String "#" rest) = ConfigParser.Blank true.
Proof.
  unfold ConfigParser.line_form_of, ConfigParser.payload, ConfigParser.is_comment_line.
  assert (startswith (strip (String "#" rest)) "#" = true) as ->; [|done].
  unfold strip. simpl lstrip. simpl. by destruct (rstrip rest).
Qed.

(** No line break inside. *)
Definition single_line (s : string) : bool :=
  string_forallb (fun c => negb (bool_decide (c = "010"%char))
                           && negb (bool_decide (c = "013"%char))) s.

(** A section name whose header line the reader takes as such. *)
Definition header_ok (n : string) : bool :=
  single_line n &&
  match ConfigParser.line_form_of (header_line n) with
  | ConfigParser.Content O value =>
      bool_decide (ConfigParser.match_section value = Some n)
  | _ => false
  end.

(** ** The reader on a well-formed text

    The state of the reader is followed through its joined view: the map
    from sections to options to values that [join_multiline_values] will
    produce. *)

Section ReaderProperties.
Import ConfigParser.

Definition section_view (raw : gmap string (list string)) : gmap string string :=
  join_value <$> raw.

Definition view (st : read_state) : gmap string (gmap string string) :=
  section_view <$> rs_sections st.

Lemma join_nl_snoc_empty raw :
  raw ≠ [] → join_nl (raw ++ [EmptyString]) = join_nl raw +:+ nl.
Proof.
  induction raw as [|r raw IH]; [done|]. intros _.
  destruct raw as [|r' raw].
  - simpl. by rewrite append_nil_r.
  - change (join_nl ((r :: r' :: raw) ++ [EmptyString]))
      with (r +:+ nl +:+ join_nl ((r' :: raw) ++ [EmptyString])).
    rewrite IH by done.
    change (join_nl (r :: r' :: raw)) with (r +:+ nl +:+ join_nl (r' :: raw)).
    by rewrite !append_assoc.
Qed.

Lemma join_value_snoc_empty raw : join_value (raw ++ [EmptyString]) = join_value raw.
Proof.
  unfold join_value. destruct raw as [|r raw]; [done|].
  rewrite join_nl_snoc_empty by done. by rewrite rstrip_app.
Qed.

Lemma join_value_single v : value_ok v = true → join_value [v] = v.
Proof.
  intros [->|Hv]%value_ok_cases; [done|].
  apply text_ok_elim in Hv as (_ & _ & He). by apply rstrip_id.
Qed.

Lemma section_view_append opt raw :
  section_view (alter (fun vs => (vs ++ [EmptyString])%list) opt raw) = section_view raw.
Proof.
  unfold section_view.
  rewrite (fmap_alter _ _ id) by (intros; apply join_value_snoc_empty).
  by apply alter_id.
Qed.

Lemma section_view_insert opt v raw :
  value_ok v = true →
  section_view (<[opt := [v]]> raw) = <[opt := v]> (section_view raw).
Proof.
  intros Hv. unfold section_view. by rewrite fmap_insert, (join_value_single _ Hv).
Qed.

Record tracks (st : read_state) (M : gmap string (gmap string string))
    (cur : option string) : Prop := {
  tr_view : view st = M;
  tr_defaults : rs_defaults st = ∅;
  tr_error : rs_error st = false;
  tr_indent : rs_indent_level st = 0%nat;
  tr_cursect : rs_cursect st = cur;
  tr_cur : ∀ n, cur = Some n → n ≠ default_section;
  tr_added : ∀ n k, (n, k) ∈ rs_added_options st → ∃ m, M !! n = Some m ∧ k ∈ dom m
}.

Lemma tracks_init : tracks rs_init ∅ None.
Proof.
  split; done.
Qed.

(** A blank line or a comment changes nothing that is seen. *)
Lemma read_step_blank st M cur line commented :
  line_form_of line = Blank commented →
  tracks st M cur →
  ∃ st', read_step st line = Ok st' ∧ tracks st' M cur.
Proof.
  intros Hform Htr. unfold read_step. rewrite Hform.
  destruct (open_option st) as [[sect opt]|] eqn:Hopen; [|by eexists].
  destruct commented; [by eexists|].
  eexists; split; [done|].
  assert (Hsect : rs_cursect st = Some sect).
  { unfold open_option in Hopen. destruct (rs_cursect st), (rs_optname st); try done.
    case_bool_decide; by simplify_eq. }
  assert (Hne : sect ≠ default_section).
  { eapply (tr_cur _ _ _ Htr). by rewrite <- (tr_cursect _ _ _ Htr). }
  unfold append_value, update_options. rewrite bool_decide_eq_false_2 by done.
  destruct Htr as [Hview Hdef Herr Hind Hcur Hcurok Hadded].
  split; simpl; try done.
  rewrite <- Hview. unfold view. simpl.
  rewrite (fmap_alter _ _ id) by (intros; apply section_view_append).
  by apply alter_id.
Qed.

(** A header opens a fresh section. *)
Lemma read_step_header st M cur n :
  header_ok n = true → n ≠ default_section → M !! n = None →
  tracks st M cur →
  ∃ st', read_step st (header_line n) = Ok st' ∧ tracks st' (<[n := ∅]> M) (Some n).
Proof.
  intros Hok Hne Hfresh Htr. unfold header_ok in Hok.
  apply andb_true_iff in Hok as [_ Hok]. unfold read_step.
  destruct (line_form_of (header_line n)) as [|[|indent] value]; try done.
  apply bool_decide_eq_true in Hok.
  destruct Htr as [Hview Hdef Herr Hind Hcur Hcurok Hadded].
  assert (Hentry : ∃ st', read_entry (with_indent 0 st) value = Ok st'
                          ∧ tracks st' (<[n := ∅]> M) (Some n)).
  { unfold read_entry. rewrite Hok. unfold enter_section. simpl.
    assert (Hnotin : n ∉ dom (rs_sections st)).
    { rewrite <- Hview in Hfresh. unfold view in Hfresh.
      rewrite lookup_fmap in Hfresh. apply not_elem_of_dom.
      by destruct (rs_sections st !! n). }
    rewrite bool_decide_eq_false_2 by done.
    rewrite bool_decide_eq_false_2 by done.
    eexists; split; [done|]. split; simpl; try done.
    - unfold view. simpl. rewrite fmap_insert, <- Hview. f_equal.
    - by intros ? [= <-].
    - intros n' k' Hin. destruct (Hadded n' k' Hin) as (m & Hm & Hk).
      exists m. split; [|done]. rewrite lookup_insert_ne; [done|]. by intros ->; simplify_eq. }
  destruct (open_option st) as [[sect opt]|]; [|done].
  by rewrite Hind.
Qed.

(** An entry adds its option to the current section. *)
Lemma read_step_option st M n m k v line :
  line_form_of line = Content 0 (entry_value_line k v) →
  key_ok k = true → value_ok v = true →
  M !! n = Some m → optionxform k ∉ dom m →
  tracks st M (Some n) →
  ∃ st', read_step st line = Ok st'
         ∧ tracks st' (alter (<[optionxform k := v]>) n M) (Some n).
Proof.
  intros Hform Hk Hv Hm Hfresh Htr. unfold read_step. rewrite Hform.
  destruct Htr as [Hview Hdef Herr Hind Hcur Hcurok Hadded].
  assert (Hne : n ≠ default_section) by by apply Hcurok.
  assert (Hkne : k ≠ EmptyString).
  { intros ->. by apply key_ok_elim in Hk as (_ & ? & _). }
  assert (Hentry : ∃ st', read_entry (with_indent 0 st) (entry_value_line k v) = Ok st'
            ∧ tracks st' (alter (<[optionxform k := v]>) n M) (Some n)).
  { unfold read_entry. rewrite (match_section_entry _ _ Hk). simpl rs_cursect.
    rewrite Hcur, (match_option_entry _ _ Hk Hv). unfold set_option. simpl rs_added_options.
    rewrite bool_decide_eq_false_2.
    2:{ intros Hin. destruct (Hadded _ _ Hin) as (m' & Hm' & Hin'). by simplify_eq. }
    eexists; split; [done|].
    unfold update_options. rewrite bool_decide_eq_false_2 by done.
    split; simpl; try done.
    - unfold view. simpl.
      rewrite (fmap_alter _ _ (<[optionxform k := v]>))
        by (intros; by apply section_view_insert).
      fold (view st). by rewrite Hview.
    - rewrite Herr. by rewrite bool_decide_eq_false_2.
    - intros n' k' [Heq%elem_of_singleton|Hin]%elem_of_union.
      + simplify_eq. eexists. rewrite lookup_alter_eq, Hm. split; [done|]. set_solver.
      + destruct (Hadded _ _ Hin) as (m' & Hm' & Hin').
        destruct (decide (n = n')) as [<-|Hnn].
        * simplify_eq. eexists. rewrite lookup_alter_eq, Hm. split; [done|]. set_solver.
        * exists m'. by rewrite lookup_alter_ne. }
  destruct (open_option st) as [[sect opt]|]; [|done].
  by rewrite Hind.
Qed.

Lemma line_form_entry_value k v :
  key_ok k = true → value_ok v = true →
  line_form_of (entry_value_line k v) = Content 0 (entry_value_line k v).
Proof.
  intros Hk Hv. unfold entry_value_line at 1. case_bool_decide as Hempty.
  - subst v. by apply line_form_bare.
  - rewrite (line_form_entry _ _ Hk Hv). unfold entry_value_line.
    by rewrite bool_decide_eq_false_2.
Qed.

Lemma read_lines_app st a b :
  read_lines st (a ++ b) = (let! st' := read_lines st a in read_lines st' b).
Proof.
  revert st. induction a as [|l a IH]; intros st; [done|].
  simpl. destruct (read_step st l) as [st'|e]; simpl; [apply IH|done].
Qed.

(** *** Documents *)

(** An entry of a section: an option with its value, or an option written
    with a bare delimiter. *)
Inductive ini_entry : Type :=
  | Entry (k v : string)
  | Bare (k : string).

Definition entry_key (e : ini_entry) : string :=
  match e with Entry k _ => k | Bare k => k end.

Definition entry_value (e : ini_entry) : string :=
  match e with Entry _ v => v | Bare _ => EmptyString end.

Definition render_entry (e : ini_entry) : string :=
  match e with
  | Entry k v => entry_line k v
  | Bare k => bare_line k
  end.

(** A section: its name and its entries. *)
Definition ini_section : Type := string * list ini_entry.

(** A blank line, the header, the entries. *)
Definition section_lines (sd : ini_section) : list string :=
  EmptyString :: header_line (fst sd) :: map render_entry (snd sd).

Definition doc_lines (doc : list ini_section) : list string :=
  concat (map section_lines doc).

Definition put_entry (m : gmap string string) (e : ini_entry) : gmap string string :=
  <[optionxform (entry_key e) := entry_value e]> m.

Definition add_entry (n : string) (M : gmap string (gmap string string))
    (e : ini_entry) : gmap string (gmap string string) :=
  alter (fun m => put_entry m e) n M.

Definition add_section (M : gmap string (gmap string string)) (sd : ini_section)
    : gmap string (gmap string string) :=
  fold_left (add_entry (fst sd)) (snd sd) (<[fst sd := ∅]> M).

(** What a reader should make of a document. *)
Definition doc_model (doc : list ini_section) : gmap string (gmap string string) :=
  fold_left add_section doc ∅.

Definition entry_ok (e : ini_entry) : Prop :=
  key_ok (entry_key e) = true ∧ value_ok (entry_value e) = true.

Definition section_ok (sd : ini_section) : Prop :=
  header_ok (fst sd) = true ∧ fst sd ≠ default_section
  ∧ Forall entry_ok (snd sd)
  ∧ NoDup (map (fun e => optionxform (entry_key e)) (snd sd)).

Definition doc_ok (doc : list ini_section) : Prop :=
  Forall section_ok doc ∧ NoDup (map fst doc).

Lemma line_form_render e :
  entry_ok e →
  line_form_of (render_entry e) = Content 0 (entry_value_line (entry_key e) (entry_value e)).
Proof.
  intros [Hk Hv]. destruct e as [k v|k]; simpl in *.
  - by apply line_form_entry.
  - by apply line_form_bare.
Qed.

Lemma add_entries_lookup_ne n n' es M :
  n ≠ n' → fold_left (add_entry n) es M !! n' = M !! n'.
Proof.
  intros Hne. revert M. induction es as [|e es IH]; intros M; [done|].
  simpl. rewrite IH. unfold add_entry. by rewrite lookup_alter_ne.
Qed.

Lemma add_entries_lookup_eq n es M :
  fold_left (add_entry n) es M !! n = (fun m => fold_left put_entry es m) <$> M !! n.
Proof.
  revert M. induction es as [|e es IH]; intros M; simpl.
  - by destruct (M !! n).
  - rewrite IH. unfold add_entry. rewrite lookup_alter_eq. by destruct (M !! n).
Qed.

Lemma add_section_lookup_ne sd n' M :
  fst sd ≠ n' → add_section M sd !! n' = M !! n'.
Proof.
  intros Hne. unfold add_section. rewrite add_entries_lookup_ne by done.
  by rewrite lookup_insert_ne.
Qed.

Lemma add_section_lookup_eq n es M :
  add_section M (n, es) !! n = Some (fold_left put_entry es ∅).
Proof.
  unfold add_section. simpl. by rewrite add_entries_lookup_eq, lookup_insert_eq.
Qed.

Lemma add_sections_lookup_ne doc n M :
  n ∉ map fst doc → fold_left add_section doc M !! n = M !! n.
Proof.
  revert M. induction doc as [|sd doc IH]; intros M Hn; [done|].
  simpl. rewrite IH.
  - apply add_section_lookup_ne. intros Heq. apply Hn. simpl. rewrite Heq. by left.
  - intros Hin. apply Hn. by right.
Qed.

(** The options of a section of a document, as the model has them. *)
Lemma doc_model_lookup doc n es :
  NoDup (map fst doc) → (n, es) ∈ doc →
  doc_model doc !! n = Some (fold_left put_entry es ∅).
Proof.
  unfold doc_model. generalize (∅ : gmap string (gmap string string)).
  induction doc as [|sd doc IH]; intros M Hnd Hin; [by apply elem_of_nil in Hin|].
  apply NoDup_cons in Hnd as [Hnew Hnd].
  apply elem_of_cons in Hin as [<-|Hin]; simpl.
  - rewrite add_sections_lookup_ne by done. apply add_section_lookup_eq.
  - by apply IH.
Qed.

Lemma doc_model_lookup_none doc n :
  n ∉ map fst doc → doc_model doc !! n = None.
Proof. intros Hn. unfold doc_model. by rewrite add_sections_lookup_ne. Qed.

Lemma read_entries n es : ∀ st M m,
  tracks st M (Some n) → M !! n = Some m →
  Forall entry_ok es →
  NoDup (map (fun e => optionxform (entry_key e)) es) →
  (∀ e, e ∈ es → optionxform (entry_key e) ∉ dom m) →
  ∃ st', read_lines st (map render_entry es) = Ok st'
         ∧ tracks st' (fold_left (add_entry n) es M) (Some n).
Proof.
  induction es as [|e es IH]; intros st M m Htr Hm Hok Hnd Hfresh.
  { by exists st. }
  apply Forall_cons in Hok as [He Hok].
  apply NoDup_cons in Hnd as [Hk_new Hnd]. simpl in Hk_new.
  destruct (read_step_option st M n m (entry_key e) (entry_value e) (render_entry e))
    as (st1 & Hstep & Htr1); try done; try apply He.
  { by apply line_form_render. }
  { apply (Hfresh e). by left. }
  simpl. rewrite Hstep. simpl.
  apply (IH st1 _ (put_entry m e)); try done.
  - unfold add_entry. by rewrite lookup_alter_eq, Hm.
  - intros e' Hin. unfold put_entry. rewrite dom_insert_L.
    intros [Heq%elem_of_singleton|Hold]%elem_of_union.
    + apply Hk_new. rewrite <- Heq. apply list_elem_of_fmap. by exists e'.
    + apply (Hfresh e'); [by right|done].
Qed.

Lemma read_section sd st M cur :
  tracks st M cur → M !! fst sd = None → section_ok sd →
  ∃ st', read_lines st (section_lines sd) = Ok st'
         ∧ tracks st' (add_section M sd) (Some (fst sd)).
Proof.
  destruct sd as [n es]. simpl. intros Htr Hfresh (Hhead & Hne & Hok & Hnd).
  destruct (read_step_blank st M cur EmptyString false) as (st1 & Hstep1 & Htr1); try done.
  destruct (read_step_header st1 M cur n) as (st2 & Hstep2 & Htr2); try done.
  destruct (read_entries n es st2 (<[n := ∅]> M) ∅) as (st3 & Hstep3 & Htr3); try done.
  { by rewrite lookup_insert_eq. }
  exists st3. split; [|done].
  unfold section_lines. simpl. rewrite Hstep1. simpl. rewrite Hstep2. simpl. done.
Qed.

Lemma read_doc doc : ∀ st M cur,
  tracks st M cur →
  Forall section_ok doc → NoDup (map fst doc) →
  (∀ sd, sd ∈ doc → M !! fst sd = None) →
  ∃ st' cur', read_lines st (doc_lines doc) = Ok st'
              ∧ tracks st' (fold_left add_section doc M) cur'.
Proof.
  induction doc as [|sd doc IH]; intros st M cur Htr Hok Hnd Hfresh.
  { by exists st, cur. }
  apply Forall_cons in Hok as [Hsd Hok]. apply NoDup_cons in Hnd as [Hnew Hnd].
  destruct (read_section sd st M cur) as (st1 & Hstep1 & Htr1); try done.
  { apply Hfresh. by left. }
  destruct (IH st1 (add_section M sd) (Some (fst sd))) as (st2 & cur2 & Hstep2 & Htr2);
    try done.
  { intros sd' Hin. rewrite add_section_lookup_ne.
    - apply Hfresh. by right.
    - intros Heq. apply Hnew. rewrite Heq. apply list_elem_of_fmap. by exists sd'. }
  exists st2, cur2. split; [|done].
  change (doc_lines (sd :: doc)) with (section_lines sd ++ doc_lines doc)%list.
  rewrite read_lines_app, Hstep1. simpl. apply Hstep2.
Qed.

(** *** From the text to the parser *)

(** Every line followed by a line feed. *)
Definition unlines (ls : list string) : string :=
  fold_right (fun l acc => l +:+ nl +:+ acc) EmptyString ls.

Lemma unlines_app a b : unlines (a ++ b) = unlines a +:+ unlines b.
Proof.
  induction a as [|l a IH]; [done|]. simpl. by rewrite IH, !append_assoc.
Qed.

Lemma split_lines_line l rest :
  single_line l = true → split_lines (l +:+ nl +:+ rest) = l :: split_lines rest.
Proof.
  induction l as [|c l IH]; intros Hl; [done|].
  simpl in Hl. apply andb_true_iff in Hl as [Hc Hl]. apply andb_true_iff in Hc as [Hlf Hcr].
  apply negb_true_iff in Hlf, Hcr.
  rewrite append_cons. simpl. rewrite Hlf, Hcr. by rewrite (IH Hl).
Qed.

Lemma split_lines_unlines ls :
  Forall (fun l => single_line l = true) ls → split_lines (unlines ls) = ls.
Proof.
  induction 1 as [|l ls Hl _ IH]; [done|].
  simpl. by rewrite (split_lines_line _ _ Hl), IH.
Qed.

Lemma text_char_single c :
  text_char c = true →
  negb (bool_decide (c = "010"%char)) && negb (bool_decide (c = "013"%char)) = true.
Proof.
  unfold text_char. intros H. andb_hyps.
  match goal with H : (32 <=? _)%N = true |- _ => apply N.leb_le in H end.
  apply andb_true_iff; split; apply negb_true_iff, bool_decide_eq_false;
    intros ->; unfold code in *; simpl in *; lia.
Qed.

Lemma key_single_line k : key_ok k = true → single_line k = true.
Proof.
  intros (Hall & _ & _)%key_ok_elim. eapply string_forallb_impl; [|done].
  intros c Hc. by apply text_char_single, key_char_text_char.
Qed.

Lemma value_single_line v : value_ok v = true → single_line v = true.
Proof.
  intros [->|Hv]%value_ok_cases; [done|].
  apply text_ok_elim in Hv as (Hall & _ & _). eapply string_forallb_impl; [|done].
  apply text_char_single.
Qed.

Lemma render_single_line e : entry_ok e → single_line (render_entry e) = true.
Proof.
  intros [Hk Hv]. unfold single_line.
  destruct e as [k v|k]; simpl in *; unfold entry_line, bare_line;
    rewrite !string_forallb_app; fold (single_line k);
    rewrite (key_single_line _ Hk); [|done].
  fold (single_line v). by rewrite (value_single_line _ Hv).
Qed.

Lemma doc_lines_single doc :
  Forall section_ok doc → Forall (fun l => single_line l = true) (doc_lines doc).
Proof.
  induction 1 as [|[n es] doc (Hhead & _ & Hes & _) _ IH]; [constructor|].
  change (doc_lines ((n, es) :: doc)) with (section_lines (n, es) ++ doc_lines doc)%list.
  apply Forall_app; split; [|done].
  unfold section_lines. simpl in *. constructor; [done|]. constructor.
  - unfold header_ok in Hhead. apply andb_true_iff in Hhead as [Hn _].
    unfold header_line, single_line. rewrite !string_forallb_app.
    fold (single_line n). by rewrite Hn.
  - apply Forall_fmap. eapply Forall_impl; [done|]. intros e He. by apply render_single_line.
Qed.

Definition is_comment (c : string) : Prop :=
  startswith c "#"%char = true ∧ single_line c = true.

Lemma read_comments comments st M cur :
  Forall is_comment comments → tracks st M cur →
  ∃ st', read_lines st comments = Ok st' ∧ tracks st' M cur.
Proof.
  intros Hc. revert st. induction Hc as [|c comments [Hstart _] _ IH]; intros st Htr.
  { by exists st. }
  destruct c as [|x c]; [done|]. simpl in Hstart. apply bool_decide_eq_true in Hstart as ->.
  destruct (read_step_blank st M cur (String "#" c) true) as (st1 & Hstep & Htr1); try done.
  { apply line_form_comment. }
  destruct (IH st1 Htr1) as (st2 & Hrest & Htr2).
  exists st2. split; [|done]. simpl. by rewrite Hstep.
Qed.

(** The reader on a commented, well-formed document: no error, no default
    option, and the sections and options of the document. *)
Theorem read_string_document comments doc :
  Forall is_comment comments → doc_ok doc →
  read_string (unlines (comments ++ doc_lines doc))
  = Ok {| p_sections := doc_model doc; p_defaults := ∅ |}.
Proof.
  intros Hc [Hok Hnd]. unfold read_string.
  rewrite split_lines_unlines.
  2:{ apply Forall_app; split; [|by apply doc_lines_single].
      eapply Forall_impl; [done|]. by intros c [_ ?]. }
  rewrite read_lines_app.
  destruct (read_comments comments rs_init ∅ None Hc tracks_init) as (st1 & -> & Htr1).
  simpl.
  destruct (read_doc doc st1 ∅ None Htr1 Hok Hnd) as (st2 & cur & -> & Htr2); [done|].
  simpl. destruct Htr2 as [Hview Hdef Herr _ _ _ _]. rewrite Herr.
  unfold join_multiline_values. f_equal. fold (view st2) in *.
  rewrite Hdef, fmap_empty. by f_equal.
Qed.

End ReaderProperties.

(** ** The text of a parameter set as a document *)

Lemma digit_token n : token_char (digit n) = true.
Proof.
  unfold digit. pose proof (Nat.mod_upper_bound n 10 ltac:(done)) as Hlt.
  destruct (n mod 10)%nat as [|[|[|[|[|[|[|[|[|[|m]]]]]]]]]]; try reflexivity. lia.
Qed.

Lemma digit_text n : text_char (digit n) = true.
Proof. apply key_char_text_char, token_char_key_char, digit_token. Qed.

Lemma pad2_text n : string_forallb text_char (pad2 n) = true.
Proof. unfold pad2. cbn [string_forallb]. by rewrite !digit_text. Qed.

Lemma pad4_text n : string_forallb text_char (pad4 n) = true.
Proof. unfold pad4, pad2. cbn [string_forallb]. by rewrite !digit_text. Qed.

Lemma strftime_iso_ok dt : value_ok (strftime_iso dt) = true.
Proof.
  unfold value_ok. apply orb_true_iff. right. unfold text_ok, strftime_iso.
  apply andb_true_iff; split; [apply andb_true_iff; split|].
  - rewrite !string_forallb_app, pad4_text, !pad2_text. done.
  - unfold pad4. rewrite append_cons. cbn [starts_nonspace].
    by rewrite (token_char_nonspace _ (digit_token _)).
  - rewrite !ends_nonspace_app.
    rewrite !(bool_decide_eq_false_2 (pad2 _ = EmptyString)) by done.
    rewrite !bool_decide_eq_false_2 by done.
    unfold pad2. cbn [ends_nonspace].
    by rewrite (token_char_nonspace _ (digit_token _)).
Qed.

Lemma strftime_stamp_single dt : single_line (strftime_stamp dt) = true.
Proof.
  eapply (string_forallb_impl text_char); [apply text_char_single|].
  unfold strftime_stamp. rewrite !string_forallb_app, pad4_text, !pad2_text. done.
Qed.

Lemma token_value_ok s : is_token s = true → value_ok s = true.
Proof. intros Hs. unfold value_ok. by rewrite (token_text_ok _ Hs), orb_true_r. Qed.

Lemma py_bool_str_ok b : value_ok (py_bool_str b) = true.
Proof. by destruct b. Qed.

Lemma coord_sys_str_ok c : value_ok (coord_sys_str c) = true.
Proof. by destruct c. Qed.

Lemma lus_source_str_ok s : value_ok (lus_source_str s) = true.
Proof. by destruct s. Qed.

Lemma starts_nonspace_app a b :
  a ≠ EmptyString → starts_nonspace (a +:+ b) = starts_nonspace a.
Proof. by destruct a. Qed.

Section WriterProperties.
Context {F : Type} {FL : PyFloat F}.
Import ConfigParser.

Definition poi_value (q : poi F) : string :=
  float_str (poi_east q) +:+ "," +:+ float_str (poi_north q) +:+ ","
  +:+ float_str (poi_elev q).

Definition poi_entry (q : poi F) : ini_entry := Entry (poi_name q) (poi_value q).

Definition roi_entry (p : ParameterSet F) : ini_entry :=
  if use_shapefile p then Entry "ROI_SHAPEFILE" (roi_shapefile p)
  else Entry "ROI" (int_str (roi_size p)).

Definition lus_cst_entries (p : ParameterSet F) : list ini_entry :=
  match lus_source p with
  | Constant => [Entry "LUS_PREVAH_CST" (int_str (lus_constant p))]
  | _ => []
  end.

Definition pois_sections (p : ParameterSet F) : list ini_section :=
  match poi_list p with
  | [] => []
  | pois => [("POIS", map poi_entry pois)]
  end.

Definition general_entries (p : ParameterSet F) : list ini_entry :=
  [ Entry "SIMULATION_NAME" (simu_name p);
    Entry "START_DATE" (strftime_iso (start_dt p));
    Entry "END_DATE" (strftime_iso (end_dt p)) ].

Definition input_entries (p : ParameterSet F) : list ini_entry :=
  [ Entry "EAST_epsg2056" (float_str (poi_x p));
    Entry "NORTH_epsg2056" (float_str (poi_y p));
    Entry "altLV95" (float_str (poi_z p));
    Entry "USE_SHP_ROI" (py_bool_str (use_shapefile p));
    roi_entry p;
    Entry "BUFFERSIZE" (int_str (buffer_size p)) ].

Definition output_entries (p : ParameterSet F) : list ini_entry :=
  [ Entry "OUT_COORDSYS" (coord_sys_str (coord_sys p));
    Entry "GSD" (float_str (gsd p));
    Entry "GSD_ref" (float_str (gsd_ref p));
    Bare "DEM_ADDFMTLIST";
    Entry "MESH_FMT" "vtu";
    Entry "MASK_DEM_TO_POLYGON" (py_bool_str (mask_dem_to_polygon p));
    Entry "MASK_LUS_TO_POLYGON" (py_bool_str (mask_lus_to_polygon p)) ].

Definition a3d_entries (p : ParameterSet F) : list ini_entry :=
  [ Entry "USE_GROUNDEYE" "false";
    Entry "LUS_SOURCE" (lus_source_str (lus_source p)) ]
  ++ lus_cst_entries p
  ++ [ Entry "DO_PVP_3D" "false"; Entry "PVP_3D_FMT" "vtu";
       Entry "SP_BIN_PATH" "snowpack" ].

(** The sections and entries [serialize] writes. *)
Definition doc_of (p : ParameterSet F) : list ini_section :=
  [ ("GENERAL", general_entries p); ("INPUT", input_entries p);
    ("OUTPUT", output_entries p); ("MAPS", [Entry "PLOT_HORIZON" "false"]);
    ("A3D", a3d_entries p) ]
  ++ pois_sections p.

Definition header_comments (now : datetime) : list string :=
  [ "# A3Dshell Configuration"; "# Generated: " +:+ strftime_stamp now ].

Lemma pois_content_unlines pois :
  pois_content pois = unlines (map render_entry (map poi_entry pois)).
Proof.
  induction pois as [|q pois IH]; [done|].
  simpl. rewrite IH. unfold entry_line, poi_value. by rewrite !append_assoc.
Qed.

Lemma serialize_unlines now p :
  serialize now p = unlines (header_comments now ++ doc_lines (doc_of p)).
Proof.
  unfold serialize, doc_of, doc_lines, pois_sections, a3d_entries, lus_cst_entries,
    input_entries, roi_entry, output_entries, general_entries, header_comments.
  destruct (use_shapefile p), (lus_source p), (poi_list p) as [|q pois];
    rewrite ?pois_content_unlines;
    cbn [unlines fold_right app concat map section_lines fst snd render_entry];
    rewrite ?app_nil_r;
    cbn [unlines fold_right app concat map section_lines fst snd render_entry];
    unfold entry_line, bare_line, header_line;
    rewrite ?append_assoc, ?append_nil_r; reflexivity.
Qed.

(** A parameter set the reader can take back: a name and, in the shapefile
    mode, a path that are empty or plain text, and points of interest with
    plain names that differ beyond the case of their letters. *)
Definition valid (p : ParameterSet F) : Prop :=
  value_ok (simu_name p) = true
  ∧ (use_shapefile p = true → value_ok (roi_shapefile p) = true)
  ∧ Forall (fun q => key_ok (poi_name q) = true) (poi_list p)
  ∧ NoDup (map (fun q => optionxform (poi_name q)) (poi_list p)).

Lemma float_str_ok (x : F) : value_ok (float_str x) = true.
Proof. apply token_value_ok, float_str_token. Qed.

Lemma int_str_ok n : value_ok (int_str n) = true.
Proof. apply token_value_ok, int_str_token. Qed.

Lemma poi_value_ok q : value_ok (poi_value q) = true.
Proof.
  unfold value_ok. apply orb_true_iff. right. unfold text_ok, poi_value.
  pose proof (float_str_token (poi_east q)) as He.
  pose proof (float_str_token (poi_north q)) as Hn.
  pose proof (float_str_token (poi_elev q)) as Hz.
  apply andb_true_iff; split; [apply andb_true_iff; split|].
  - rewrite !string_forallb_app.
    apply token_text_ok, text_ok_elim in He as (-> & _ & _).
    apply token_text_ok, text_ok_elim in Hn as (-> & _ & _).
    apply token_text_ok, text_ok_elim in Hz as (-> & _ & _). done.
  - rewrite starts_nonspace_app; [by apply token_starts_nonspace|].
    by apply is_token_elim in He as [? _].
  - rewrite !ends_nonspace_app.
    apply is_token_elim in Hz as [Hne _].
    rewrite (bool_decide_eq_false_2 (float_str (poi_elev q) = EmptyString)) by done.
    rewrite bool_decide_eq_false_2; [|by destruct (float_str (poi_north q))].
    rewrite bool_decide_eq_false_2; [|by destruct (float_str (poi_north q))].
    rewrite bool_decide_eq_false_2; [|done].
    by apply token_ends_nonspace, float_str_token.
Qed.

End WriterProperties.

(** ** Reading options back *)

Section GetProperties.
Import ConfigParser.

Definition no_percent (v : string) : Prop := contains_char "%"%char v = false.

Lemma value_no_percent v : value_ok v = true → no_percent v.
Proof.
  unfold no_percent, contains_char. intros Hv. apply negb_false_iff.
  destruct (value_ok_cases _ Hv) as [->|Hv']; [done|].
  apply text_ok_elim in Hv' as (Hall & _ & _).
  eapply string_forallb_impl; [|done].
  unfold text_char. intros c Hc. by andb_hyps.
Qed.

(** A value without a percent sign is its own interpolation. *)
Lemma interpolate_plain fuel map v :
  no_percent v → interpolate_some (S fuel) map v = Ok v.
Proof.
  unfold no_percent, contains_char. intros Hv%negb_false_iff.
  unfold interpolate_some. induction v as [|c v IH]; [done|].
  simpl in Hv. apply andb_true_iff in Hv as [Hc Hv].
  apply negb_true_iff in Hc. rewrite Hc. by rewrite (IH Hv).
Qed.

(** The options of a section, as a map. *)
Definition section_map (es : list ini_entry) : gmap string string :=
  fold_left put_entry es ∅.

Definition entry_keys (es : list ini_entry) : list string :=
  map (fun e => optionxform (entry_key e)) es.

Lemma put_entries_lookup_ne es k : ∀ m,
  k ∉ entry_keys es → fold_left put_entry es m !! k = m !! k.
Proof.
  induction es as [|e es IH]; intros m Hk; [done|].
  simpl. rewrite IH.
  - unfold put_entry. rewrite lookup_insert_ne; [done|]. intros Heq. apply Hk.
    unfold entry_keys. simpl. rewrite Heq. apply elem_of_cons. by left.
  - intros Hin. apply Hk. unfold entry_keys. simpl. apply elem_of_cons. by right.
Qed.

Lemma section_map_lookup es e :
  NoDup (entry_keys es) → e ∈ es →
  section_map es !! optionxform (entry_key e) = Some (entry_value e).
Proof.
  unfold section_map. generalize (∅ : gmap string string).
  induction es as [|e' es IH]; intros m Hnd Hin; [by apply elem_of_nil in Hin|].
  apply NoDup_cons in Hnd as [Hnew Hnd].
  apply elem_of_cons in Hin as [<-|Hin]; simpl.
  - rewrite put_entries_lookup_ne by done. unfold put_entry. by rewrite lookup_insert_eq.
  - by apply IH.
Qed.

Lemma section_map_lookup_none es k :
  k ∉ entry_keys es → section_map es !! k = None.
Proof. intros Hk. unfold section_map. by rewrite put_entries_lookup_ne. Qed.

Lemma section_map_plain es :
  Forall entry_ok es → map_Forall (fun _ v => no_percent v) (section_map es).
Proof.
  unfold section_map. intros Hes.
  assert (Hm : map_Forall (fun (_ : string) v => no_percent v) (∅ : gmap string string))
    by apply map_Forall_empty.
  revert Hm. generalize (∅ : gmap string string).
  induction Hes as [|e es [_ Hv] _ IH]; intros m Hm; [done|].
  simpl. apply IH. unfold put_entry. apply map_Forall_insert_2; [|done].
  by apply value_no_percent.
Qed.

Variable P : parser.
Hypothesis P_defaults : p_defaults P = ∅.

Lemma contains_section_some n m :
  p_sections P !! n = Some m → contains_section P n = true.
Proof.
  intros Hn. unfold contains_section, has_section.
  rewrite (bool_decide_eq_true_2 (n ∈ dom (p_sections P))); [apply orb_true_r|].
  apply elem_of_dom. by eexists.
Qed.

Lemma get_section n m k fallback :
  p_sections P !! n = Some m →
  map_Forall (fun _ v => no_percent v) m →
  get P n k fallback = Ok (default fallback (m !! optionxform k)).
Proof.
  intros Hn Hplain. unfold get, unify_values. rewrite Hn.
  destruct (m !! optionxform k) as [v|] eqn:Hk; simpl.
  - apply interpolate_plain. by apply (Hplain _ _ Hk).
  - by rewrite P_defaults, lookup_empty.
Qed.

Lemma getboolean_section n m k fallback :
  p_sections P !! n = Some m →
  map_Forall (fun _ v => no_percent v) m →
  getboolean P n k fallback
  = match m !! optionxform k with
    | Some v => convert_to_boolean v
    | None => Ok fallback
    end.
Proof.
  intros Hn Hplain. unfold getboolean, unify_values. rewrite Hn.
  destruct (m !! optionxform k) as [v|] eqn:Hk.
  - unfold before_get, MAX_INTERPOLATION_DEPTH.
    rewrite interpolate_plain; [done|]. by apply (Hplain _ _ Hk).
  - by rewrite P_defaults, lookup_empty.
Qed.

Lemma has_option_section n m k :
  n ≠ EmptyString → n ≠ default_section →
  p_sections P !! n = Some m →
  has_option P n k = bool_decide (optionxform k ∈ dom m).
Proof.
  intros Hne Hnd Hn. unfold has_option.
  rewrite !bool_decide_eq_false_2 by done. simpl. rewrite Hn, P_defaults, dom_empty_L.
  rewrite (bool_decide_eq_false_2 (_ ∈ ∅)) by set_solver. apply orb_false_r.
Qed.

(** An option written by an entry reads back as the entry's value. *)
Lemma get_entry n es k v fallback :
  p_sections P !! n = Some (section_map es) →
  Forall entry_ok es → NoDup (entry_keys es) →
  Entry k v ∈ es →
  get P n k fallback = Ok v.
Proof.
  intros Hn Hok Hnd Hin.
  rewrite (get_section n _ k fallback Hn (section_map_plain _ Hok)).
  pose proof (section_map_lookup es (Entry k v) Hnd Hin) as Hlook. simpl in Hlook.
  by rewrite Hlook.
Qed.

(** An option no entry wrote reads back as the fallback. *)
Lemma get_absent n es k fallback :
  p_sections P !! n = Some (section_map es) →
  Forall entry_ok es →
  optionxform k ∉ entry_keys es →
  get P n k fallback = Ok fallback.
Proof.
  intros Hn Hok Hk.
  rewrite (get_section n _ k fallback Hn (section_map_plain _ Hok)).
  by rewrite (section_map_lookup_none es _ Hk).
Qed.

Lemma getboolean_entry n es k v fallback :
  p_sections P !! n = Some (section_map es) →
  Forall entry_ok es → NoDup (entry_keys es) →
  Entry k v ∈ es →
  getboolean P n k fallback = convert_to_boolean v.
Proof.
  intros Hn Hok Hnd Hin.
  rewrite (getboolean_section n _ k fallback Hn (section_map_plain _ Hok)).
  pose proof (section_map_lookup es (Entry k v) Hnd Hin) as Hlook. simpl in Hlook.
  by rewrite Hlook.
Qed.

Lemma has_option_entry n es e :
  n ≠ EmptyString → n ≠ default_section →
  p_sections P !! n = Some (section_map es) →
  NoDup (entry_keys es) → e ∈ es →
  has_option P n (entry_key e) = true.
Proof.
  intros Hne Hnd Hn Hdup Hin. rewrite (has_option_section n _ _ Hne Hnd Hn).
  apply bool_decide_eq_true_2, elem_of_dom.
  rewrite (section_map_lookup es e Hdup Hin). by eexists.
Qed.

End GetProperties.

(** ** Loading what was saved *)

Create HintDb ini_values.
#[export] Hint Resolve strftime_iso_ok py_bool_str_ok coord_sys_str_ok
  lus_source_str_ok int_str_ok : ini_values.

Ltac closed_nodup := apply (bool_decide_unpack _); vm_compute; exact I.

Section LoaderProperties.
Context {F : Type} {FL : PyFloat F}.
Import ConfigParser.

Lemma general_entries_ok (p : ParameterSet F) :
  value_ok (simu_name p) = true → Forall entry_ok (general_entries p).
Proof.
  intros Hname. unfold general_entries.
  repeat constructor; simpl; auto with ini_values.
Qed.

Lemma input_entries_ok (p : ParameterSet F) :
  (use_shapefile p = true → value_ok (roi_shapefile p) = true) →
  Forall entry_ok (input_entries p).
Proof.
  intros Hshp. unfold input_entries, roi_entry.
  destruct (use_shapefile p);
    repeat constructor; simpl; auto using float_str_ok with ini_values.
Qed.

Lemma output_entries_ok (p : ParameterSet F) : Forall entry_ok (output_entries p).
Proof.
  unfold output_entries.
  repeat constructor; simpl; auto using float_str_ok with ini_values.
Qed.

Lemma a3d_entries_ok (p : ParameterSet F) : Forall entry_ok (a3d_entries p).
Proof.
  unfold a3d_entries, lus_cst_entries.
  destruct (lus_source p); repeat constructor; simpl; auto with ini_values.
Qed.

Lemma poi_entries_ok (pois : list (poi F)) :
  Forall (fun q => key_ok (poi_name q) = true) pois →
  Forall entry_ok (map poi_entry pois).
Proof.
  intros Hpois. apply Forall_fmap. eapply Forall_impl; [done|].
  intros q Hq. split; [done|]. apply poi_value_ok.
Qed.

Lemma general_keys (p : ParameterSet F) : NoDup (entry_keys (general_entries p)).
Proof. closed_nodup. Qed.

Lemma input_keys (p : ParameterSet F) : NoDup (entry_keys (input_entries p)).
Proof. unfold input_entries, roi_entry. destruct (use_shapefile p); closed_nodup. Qed.

Lemma output_keys (p : ParameterSet F) : NoDup (entry_keys (output_entries p)).
Proof. closed_nodup. Qed.

Lemma a3d_keys (p : ParameterSet F) : NoDup (entry_keys (a3d_entries p)).
Proof. unfold a3d_entries, lus_cst_entries. destruct (lus_source p); closed_nodup. Qed.

Lemma doc_names (p : ParameterSet F) : NoDup (map fst (doc_of p)).
Proof. unfold doc_of, pois_sections. destruct (poi_list p); closed_nodup. Qed.

Lemma section_ok_intro n es :
  header_ok n = true → n ≠ default_section →
  Forall entry_ok es → NoDup (entry_keys es) → section_ok (n, es).
Proof. by repeat split. Qed.

Lemma doc_of_ok (p : ParameterSet F) : valid p → doc_ok (doc_of p).
Proof.
  intros (Hname & Hshp & Hpois & Hdup). split; [|apply doc_names].
  unfold doc_of. apply Forall_app. split.
  - apply Forall_cons_2;
      [by apply section_ok_intro; [| |apply general_entries_ok|apply general_keys]|].
    apply Forall_cons_2;
      [by apply section_ok_intro; [| |apply input_entries_ok|apply input_keys]|].
    apply Forall_cons_2;
      [by apply section_ok_intro; [| |apply output_entries_ok|apply output_keys]|].
    apply Forall_cons_2.
    { apply section_ok_intro; [done|done| |closed_nodup].
      by repeat constructor. }
    apply Forall_cons_2;
      [by apply section_ok_intro; [| |apply a3d_entries_ok|apply a3d_keys]|].
    apply Forall_nil_2.
  - unfold pois_sections. destruct (poi_list p) as [|q pois] eqn:Hl; [constructor|].
    apply Forall_cons_2; [|apply Forall_nil_2].
    apply section_ok_intro; [done|done|by apply poi_entries_ok|].
    unfold entry_keys. by rewrite map_map.
Qed.

Lemma header_comments_ok now : Forall is_comment (header_comments now).
Proof.
  unfold header_comments. repeat constructor.
  unfold single_line. rewrite string_forallb_app.
  fold (single_line (strftime_stamp now)). by rewrite strftime_stamp_single.
Qed.

(** The parser a saved parameter set reads back as. *)
Definition parser_of (p : ParameterSet F) : parser :=
  {| p_sections := doc_model (doc_of p); p_defaults := ∅ |}.

Lemma read_serialized now p :
  valid p → read_string (serialize now p) = Ok (parser_of p).
Proof.
  intros Hp. rewrite serialize_unlines.
  apply read_string_document; [apply header_comments_ok | by apply doc_of_ok].
Qed.

Lemma parser_of_section (p : ParameterSet F) n es :
  (n, es) ∈ doc_of p → p_sections (parser_of p) !! n = Some (section_map es).
Proof. intros Hin. simpl. by apply doc_model_lookup; [apply doc_names|]. Qed.

End LoaderProperties.

Ltac entry_in :=
  repeat first [apply list_elem_of_here | apply list_elem_of_further].

Ltac closed_notin := apply (bool_decide_unpack _); vm_compute; exact I.

Section RoundTrip.
Context {F : Type} {FL : PyFloat F}.
Import ConfigParser.

(** What loading the text of [p] leaves in [config]: the fifteen keys the
    loader assigns, as text, and the other keys as they were. *)
Definition loaded_config (p : ParameterSet F) (cfg : config_dict) : config_dict :=
  <["lus_cst" := VStr (match lus_source p with
                       | Constant => int_str (lus_constant p)
                       | _ => "11500"
                       end)]>
  (<["lus_source" := VStr (lus_source_str (lus_source p))]>
  (<["gsd_ref" := VStr (float_str (gsd_ref p))]>
  (<["gsd" := VStr (float_str (gsd p))]>
  (<["coord_sys" := VStr (coord_sys_str (coord_sys p))]>
  (<["roi_shapefile" := VStr (if use_shapefile p then roi_shapefile p else "")]>
  (<["buffer_size" := VStr (int_str (buffer_size p))]>
  (<["roi_size" := VStr (if use_shapefile p then "1000" else int_str (roi_size p))]>
  (<["use_shp" := VBool (use_shapefile p)]>
  (<["poi_z" := VStr (float_str (poi_z p))]>
  (<["poi_y" := VStr (float_str (poi_y p))]>
  (<["poi_x" := VStr (float_str (poi_x p))]>
  (<["end_date" := VStr (strftime_iso (end_dt p))]>
  (<["start_date" := VStr (strftime_iso (start_dt p))]>
  (<["simu_name" := VStr (simu_name p)]> cfg)))))))))))))).

Variable p : ParameterSet F.
Hypothesis p_valid : valid p.

Lemma general_section :
  p_sections (parser_of p) !! "GENERAL" = Some (section_map (general_entries p)).
Proof. apply parser_of_section. unfold doc_of. apply elem_of_app. left. entry_in. Qed.

Lemma input_section :
  p_sections (parser_of p) !! "INPUT" = Some (section_map (input_entries p)).
Proof. apply parser_of_section. unfold doc_of. apply elem_of_app. left. entry_in. Qed.

Lemma output_section :
  p_sections (parser_of p) !! "OUTPUT" = Some (section_map (output_entries p)).
Proof. apply parser_of_section. unfold doc_of. apply elem_of_app. left. entry_in. Qed.

Lemma a3d_section :
  p_sections (parser_of p) !! "A3D" = Some (section_map (a3d_entries p)).
Proof. apply parser_of_section. unfold doc_of. apply elem_of_app. left. entry_in. Qed.

Lemma general_ok : Forall entry_ok (general_entries p).
Proof. apply general_entries_ok, p_valid. Qed.

Lemma input_ok : Forall entry_ok (input_entries p).
Proof. apply input_entries_ok, p_valid. Qed.

Lemma get_general k v fallback :
  Entry k v ∈ general_entries p → get (parser_of p) "GENERAL" k fallback = Ok v.
Proof.
  intros Hin. eapply get_entry;
    [done | apply general_section | apply general_ok | apply general_keys | done].
Qed.

Lemma get_input k v fallback :
  Entry k v ∈ input_entries p → get (parser_of p) "INPUT" k fallback = Ok v.
Proof.
  intros Hin. eapply get_entry;
    [done | apply input_section | apply input_ok | apply input_keys | done].
Qed.

Lemma get_output k v fallback :
  Entry k v ∈ output_entries p → get (parser_of p) "OUTPUT" k fallback = Ok v.
Proof.
  intros Hin. eapply get_entry;
    [done | apply output_section | apply output_entries_ok | apply output_keys | done].
Qed.

Lemma get_a3d k v fallback :
  Entry k v ∈ a3d_entries p → get (parser_of p) "A3D" k fallback = Ok v.
Proof.
  intros Hin. eapply get_entry;
    [done | apply a3d_section | apply a3d_entries_ok | apply a3d_keys | done].
Qed.

Lemma get_roi :
  get (parser_of p) "INPUT" "ROI" "1000"
  = Ok (if use_shapefile p then "1000" else int_str (roi_size p)).
Proof.
  pose proof input_section as Hs. pose proof input_ok as Hok.
  pose proof (input_keys p) as Hk.
  unfold input_entries, roi_entry in *. destruct (use_shapefile p).
  - eapply get_absent; [done | apply Hs | done | closed_notin].
  - eapply get_entry; [done | apply Hs | done | done | entry_in].
Qed.

Lemma get_roi_shapefile :
  get (parser_of p) "INPUT" "ROI_SHAPEFILE" ""
  = Ok (if use_shapefile p then roi_shapefile p else "").
Proof.
  pose proof input_section as Hs. pose proof input_ok as Hok.
  pose proof (input_keys p) as Hk.
  unfold input_entries, roi_entry in *. destruct (use_shapefile p).
  - eapply get_entry; [done | apply Hs | done | done | entry_in].
  - eapply get_absent; [done | apply Hs | done | closed_notin].
Qed.

Lemma get_lus_cst :
  get (parser_of p) "A3D" "LUS_PREVAH_CST" "11500"
  = Ok (match lus_source p with
        | Constant => int_str (lus_constant p)
        | _ => "11500"
        end).
Proof.
  pose proof a3d_section as Hs. pose proof (a3d_entries_ok p) as Hok.
  pose proof (a3d_keys p) as Hk.
  unfold a3d_entries, lus_cst_entries in *. destruct (lus_source p).
  - eapply get_absent; [done | apply Hs | done | closed_notin].
  - eapply get_absent; [done | apply Hs | done | closed_notin].
  - eapply get_entry; [done | apply Hs | done | done | entry_in].
Qed.

Lemma getboolean_use_shp :
  getboolean (parser_of p) "INPUT" "USE_SHP_ROI" false = Ok (use_shapefile p).
Proof.
  erewrite getboolean_entry;
    [| done | apply input_section | apply input_ok | apply input_keys
     | unfold input_entries; entry_in].
  by destruct (use_shapefile p).
Qed.

Lemma has_lus_source : has_option (parser_of p) "A3D" "LUS_SOURCE" = true.
Proof.
  apply (has_option_entry (parser_of p) eq_refl "A3D" (a3d_entries p)
           (Entry "LUS_SOURCE" (lus_source_str (lus_source p))));
    [done | done | apply a3d_section | apply a3d_keys |].
  unfold a3d_entries. apply elem_of_app. left. entry_in.
Qed.

(** The loader on the parser of [p]. *)
Lemma load_parsed_serialized cfg :
  load_parsed (parser_of p) cfg = (loaded_config p cfg, None).
Proof.
  unfold load_parsed.
  rewrite (contains_section_some _ _ _ general_section),
    (contains_section_some _ _ _ input_section),
    (contains_section_some _ _ _ output_section),
    (contains_section_some _ _ _ a3d_section).
  unfold when, load_general, load_input, load_output, load_a3d, load_lus_source.
  rewrite has_lus_source, get_roi, get_roi_shapefile, get_lus_cst, getboolean_use_shp.
  rewrite (get_general "SIMULATION_NAME" (simu_name p)) by (unfold general_entries; entry_in).
  rewrite (get_general "START_DATE" (strftime_iso (start_dt p)))
    by (unfold general_entries; entry_in).
  rewrite (get_general "END_DATE" (strftime_iso (end_dt p)))
    by (unfold general_entries; entry_in).
  rewrite (get_input "EAST_epsg2056" (float_str (poi_x p))) by (unfold input_entries; entry_in).
  rewrite (get_input "NORTH_epsg2056" (float_str (poi_y p))) by (unfold input_entries; entry_in).
  rewrite (get_input "altLV95" (float_str (poi_z p))) by (unfold input_entries; entry_in).
  rewrite (get_input "BUFFERSIZE" (int_str (buffer_size p))) by (unfold input_entries; entry_in).
  rewrite (get_output "OUT_COORDSYS" (coord_sys_str (coord_sys p)))
    by (unfold output_entries; entry_in).
  rewrite (get_output "GSD" (float_str (gsd p))) by (unfold output_entries; entry_in).
  rewrite (get_output "GSD_ref" (float_str (gsd_ref p))) by (unfold output_entries; entry_in).
  rewrite (get_a3d "LUS_SOURCE" (lus_source_str (lus_source p)))
    by (unfold a3d_entries; apply elem_of_app; left; entry_in).
  reflexivity.
Qed.

End RoundTrip.

(** ** The writer and the loader together *)

Section WriterLoader.
Context {F : Type} {FL : PyFloat F}.
Import ConfigParser.


(** The text after the two comment lines. *)
Definition config_body (p : ParameterSet F) : string := unlines (doc_lines (doc_of p)).

(** C2, as the code has it. The text is two comment lines, the second with
    the reading of the clock to the second, and a body that depends on the
    parameter set alone: two calls under the same reading give the same
    bytes, and the reading is all that two calls for the same parameter set
    can differ in. *)
Theorem serialize_up_to_clock (p : ParameterSet F) :
  (∀ now, serialize now p
          = "# A3Dshell Configuration" +:+ nl +:+ "# Generated: "
            +:+ strftime_stamp now +:+ nl +:+ config_body p)
  ∧ (∀ t1 t2, strftime_stamp t1 = strftime_stamp t2 → serialize t1 p = serialize t2 p).
Proof.
  assert (Hform : ∀ now, serialize now p
          = "# A3Dshell Configuration" +:+ nl +:+ "# Generated: "
            +:+ strftime_stamp now +:+ nl +:+ config_body p).
  { intros now. rewrite serialize_unlines, unlines_app. unfold header_comments, config_body.
    cbn [unlines fold_right]. by rewrite !append_assoc. }
  split; [done|]. intros t1 t2 Heq. by rewrite !Hform, Heq.
Qed.

Lemma serialize_lines now (p : ParameterSet F) :
  valid p → split_lines (serialize now p) = header_comments now ++ doc_lines (doc_of p).
Proof.
  intros Hp. rewrite serialize_unlines. apply split_lines_unlines.
  apply Forall_app; split.
  - eapply Forall_impl; [apply header_comments_ok|]. by intros c [_ ?].
  - apply doc_lines_single. by apply doc_of_ok.
Qed.

(** C9. A parameter set in the centre-point mode with ROI size 1000 and the
    constant land-cover source with code 11500, without points of interest,
    is written (whatever its centre and its period) as a text with the lines
    [ROI = 1000], [LUS_SOURCE = constant] and [LUS_PREVAH_CST = 11500] and
    with no line that starts with [ROI_SHAPEFILE]. *)
Theorem scenario_lines (now : datetime) (p : ParameterSet F) :
  valid p →
  use_shapefile p = false → roi_size p = 1000 →
  lus_source p = Constant → lus_constant p = 11500 →
  poi_list p = [] →
  "ROI = 1000" ∈ split_lines (serialize now p)
  ∧ "LUS_SOURCE = constant" ∈ split_lines (serialize now p)
  ∧ "LUS_PREVAH_CST = 11500" ∈ split_lines (serialize now p)
  ∧ Forall (fun line => String.prefix "ROI_SHAPEFILE" line = false)
           (split_lines (serialize now p)).
Proof.
  intros Hp Hshp Hsize Hsrc Hcst Hpois. rewrite (serialize_lines now p Hp).
  unfold header_comments, doc_of, doc_lines, pois_sections, a3d_entries, lus_cst_entries,
    input_entries, roi_entry, output_entries, general_entries.
  rewrite Hshp, Hsize, Hsrc, Hcst, Hpois.
  cbn [app concat map section_lines fst snd render_entry].
  repeat split.
  - entry_in.
  - entry_in.
  - entry_in.
  - repeat (apply Forall_cons_2; [reflexivity|]). apply Forall_nil_2.
Qed.

End WriterLoader.

(** ** The masking flags *)

(** A command that leaves the key [k] alone. *)
Definition preserves (k : string) (c : cmd) : Prop :=
  ∀ cfg, fst (c cfg) !! k = cfg !! k.

Lemma preserves_skip k : preserves k skip.
Proof. by intros cfg. Qed.

Lemma preserves_assign k key value : key ≠ k → preserves k (assign key value).
Proof.
  intros Hne cfg. unfold assign. destruct value as [v|e]; simpl; [|done].
  by rewrite lookup_insert_ne.
Qed.

Lemma preserves_seq k a b : preserves k a → preserves k b → preserves k (a >>> b).
Proof.
  intros Ha Hb cfg. unfold seq. specialize (Ha cfg).
  destruct (a cfg) as [cfg' [e|]]; simpl in *; [done|]. by rewrite Hb.
Qed.

Lemma preserves_when k guard body : preserves k body → preserves k (when guard body).
Proof. intros Hb. destruct guard; simpl; [done|apply preserves_skip]. Qed.

Create HintDb preserves.
#[export] Hint Resolve preserves_skip preserves_seq preserves_when : preserves.

Lemma load_preserves k file :
  k = "mask_dem_to_polygon" ∨ k = "mask_lus_to_polygon" →
  preserves k (load_selected_config file).
Proof.
  intros Hk cfg. unfold load_selected_config.
  destruct (ConfigParser.read file) as [parser|e]; [|done].
  revert cfg. change (preserves k (load_parsed parser)).
  unfold load_parsed, load_general, load_input, load_output, load_a3d, load_lus_source.
  destruct Hk as [-> | ->];
    repeat first [ apply preserves_seq | apply preserves_when
                 | (apply preserves_assign; done)
                 | match goal with |- preserves _ (if ?b then _ else _) => destruct b end ].
Qed.

Section MaskProperties.
Context {F G J : Type} {FL : PyFloat F} {GL : Geometry F G J}.
Import ConfigParser.

Definition masks_consistent (s : session (F := F)) : Prop :=
  effective_mask_dem s = true → effective_mask_lus s = true.

Lemma masks_consistent_lookup (s s' : session (F := F)) :
  config s' !! "mask_dem_to_polygon" = config s !! "mask_dem_to_polygon" →
  config s' !! "mask_lus_to_polygon" = config s !! "mask_lus_to_polygon" →
  masks_consistent s → masks_consistent s'.
Proof.
  unfold masks_consistent, effective_mask_dem, effective_mask_lus, config_get.
  by intros -> ->.
Qed.

Lemma store_masks_consistent mask_lus mask_dem (s : session (F := F)) :
  masks_consistent (store_masks mask_lus mask_dem s)
  ∧ effective_mask_lus (store_masks mask_lus mask_dem s) = mask_lus
  ∧ effective_mask_dem (store_masks mask_lus mask_dem s)
    = (if mask_lus then mask_dem else false).
Proof.
  unfold masks_consistent, effective_mask_dem, effective_mask_lus, config_get, store_masks.
  simpl. rewrite lookup_insert_eq, lookup_insert_ne by done. rewrite lookup_insert_eq.
  simpl. by destruct mask_lus, mask_dem.
Qed.

Lemma store_masks_roi_validated mask_lus mask_dem b (s : session (F := F)) :
  store_masks mask_lus mask_dem (set_roi_validated b s)
  = set_roi_validated b (store_masks mask_lus mask_dem s).
Proof. done. Qed.

Lemma roi_tab_masks (w : roi_inputs (F := F) (J := J)) (s : session) :
  masks_consistent (fst (roi_tab w s))
  ∧ (w_use_shapefile w = true → w_mask_lus w = false →
     effective_mask_dem (fst (roi_tab w s)) = false).
Proof.
  unfold roi_tab. destruct (w_use_shapefile w).
  - destruct (w_shapefile_option w); simpl.
    + unfold roi_draw_on_map.
      destruct (w_last_active_drawing w) as [g|].
      * destruct (check_polygon_in_swiss_boundaries g) as [is_valid msg].
        simpl. split.
        -- apply store_masks_consistent.
        -- intros _ Hlus.
           destruct (store_masks_consistent (w_mask_lus w) (w_mask_dem w)
             (if is_valid
              then if w_save_button w && nonempty (w_shapefile_name w)
                   then let '(success, _) :=
                          save_drawn_roi g ("config/shapefiles/" +:+ w_shapefile_name w +:+ ".shp") in
                        if success
                        then set_roi_validated true
                               (set_config (<["roi_shapefile" :=
                                  VStr ("config/shapefiles/" +:+ w_shapefile_name w +:+ ".shp")]>) s)
                        else set_roi_validated false s
                   else s
              else set_roi_validated false s)) as (_ & _ & ->).
           by rewrite Hlus.
      * simpl. split; [apply store_masks_consistent|].
        intros _ Hlus. destruct (store_masks_consistent (w_mask_lus w) (w_mask_dem w) s)
          as (_ & _ & ->). by rewrite Hlus.
    + unfold roi_existing_shapefile. split; [apply store_masks_consistent|].
      intros _ Hlus.
      match goal with |- effective_mask_dem (store_masks _ _ ?s0) = _ =>
        destruct (store_masks_consistent (w_mask_lus w) (w_mask_dem w) s0) as (_ & _ & ->)
      end. by rewrite Hlus.
  - split; [|done]. unfold roi_center_point.
    destruct (check_swiss_boundaries _ _ _) as [is_valid msg]. simpl.
    unfold masks_consistent, effective_mask_lus, config_get. simpl.
    by rewrite lookup_insert_eq.
Qed.

Lemma reachable_masks_consistent (s : session (F := F)) :
  reachable (GL := GL) s → masks_consistent s.
Proof.
  induction 1 as [|s s' Hreach IH Hstep].
  - by unfold masks_consistent.
  - destruct Hstep as [file s|w s|key v s Hdem Hlus|l s|l s].
    + eapply masks_consistent_lookup; [| |done]; simpl; apply load_preserves; auto.
    + apply roi_tab_masks.
    + eapply masks_consistent_lookup; [| |done]; simpl; by rewrite lookup_insert_ne.
    + done.
    + done.
Qed.

(** C7. In every session the steps of the program reach, the effective
    elevation mask is false whenever the effective land-cover mask is false;
    a run of the ROI tab in a shapefile mode with the land-cover box
    unchecked leaves the effective elevation mask false, whatever the
    elevation box says; and the text saved from such a session reads back
    with [MASK_LUS_TO_POLYGON] true whenever [MASK_DEM_TO_POLYGON] is. *)
Theorem elevation_mask_needs_land_cover_mask :
  (∀ s : session (F := F),
     reachable (GL := GL) s → effective_mask_lus s = false → effective_mask_dem s = false)
  ∧ (∀ (w : roi_inputs (F := F) (J := J)) (s : session),
     w_use_shapefile w = true → w_mask_lus w = false →
     effective_mask_dem (fst (roi_tab w s)) = false)
  ∧ (∀ now (w : ParameterSet F) (s : session),
     reachable (GL := GL) s → valid (saved_parameter_set w s) →
     ∃ P, read_string (save_config now w s) = Ok P
          ∧ (get P "OUTPUT" "MASK_LUS_TO_POLYGON" "" = Ok "false" →
             get P "OUTPUT" "MASK_DEM_TO_POLYGON" "" = Ok "false")).
Proof.
  split; [|split].
  - intros s Hreach Hlus. pose proof (reachable_masks_consistent s Hreach) as Hinv.
    unfold masks_consistent in Hinv. destruct (effective_mask_dem s); [|done].
    rewrite Hinv in Hlus; done.
  - intros w s. apply roi_tab_masks.
  - intros now w s Hreach Hvalid. exists (parser_of (saved_parameter_set w s)). split.
    { by apply read_serialized. }
    pose proof (reachable_masks_consistent s Hreach) as Hinv.
    rewrite (get_output (saved_parameter_set w s) "MASK_LUS_TO_POLYGON"
               (py_bool_str (mask_lus_to_polygon (saved_parameter_set w s))))
      by (unfold output_entries; entry_in).
    rewrite (get_output (saved_parameter_set w s) "MASK_DEM_TO_POLYGON"
               (py_bool_str (mask_dem_to_polygon (saved_parameter_set w s))))
      by (unfold output_entries; entry_in).
    simpl. unfold masks_consistent in Hinv.
    destruct (effective_mask_dem s), (effective_mask_lus s); try done.
    by specialize (Hinv eq_refl).
Qed.

End MaskProperties.

(** ** The legacy land-cover key *)

Section LegacyKey.
Import ConfigParser.

(** No value of the file calls for interpolation. *)
Definition plain_parser (P : parser) : Prop :=
  map_Forall (fun _ m => map_Forall (fun _ v => no_percent v) m) (p_sections P)
  ∧ map_Forall (fun _ v => no_percent v) (p_defaults P).

Variable P : parser.
Hypothesis P_plain : plain_parser P.

Lemma get_readable n k fallback : ∃ v, get P n k fallback = Ok v.
Proof.
  destruct P_plain as [Hsec Hdef]. unfold get, unify_values.
  destruct (p_sections P !! n) as [m|] eqn:Hn.
  - destruct (m !! optionxform k) as [v|] eqn:Hk.
    + exists v. apply interpolate_plain. by apply (Hsec _ _ Hn _ _ Hk).
    + destruct (p_defaults P !! optionxform k) as [v|] eqn:Hd; [|by eexists].
      exists v. apply interpolate_plain. by apply (Hdef _ _ Hd).
  - case_bool_decide; [|by eexists].
    destruct (p_defaults P !! optionxform k) as [v|] eqn:Hd; [|by eexists].
    exists v. apply interpolate_plain. by apply (Hdef _ _ Hd).
Qed.

Lemma assign_readable key n k fallback cfg :
  ∃ v, assign key (str_of (get P n k fallback)) cfg = (<[key := VStr v]> cfg, None).
Proof.
  destruct (get_readable n k fallback) as [v Hv]. exists v.
  unfold assign, str_of. by rewrite Hv.
Qed.

(** A command that runs to its end. *)
Definition completes (c : cmd) : Prop := ∀ cfg, ∃ cfg', c cfg = (cfg', None).

Lemma completes_seq a b : completes a → completes b → completes (a >>> b).
Proof.
  intros Ha Hb cfg. unfold seq. destruct (Ha cfg) as [cfg1 ->]. apply Hb.
Qed.

Lemma completes_when guard body : completes body → completes (when guard body).
Proof. intros Hb. destruct guard; simpl; [done|]. intros cfg. by eexists. Qed.

Lemma completes_get key n k fallback :
  completes (assign key (str_of (get P n k fallback))).
Proof.
  intros cfg. destruct (assign_readable key n k fallback cfg) as [v ->]. by eexists.
Qed.

Lemma completes_getboolean key n k fallback b :
  getboolean P n k fallback = Ok b →
  completes (assign key (bool_of (getboolean P n k fallback))).
Proof. intros Hb cfg. unfold assign, bool_of. rewrite Hb. by eexists. Qed.

Lemma load_general_completes : completes (load_general P).
Proof. unfold load_general. repeat apply completes_seq; apply completes_get. Qed.

Lemma load_output_completes : completes (load_output P).
Proof. unfold load_output. repeat apply completes_seq; apply completes_get. Qed.

Lemma load_input_completes b :
  getboolean P "INPUT" "USE_SHP_ROI" false = Ok b → completes (load_input P).
Proof.
  intros Hb. unfold load_input.
  repeat apply completes_seq; try apply completes_get.
  by eapply completes_getboolean.
Qed.



End LegacyKey.


(** ** The scenario of the specification, on the test doubles *)

Definition october_first : datetime :=
  {| year := 2023; month := 10; day := 1; hour := 0; minute := 0; second := 0 |}.
Definition october_last : datetime :=
  {| year := 2023; month := 10; day := 31; hour := 23; minute := 59; second := 59 |}.

(** Two readings of the clock, one second apart. *)
Definition clock0 : datetime :=
  {| year := 2024; month := 5; day := 17; hour := 9; minute := 30; second := 0 |}.
Definition clock1 : datetime :=
  {| year := 2024; month := 5; day := 17; hour := 9; minute := 30; second := 1 |}.

(** Centre (645000, 115000, 1500), ROI size 1000, October 2023, the constant
    land-cover source with code 11500; the other fields as the widgets
    default them. *)
Definition scenario : ParameterSet Z :=
  {| simu_name := "demo"; start_dt := october_first; end_dt := october_last;
     poi_x := 2 * 645000; poi_y := 2 * 115000; poi_z := 2 * 1500;
     use_shapefile := false; roi_shapefile := ""; roi_size := 1000;
     buffer_size := 10000; coord_sys := CH1903plus; gsd := 2 * 10; gsd_ref := 2 * 2;
     mask_dem_to_polygon := true; mask_lus_to_polygon := true;
     lus_source := Constant; lus_constant := 11500; poi_list := [] |}.

Definition summit : poi Z :=
  {| poi_name := "Summit"; poi_east := 2 * 645000 + 1; poi_north := 2 * 115000;
     poi_elev := 2 * 1500 + 1 |}.

(** The scenario with one point of interest. *)
Definition scenario_with_poi : ParameterSet Z :=
  {| simu_name := "demo"; start_dt := october_first; end_dt := october_last;
     poi_x := 2 * 645000; poi_y := 2 * 115000; poi_z := 2 * 1500;
     use_shapefile := false; roi_shapefile := ""; roi_size := 1000;
     buffer_size := 10000; coord_sys := CH1903plus; gsd := 2 * 10; gsd_ref := 2 * 2;
     mask_dem_to_polygon := true; mask_lus_to_polygon := true;
     lus_source := Constant; lus_constant := 11500; poi_list := [summit] |}.


Lemma scenario_valid : valid scenario.
Proof.
  split; [reflexivity|]. split; [discriminate|]. split; [apply Forall_nil_2|].
  apply NoDup_nil_2.
Qed.

Lemma scenario_with_poi_valid : valid scenario_with_poi.
Proof.
  split; [reflexivity|]. split; [discriminate|].
  split; [apply Forall_cons_2; [reflexivity|apply Forall_nil_2]|].
  apply NoDup_singleton.
Qed.




(** C2, the claim as stated, refuted: the same parameter set written at two
    readings of the clock gives two texts. *)
Lemma serialize_differs_across_seconds :
  serialize clock0 scenario ≠ serialize clock1 scenario.
Proof.
  intros H. apply (f_equal (fun text => nth 1 (split_lines text) EmptyString)) in H.
  vm_compute in H. discriminate H.
Qed.

Lemma serialize_up_to_clock_witness :
  strftime_stamp clock0 = strftime_stamp clock0
  ∧ serialize clock0 scenario = serialize clock0 scenario.
Proof.
  split; [reflexivity|].
  apply (proj2 (serialize_up_to_clock scenario) clock0 clock0). reflexivity.
Defined.

Lemma scenario_lines_witness :
  valid scenario
  ∧ "ROI = 1000" ∈ split_lines (serialize clock0 scenario)
  ∧ "LUS_SOURCE = constant" ∈ split_lines (serialize clock0 scenario)
  ∧ "LUS_PREVAH_CST = 11500" ∈ split_lines (serialize clock0 scenario)
  ∧ Forall (fun line => String.prefix "ROI_SHAPEFILE" line = false)
           (split_lines (serialize clock0 scenario)).
Proof.
  split; [apply scenario_valid|].
  apply (scenario_lines clock0 scenario scenario_valid); reflexivity.
Defined.




(** The land-cover box unchecked and the elevation box checked, for an
    existing shapefile. *)
Definition uncheck_land_cover : roi_inputs (F := Z) (J := rect) :=
  {| w_use_shapefile := true; w_shapefile_option := UseExistingShapefile;
     w_found_shapefiles := ["config/shapefiles/elsewhere.shp"];
     w_selected_shapefile := "config/shapefiles/elsewhere.shp";
     w_shapefile_path := ""; w_mask_lus := false; w_mask_dem := true;
     w_last_active_drawing := None; w_shapefile_name := "roi_drawn";
     w_save_button := false;
     w_poi_x := 2 * 2645000; w_poi_y := 2 * 1115000; w_roi_size := 1000 |}.

Lemma elevation_mask_needs_land_cover_mask_witness :
  let s := fst (roi_tab (GL := RectGeometry) uncheck_land_cover session_init) in
  reachable (GL := RectGeometry) s
  ∧ effective_mask_lus s = false
  ∧ effective_mask_dem s = false.
Proof.
  intros s.
  assert (Hreach : reachable (GL := RectGeometry) s).
  { eapply reach_step; [apply reach_init|]. apply step_roi_tab. }
  split; [exact Hreach|]. split; [reflexivity|].
  apply (proj1 (elevation_mask_needs_land_cover_mask (GL := RectGeometry)) s Hreach).
  reflexivity.
Defined.

(** A process that prints two lines and exits with code 1, and touches no file. *)
Definition failing_world : process_world :=
  {| popen := fun _ => Exited ["reading config"; "no DEM found"] 1;
     side_effect := fun _ fs => fs |}.

Definition run_init : run_state :=
  {| run_files := ∅; run_config := ∅; run_ui := []; run_file_events := [] |}.

Definition other_run_init : run_state :=
  {| run_files := ∅; run_config := {["user_dem_path" := VStr "/srv/config/dem/alps.tif"]};
     run_ui := []; run_file_events := [] |}.

Definition other_scenario : OtherParameters :=
  {| simu_name_other := "demo"; target_epsg := 32632; lus_constant_other := 11500 |}.



(** ** The run handlers: what is shown, launched and touched *)



Lemma stream_output_config full_log lines r :
  run_config (stream_output full_log lines r) = run_config r.
Proof.
  revert full_log r. induction lines as [|l lines IH]; intros full_log r; [done|].
  simpl. by rewrite IH.
Qed.


Section RunReports.
Context {F : Type} {FL : PyFloat F}.
Variable world : process_world.

(** The command line of the [Start Run] handler. *)
Definition start_run_command (p : ParameterSet F) (log_level : string)
    (skip_snowpack : bool) : list string :=
  (["python"; "-m"; "src.cli"; "--config"; "config/_temp_" +:+ simu_name p +:+ ".ini";
    "--log-level"; log_level]
   ++ (if skip_snowpack then ["--skip-snowpack"] else []))%list.

(** The command line of the [Start Setup] handler. *)
Definition start_setup_command (o : OtherParameters) (log_level : string) : list string :=
  ["python"; "-m"; "src.cli"; "--config"; "config/_temp_" +:+ simu_name_other o +:+ ".ini";
   "--log-level"; log_level; "--skip-snowpack"].




Lemma cleanup_config path r : run_config (cleanup path r) = run_config r.
Proof. unfold cleanup. by destruct (exists_path path r). Qed.

Lemma cleanup_files path r : run_files (cleanup path r) = delete path (run_files r).
Proof.
  unfold cleanup, exists_path. case_bool_decide as Hin; [done|].
  symmetry. apply delete_id. by apply not_elem_of_dom.
Qed.

Lemma cleanup_events path r :
  run_file_events (cleanup path r)
  = (run_file_events r
     ++ if bool_decide (path ∈ dom (run_files r)) then [Unlink path] else [])%list.
Proof.
  unfold cleanup, exists_path. case_bool_decide; [done|]. by rewrite app_nil_r.
Qed.


Lemma start_setup_try_files name command r :
  run_files (fst (start_setup_try world name command r))
  = match popen world command with
    | LaunchError _ => run_files r
    | _ => side_effect world command (run_files r)
    end.
Proof.
  unfold start_setup_try.
  destruct (popen world command) as [e|lines e|lines returncode]; [done| |].
  - simpl. by destruct (stream_output_files [] lines
                          (with_files (side_effect world command) r)) as [-> _].
  - pose proof (stream_output_files [] lines
                  (with_files (side_effect world command) r)) as [Hf _].
    case_bool_decide; simpl; by rewrite Hf.
Qed.

Lemma start_run_try_files name command r :
  run_files (fst (start_run_try world name command r))
  = match popen world command with
    | LaunchError _ => run_files r
    | _ => side_effect world command (run_files r)
    end.
Proof.
  unfold start_run_try.
  destruct (popen world command) as [e|lines e|lines returncode]; [done| |].
  - simpl. by destruct (stream_output_files [] lines
                          (with_files (side_effect world command) r)) as [-> _].
  - pose proof (stream_output_files [] lines
                  (with_files (side_effect world command) r)) as [Hf _].
    case_bool_decide; [|simpl; by rewrite Hf].
    destruct (exists_path _ _); [|simpl; by rewrite Hf].
    match goal with |- context [?m !! ?k] => destruct (m !! k) end;
      simpl; by rewrite Hf.
Qed.

(** The files a guarded run leaves, and the file events it adds. *)
Lemma guarded_run_files temp command body handler r0 :
  (∀ r, body_effect world command r (fst (body r))) →
  (∀ r, run_files (fst (body r))
        = match popen world command with
          | LaunchError _ => run_files r
          | _ => side_effect world command (run_files r)
          end) →
  (∀ e r, run_files (handler e r) = run_files r
          ∧ run_file_events (handler e r) = run_file_events r) →
  let left := match popen world command with
              | LaunchError _ => run_files r0
              | _ => side_effect world command (run_files r0)
              end in
  run_files (try_except_finally body handler (cleanup temp) r0) = delete temp left
  ∧ run_file_events (try_except_finally body handler (cleanup temp) r0)
    = (run_file_events r0
       ++ if bool_decide (temp ∈ dom left) then [Unlink temp] else [])%list.
Proof.
  intros Heffect Hfiles Hhandler left. unfold try_except_finally.
  specialize (Heffect r0) as [Hev _]. specialize (Hfiles r0). fold left in Hfiles.
  destruct (body r0) as [r1 [e|]]; simpl in Hev, Hfiles;
    rewrite cleanup_files, cleanup_events.
  - destruct (Hhandler e r1) as [-> ->]. by rewrite Hfiles, Hev.
  - by rewrite Hfiles, Hev.
Qed.

(** X3. What the two run handlers do to the files.  Stopped by a missing
    simulation name (or, for [Start Setup], a missing DEM), a handler writes
    and launches nothing.  Otherwise it writes its temporary configuration,
    launches its one command, and in the end the temporary file is gone and
    every other file is as the process left it, or as it was when the launch
    raised: the handler itself only writes the temporary file and unlinks it
    at most once. *)
Theorem run_handlers_files :
  (∀ (p : ParameterSet F) log_level skip_snowpack r,
     let temp_config := "config/_temp_" +:+ simu_name p +:+ ".ini" in
     let command := start_run_command p log_level skip_snowpack in
     let written := <[temp_config := temp_config_content p]> (run_files r) in
     let left := match popen world command with
                 | LaunchError _ => written
                 | _ => side_effect world command written
                 end in
     let r' := start_run world p log_level skip_snowpack r in
     if bool_decide (simu_name p = EmptyString) then
       run_files r' = run_files r ∧ run_file_events r' = run_file_events r
     else
       run_files r' = delete temp_config left
       ∧ run_file_events r'
         = (run_file_events r ++ [WriteFile temp_config]
            ++ if bool_decide (temp_config ∈ dom left) then [Unlink temp_config] else [])%list)
  ∧ (∀ (o : OtherParameters) (pois : list (poi F)) log_level r,
     let temp_config := "config/_temp_" +:+ simu_name_other o +:+ ".ini" in
     let command := start_setup_command o log_level in
     let written :=
       <[temp_config := temp_config_content_other o (run_config r) pois]> (run_files r) in
     let left := match popen world command with
                 | LaunchError _ => written
                 | _ => side_effect world command written
                 end in
     let r' := start_setup world o pois log_level r in
     if bool_decide (simu_name_other o = EmptyString)
        || negb (truthy (config_get (run_config r) "user_dem_path" VNone)) then
       run_files r' = run_files r ∧ run_file_events r' = run_file_events r
     else
       run_files r' = delete temp_config left
       ∧ run_file_events r'
         = (run_file_events r ++ [WriteFile temp_config]
            ++ if bool_decide (temp_config ∈ dom left) then [Unlink temp_config] else [])%list).
Proof.
  split.
  - intros p log_level skip_snowpack r. cbv zeta. unfold start_run, start_run_command.
    case_bool_decide as Hname; [done|].
    set (temp_config := "config/_temp_" +:+ simu_name p +:+ ".ini").
    set (command := (_ ++ _)%list).
    set (r0 := say _ (say _ (write_file _ _ r))).
    destruct (guarded_run_files temp_config command
                (start_run_try world (simu_name p) command)
                (fun e => say (UiError ("❌ Error running simulation: " +:+ exn_str e))) r0)
      as [Hf He].
    + intros r1. apply start_run_try_effect.
    + intros r1. apply start_run_try_files.
    + done.
    + rewrite Hf, He. subst r0. simpl. by rewrite <- app_assoc.
  - intros o pois log_level r. cbv zeta. unfold start_setup, start_setup_command.
    case_bool_decide as Hname; [done|]. simpl orb.
    destruct (truthy _); simpl negb; cbv iota; [|done].
    set (temp_config := "config/_temp_" +:+ simu_name_other o +:+ ".ini").
    set (command := [_; _; _; _; _; _; _; _]).
    set (r0 := write_file _ _ r).
    destruct (guarded_run_files temp_config command
                (start_setup_try world (simu_name_other o) command)
                (fun e => say (UiError ("❌ Error running setup: " +:+ exn_str e))) r0)
      as [Hf He].
    + intros r1. apply start_setup_try_effect.
    + intros r1. apply start_setup_try_files.
    + done.
    + rewrite Hf, He. subst r0. simpl. by rewrite <- app_assoc.
Qed.

End RunReports.

(** ** Points of interest that share a name *)

Section DuplicateOptions.
Import ConfigParser.

Lemma update_options_added sect f st :
  rs_added_options (update_options sect f st) = rs_added_options st.
Proof. unfold update_options. by case_bool_decide. Qed.

Lemma read_entry_added st value st' :
  read_entry st value = Ok st' → rs_added_options st ⊆ rs_added_options st'.
Proof.
  unfold read_entry. destruct (match_section value) as [name|].
  - unfold enter_section. repeat case_bool_decide; intros [= <-]; done.
  - destruct (rs_cursect st) as [sect|]; [|done].
    destruct (match_option value) as [[name optval]|]; [|by intros [= <-]].
    unfold set_option. case_bool_decide; [done|]. intros [= <-]. simpl.
    rewrite update_options_added. simpl. set_solver.
Qed.

(** The reader never forgets an option it has seen. *)
Lemma read_step_added st line st' :
  read_step st line = Ok st' → rs_added_options st ⊆ rs_added_options st'.
Proof.
  unfold read_step. destruct (line_form_of line) as [commented|indent value].
  - destruct (open_option st) as [[sect opt]|]; [|by intros [= <-]].
    destruct commented; intros [= <-]; [done|].
    unfold append_value. by rewrite update_options_added.
  - destruct (open_option st) as [[sect opt]|].
    + destruct (_ <? _)%nat.
      * intros [= <-]. unfold append_value. by rewrite update_options_added.
      * intros H. by apply read_entry_added in H.
    + intros H. by apply read_entry_added in H.
Qed.

Lemma read_lines_added lines : ∀ st st',
  read_lines st lines = Ok st' → rs_added_options st ⊆ rs_added_options st'.
Proof.
  induction lines as [|l lines IH]; intros st st'; simpl; [by intros [= <-]|].
  destruct (read_step st l) as [st1|e] eqn:Hstep; simpl; [|done].
  intros Hrest. etrans; [by eapply read_step_added|by eapply IH].
Qed.

(** The step of an entry, spelt out. *)
Lemma read_step_entry st M n k v line :
  line_form_of line = Content 0 (entry_value_line k v) →
  key_ok k = true → value_ok v = true →
  tracks st M (Some n) →
  read_step st line = set_option n k v (with_indent 0 st).
Proof.
  intros Hform Hk Hv [Hview Hdef Herr Hind Hcur Hcurok Hadded].
  assert (Hkne : k ≠ EmptyString).
  { intros ->. by apply key_ok_elim in Hk as (_ & ? & _). }
  assert (Hentry : read_entry (with_indent 0 st) (entry_value_line k v)
                   = set_option n k v (with_indent 0 st)).
  { unfold read_entry. rewrite (match_section_entry _ _ Hk). simpl rs_cursect.
    rewrite Hcur, (match_option_entry _ _ Hk Hv).
    rewrite (bool_decide_eq_false_2 (k = EmptyString)) by done.
    f_equal. unfold with_error, with_indent. simpl. by rewrite orb_false_r. }
  unfold read_step. rewrite Hform.
  destruct (open_option st) as [[sect opt]|]; [|done]. by rewrite Hind.
Qed.

(** An option met a second time in its section stops the reader. *)
Lemma read_step_duplicate st M n k v line :
  line_form_of line = Content 0 (entry_value_line k v) →
  key_ok k = true → value_ok v = true →
  tracks st M (Some n) →
  (n, optionxform k) ∈ rs_added_options st →
  read_step st line = Raise (DuplicateOptionError n (optionxform k)).
Proof.
  intros Hform Hk Hv Htr Hin. rewrite (read_step_entry st M n k v line) by done.
  unfold set_option. simpl. by rewrite bool_decide_eq_true_2.
Qed.

Lemma read_step_entry_added st M n k v line st' :
  line_form_of line = Content 0 (entry_value_line k v) →
  key_ok k = true → value_ok v = true →
  tracks st M (Some n) →
  read_step st line = Ok st' →
  (n, optionxform k) ∈ rs_added_options st'.
Proof.
  intros Hform Hk Hv Htr. rewrite (read_step_entry st M n k v line) by done.
  unfold set_option. case_bool_decide; [done|]. intros [= <-]. simpl.
  rewrite update_options_added. simpl. set_solver.
Qed.

(** After the entries of a section are read, each of their options counts
    as seen. *)
Lemma read_entries_added n es : ∀ st M m st',
  tracks st M (Some n) → M !! n = Some m →
  Forall entry_ok es →
  NoDup (map (fun e => optionxform (entry_key e)) es) →
  (∀ e, e ∈ es → optionxform (entry_key e) ∉ dom m) →
  read_lines st (map render_entry es) = Ok st' →
  ∀ e, e ∈ es → (n, optionxform (entry_key e)) ∈ rs_added_options st'.
Proof.
  induction es as [|e es IH]; intros st M m st' Htr Hm Hok Hnd Hfresh Hread e' Hin.
  { by apply elem_of_nil in Hin. }
  apply Forall_cons in Hok as [He Hok].
  apply NoDup_cons in Hnd as [Hk_new Hnd]. simpl in Hk_new.
  destruct (read_step_option st M n m (entry_key e) (entry_value e) (render_entry e))
    as (st1 & Hstep & Htr1); try done; try apply He.
  { by apply line_form_render. }
  { apply (Hfresh e). by left. }
  simpl in Hread. rewrite Hstep in Hread. simpl in Hread.
  apply elem_of_cons in Hin as [->|Hin].
  - apply (read_lines_added _ _ _ Hread).
    eapply (read_step_entry_added st M n); try done; try apply He.
    by apply line_form_render.
  - eapply (IH st1 _ (put_entry m e)); try done.
    + unfold add_entry. by rewrite lookup_alter_eq, Hm.
    + intros e'' Hin''. unfold put_entry. rewrite dom_insert_L.
      intros [Heq%elem_of_singleton|Hold]%elem_of_union.
      * apply Hk_new. rewrite <- Heq. apply list_elem_of_fmap. by exists e''.
      * apply (Hfresh e''); [by right|done].
Qed.

End DuplicateOptions.

(** The first element of a list whose image was met before. *)
Lemma first_repeat {A : Type} (f : A → string) (l : list A) :
  ¬ NoDup (map f l) →
  ∃ pre x post, l = (pre ++ x :: post)%list ∧ NoDup (map f pre) ∧ f x ∈ map f pre.
Proof.
  induction l as [|x l IH] using rev_ind; [intros H; destruct H; constructor|].
  intros Hdup. destruct (decide (NoDup (map f l))) as [Hnd|Hnd].
  - exists l, x, []. split; [done|]. split; [done|].
    destruct (decide (f x ∈ map f l)) as [Hin|Hnotin]; [done|].
    destruct Hdup. rewrite map_app. apply NoDup_app. split; [done|].
    split; [|apply NoDup_singleton].
    intros y Hy Hy'. apply list_elem_of_singleton in Hy'. by subst.
  - destruct (IH Hnd) as (pre & y & post & -> & Hpre & Hin).
    exists pre, y, (post ++ [x])%list. by rewrite <- app_assoc.
Qed.

Section DuplicatePois.
Context {F : Type} {FL : PyFloat F}.
Import ConfigParser.

(** The parameter set without its points of interest. *)
Definition without_pois (p : ParameterSet F) : ParameterSet F :=
  {| simu_name := simu_name p; start_dt := start_dt p; end_dt := end_dt p;
     poi_x := poi_x p; poi_y := poi_y p; poi_z := poi_z p;
     use_shapefile := use_shapefile p; roi_shapefile := roi_shapefile p;
     roi_size := roi_size p; buffer_size := buffer_size p;
     coord_sys := coord_sys p; gsd := gsd p; gsd_ref := gsd_ref p;
     mask_dem_to_polygon := mask_dem_to_polygon p;
     mask_lus_to_polygon := mask_lus_to_polygon p;
     lus_source := lus_source p; lus_constant := lus_constant p; poi_list := [] |}.

Lemma without_pois_valid p :
  value_ok (simu_name p) = true →
  (use_shapefile p = true → value_ok (roi_shapefile p) = true) →
  valid (without_pois p).
Proof.
  intros Hname Hshp. split; [done|]. split; [done|].
  split; [apply Forall_nil_2|apply NoDup_nil_2].
Qed.

Lemma doc_of_pois (p : ParameterSet F) :
  poi_list p ≠ [] →
  doc_of p = (doc_of (without_pois p) ++ [("POIS", map poi_entry (poi_list p))])%list.
Proof.
  intros Hne. unfold doc_of, pois_sections. simpl poi_list.
  destruct (poi_list p) as [|q pois]; [done|]. by rewrite app_nil_r.
Qed.

Lemma doc_lines_app a b : doc_lines (a ++ b) = (doc_lines a ++ doc_lines b)%list.
Proof. unfold doc_lines. by rewrite map_app, concat_app. Qed.

(** X4. Nothing keeps two points of interest from sharing a name, and a
    configuration saved with two names that differ at most in the case of
    their letters cannot be loaded again: reading the file raises
    [DuplicateOptionError] for the section [POIS] at the first name met
    before, and [config] is left as it was. *)
Theorem duplicate_poi_names_unloadable (now : datetime) (p : ParameterSet F)
    (cfg : config_dict) :
  value_ok (simu_name p) = true →
  (use_shapefile p = true → value_ok (roi_shapefile p) = true) →
  Forall (fun q => key_ok (poi_name q) = true) (poi_list p) →
  ¬ NoDup (map (fun q => lower (poi_name q)) (poi_list p)) →
  ∃ pre q post,
    poi_list p = (pre ++ q :: post)%list
    ∧ NoDup (map (fun q => lower (poi_name q)) pre)
    ∧ lower (poi_name q) ∈ map (fun q => lower (poi_name q)) pre
    ∧ load_selected_config (Some (serialize now p)) cfg
      = (cfg, Some (DuplicateOptionError "POIS" (lower (poi_name q)))).
Proof.
  intros Hname Hshp Hkeys Hdup.
  destruct (first_repeat _ _ Hdup) as (pre & q & post & Hlist & Hpre & Hq).
  exists pre, q, post. split; [done|]. split; [done|]. split; [done|].
  pose proof (without_pois_valid p Hname Hshp) as Hvalid0.
  destruct (doc_of_ok _ Hvalid0) as [Hok0 Hnd0].
  assert (Hentries : Forall entry_ok (map poi_entry (poi_list p)))
    by by apply poi_entries_ok.
  rewrite Hlist in Hkeys.
  apply Forall_app in Hkeys as [Hkpre Hkrest].
  apply Forall_cons in Hkrest as [Hkq Hkpost].
  set (lines_pre := map render_entry (map poi_entry pre)).
  set (lines_post := map render_entry (map poi_entry post)).
  assert (Hlines : split_lines (serialize now p)
                   = (header_comments now
                      ++ doc_lines (doc_of (without_pois p))
                      ++ [EmptyString; header_line "POIS"]
                      ++ lines_pre
                      ++ render_entry (poi_entry q) :: lines_post)%list).
  { rewrite serialize_unlines, doc_of_pois by (rewrite Hlist; by destruct pre).
    rewrite doc_lines_app. unfold doc_lines at 2. simpl concat. rewrite app_nil_r.
    unfold section_lines. simpl fst. simpl snd.
    rewrite split_lines_unlines.
    - rewrite Hlist, !map_app. simpl. done.
    - apply Forall_app; split.
      { eapply Forall_impl; [apply header_comments_ok|]. by intros c [_ ?]. }
      apply Forall_app; split; [by apply doc_lines_single|].
      apply Forall_cons_2; [done|]. apply Forall_cons_2; [done|].
      apply Forall_fmap. eapply Forall_impl; [done|].
      intros e He. by apply render_single_line. }
  assert (Hread : read_lines rs_init (split_lines (serialize now p))
                  = Raise (DuplicateOptionError "POIS" (lower (poi_name q)))).
  { rewrite Hlines, read_lines_app.
    destruct (read_comments (header_comments now) rs_init ∅ None
                (header_comments_ok now) tracks_init) as (st1 & -> & Htr1).
    cbn [bind]. rewrite read_lines_app.
    destruct (read_doc (doc_of (without_pois p)) st1 ∅ None Htr1 Hok0 Hnd0)
      as (st2 & cur & -> & Htr2); [done|].
    cbn [bind]. fold (doc_model (doc_of (without_pois p))) in Htr2.
    set (M0 := doc_model (doc_of (without_pois p))) in *.
    assert (HM0 : M0 !! "POIS" = None).
    { apply doc_model_lookup_none. closed_notin. }
    destruct (read_step_blank st2 M0 cur EmptyString false) as (st3 & Hstep3 & Htr3);
      [done|done|].
    destruct (read_step_header st3 M0 cur "POIS") as (st4 & Hstep4 & Htr4);
      [done|done|done|done|].
    assert (Hpre_ok : Forall entry_ok (map poi_entry pre)) by by apply poi_entries_ok.
    assert (Hpre_nd : NoDup (map (fun e => optionxform (entry_key e)) (map poi_entry pre)))
      by by rewrite map_map.
    destruct (read_entries "POIS" (map poi_entry pre) st4 (<["POIS" := ∅]> M0) ∅)
      as (st5 & Hstep5 & Htr5); [done|by rewrite lookup_insert_eq|done|done|done|].
    assert (Hfresh : (<["POIS" := ∅]> M0) !! "POIS" = Some (∅ : gmap string string))
      by by rewrite lookup_insert_eq.
    pose proof (read_entries_added "POIS" (map poi_entry pre) st4 (<["POIS" := ∅]> M0) ∅ st5
                  Htr4 Hfresh Hpre_ok Hpre_nd ltac:(done) Hstep5) as Hadded.
    cbn [app read_lines]. rewrite Hstep3. cbn [bind]. rewrite Hstep4. cbn [bind].
    rewrite read_lines_app. fold lines_pre in Hstep5. rewrite Hstep5. cbn [bind].
    assert (Hstep6 : read_step st5 (render_entry (poi_entry q))
                     = Raise (DuplicateOptionError "POIS" (lower (poi_name q)))).
    { eapply (read_step_duplicate st5 _ "POIS" (poi_name q) (poi_value q));
        [|done|apply poi_value_ok|exact Htr5|].
      - apply (line_form_render (poi_entry q)). split; [done|apply poi_value_ok].
      - apply list_elem_of_fmap in Hq as (q' & Heq & Hin').
        unfold optionxform. rewrite Heq.
        apply (Hadded (poi_entry q')). apply list_elem_of_fmap. by exists q'. }
    cbn [read_lines]. by rewrite Hstep6. }
  unfold load_selected_config, read, read_string. by rewrite Hread.
Qed.

End DuplicatePois.

(** ** Indented lines

    The literal of the [Start Run] handler carries the indentation of the
    source: its first lines start with four spaces. *)

Section Indentation.
Import ConfigParser.

Definition indent4 (s : string) : string := "    " +:+ s.

Lemma inline_comment_space b s :
  inline_comment b (String " " s) = String " " <$> inline_comment true s.
Proof. by destruct b. Qed.

Lemma inline_comment_indent4 s :
  inline_comment true (indent4 s) = indent4 <$> inline_comment true s.
Proof.
  unfold indent4.
  change ("    " +:+ s) with (String " " (String " " (String " " (String " " s)))).
  rewrite !inline_comment_space. by destruct (inline_comment true s).
Qed.

Lemma strip_indent4 s : strip (indent4 s) = strip s.
Proof. reflexivity. Qed.

Lemma first_nonspace_indent4 s : first_nonspace (indent4 s) = (4 + first_nonspace s)%nat.
Proof. reflexivity. Qed.

(** Four spaces in front of a line move its content four columns right and
    change nothing else. *)
Lemma line_form_indent4 s :
  line_form_of (indent4 s)
  = match line_form_of s with
    | Content i v => Content (4 + i) v
    | Blank c => Blank c
    end.
Proof.
  unfold line_form_of, payload, is_comment_line.
  rewrite strip_indent4, inline_comment_indent4, first_nonspace_indent4.
  destruct (startswith (strip s) "#" || startswith (strip s) ";"); [done|].
  destruct (inline_comment true s) as [text|]; simpl.
  - rewrite strip_indent4. by case_bool_decide.
  - rewrite strip_indent4. by case_bool_decide.
Qed.

Lemma read_entry_indent i st value :
  read_entry (with_indent i st) value
  = (let! s := read_entry st value in Ok (with_indent i s)).
Proof.
  unfold read_entry. destruct (match_section value) as [name|].
  - unfold enter_section. simpl. repeat case_bool_decide; reflexivity.
  - simpl rs_cursect. destruct (rs_cursect st) as [sect|]; [|done].
    destruct (match_option value) as [[name optval]|]; [|done].
    unfold set_option. simpl. case_bool_decide; [done|]. simpl.
    unfold update_options. case_bool_decide; reflexivity.
Qed.

Lemma with_indent_level st : rs_indent_level st = 0%nat → with_indent 0 st = st.
Proof. destruct st. simpl. by intros ->. Qed.

(** A line of content read at its own indentation and at indentation 0. *)
Lemma read_step_level st line line0 i value st0 :
  line_form_of line = Content i value →
  line_form_of line0 = Content 0 value →
  (open_option st ≠ None → (i ≤ rs_indent_level st)%nat) →
  read_step (with_indent 0 st) line0 = Ok st0 →
  ∃ st', read_step st line = Ok st' ∧ with_indent 0 st' = st0
         ∧ rs_indent_level st' = i.
Proof.
  intros Hform Hform0 Hlvl. unfold read_step. rewrite Hform, Hform0.
  change (open_option (with_indent 0 st)) with (open_option st).
  assert (Hentry : read_entry (with_indent 0 (with_indent 0 st)) value = Ok st0 →
                   ∃ st', read_entry (with_indent i st) value = Ok st'
                          ∧ with_indent 0 st' = st0 ∧ rs_indent_level st' = i).
  { change (with_indent 0 (with_indent 0 st)) with (with_indent 0 st).
    rewrite !read_entry_indent. destruct (read_entry st value) as [s|e]; [|done].
    simpl. intros [= <-]. by eexists. }
  destruct (open_option st) as [[sect opt]|].
  - simpl. assert ((rs_indent_level st <? i)%nat = false) as ->.
    { apply Nat.ltb_ge. by apply Hlvl. }
    apply Hentry.
  - apply Hentry.
Qed.

Lemma append_value_cursor sect opt v st :
  open_option (append_value sect opt v st) = open_option st
  ∧ rs_indent_level (append_value sect opt v st) = rs_indent_level st.
Proof. unfold append_value, update_options. by case_bool_decide. Qed.

Lemma append_value_indent i sect opt v st :
  with_indent i (append_value sect opt v st) = append_value sect opt v (with_indent i st).
Proof. unfold append_value, update_options. by case_bool_decide. Qed.

(** A blank line or a comment, likewise. *)
Lemma read_step_level_blank st line line0 c st0 :
  line_form_of line = Blank c →
  line_form_of line0 = Blank c →
  read_step (with_indent 0 st) line0 = Ok st0 →
  ∃ st', read_step st line = Ok st' ∧ with_indent 0 st' = st0
         ∧ rs_indent_level st' = rs_indent_level st
         ∧ open_option st' = open_option st.
Proof.
  intros Hform Hform0. unfold read_step. rewrite Hform, Hform0.
  change (open_option (with_indent 0 st)) with (open_option st).
  destruct (open_option st) as [[sect opt]|] eqn:Hopen.
  - destruct c; intros [= <-].
    + by exists st.
    + eexists. split; [done|]. rewrite append_value_indent.
      destruct (append_value_cursor sect opt EmptyString st) as [-> ->]. done.
  - intros [= <-]. by exists st.
Qed.

(** Two texts line by line: the same blanks and the same content, the
    second at indentation 0, the first at indentations that never grow. *)
Inductive aligned : nat → list string → list string → Prop :=
  | aligned_nil lvl : aligned lvl [] []
  | aligned_blank lvl c l l0 ls ls0 :
      line_form_of l = Blank c → line_form_of l0 = Blank c →
      aligned lvl ls ls0 → aligned lvl (l :: ls) (l0 :: ls0)
  | aligned_content lvl i v l l0 ls ls0 :
      line_form_of l = Content i v → line_form_of l0 = Content 0 v →
      (i ≤ lvl)%nat → aligned i ls ls0 → aligned lvl (l :: ls) (l0 :: ls0).

Lemma read_lines_aligned lvl ls ls0 :
  aligned lvl ls ls0 → ∀ st st0,
  (open_option st ≠ None → (lvl ≤ rs_indent_level st)%nat) →
  read_lines (with_indent 0 st) ls0 = Ok st0 →
  ∃ st', read_lines st ls = Ok st' ∧ with_indent 0 st' = st0.
Proof.
  induction 1 as [lvl|lvl c l l0 ls ls0 Hl Hl0 _ IH|lvl i v l l0 ls ls0 Hl Hl0 Hi _ IH];
    intros st st0 Hopen Hread.
  - simpl in *. simplify_eq. by exists st.
  - simpl in Hread.
    destruct (read_step (with_indent 0 st) l0) as [s0|e] eqn:Hstep; [|done].
    simpl in Hread.
    destruct (read_step_level_blank st l l0 c s0 Hl Hl0 Hstep)
      as (st1 & Hstep1 & Heq & Hlevel & Hcursor).
    destruct (IH st1 st0) as (st' & Hrest & Hst').
    + rewrite Hcursor, Hlevel. apply Hopen.
    + by rewrite Heq.
    + exists st'. split; [|done]. simpl. by rewrite Hstep1.
  - simpl in Hread.
    destruct (read_step (with_indent 0 st) l0) as [s0|e] eqn:Hstep; [|done].
    simpl in Hread.
    destruct (read_step_level st l l0 i v s0 Hl Hl0) as (st1 & Hstep1 & Heq & Hlevel);
      [intros Ho; specialize (Hopen Ho); lia|done|].
    destruct (IH st1 st0) as (st' & Hrest & Hst').
    + intros _. by rewrite Hlevel.
    + by rewrite Heq.
    + exists st'. split; [|done]. simpl. by rewrite Hstep1.
Qed.

(** A line at indentation 0. *)
Definition flat (l : string) : Prop :=
  (∃ c, line_form_of l = Blank c) ∨ (∃ v, line_form_of l = Content 0 v).

Lemma aligned_flat lvl ls : Forall flat ls → aligned lvl ls ls.
Proof.
  intros Hls. revert lvl. induction Hls as [|l ls [[c Hl]|[v Hl]] _ IH]; intros lvl.
  - constructor.
  - by eapply aligned_blank.
  - eapply aligned_content; [done|done|lia|apply IH].
Qed.

Lemma aligned_indent4 ls rest :
  Forall flat ls → Forall flat rest →
  aligned 4 (map indent4 ls ++ rest) (ls ++ rest).
Proof.
  intros Hls Hrest. induction Hls as [|l ls [[c Hl]|[v Hl]] _ IH]; simpl.
  - by apply aligned_flat.
  - eapply aligned_blank; [|done|done]. by rewrite line_form_indent4, Hl.
  - eapply (aligned_content 4 4); [|done|done|done]. by rewrite line_form_indent4, Hl.
Qed.

Lemma doc_lines_flat doc : Forall section_ok doc → Forall flat (doc_lines doc).
Proof.
  induction 1 as [|[n es] doc (Hhead & _ & Hes & _) _ IH]; [constructor|].
  change (doc_lines ((n, es) :: doc)) with (section_lines (n, es) ++ doc_lines doc)%list.
  apply Forall_app; split; [|done].
  unfold section_lines. simpl in *. constructor; [left; by exists false|]. constructor.
  - right. unfold header_ok in Hhead. apply andb_true_iff in Hhead as [_ Hhead].
    destruct (line_form_of (header_line n)) as [|[|i] v]; try done. by exists v.
  - apply Forall_fmap. eapply Forall_impl; [done|]. intros e He. right.
    eexists. by apply line_form_render.
Qed.

Lemma single_line_indent4 l : single_line l = true → single_line (indent4 l) = true.
Proof. done. Qed.

End Indentation.

Section TempConfig.
Context {F : Type} {FL : PyFloat F}.
Import ConfigParser.

(** The lines of the temporary configuration: one comment, then the lines
    of the saved text from the first header on, the first eleven of them
    (up to the line of the ROI) behind four spaces. *)
Definition temp_lines (p : ParameterSet F) : list string :=
  "# Temporary A3Dshell Configuration"
  :: (map indent4 (firstn 11 (tl (doc_lines (doc_of p))))
      ++ skipn 11 (tl (doc_lines (doc_of p))))%list.

Lemma temp_config_content_unlines (p : ParameterSet F) :
  temp_config_content p = unlines (temp_lines p).
Proof.
  unfold temp_config_content, temp_lines, doc_of, doc_lines, pois_sections, a3d_entries,
    lus_cst_entries, input_entries, roi_entry, output_entries, general_entries.
  destruct (use_shapefile p), (lus_source p), (poi_list p) as [|q pois];
    rewrite ?pois_content_unlines;
    cbn [unlines fold_right app concat map section_lines fst snd render_entry
         tl firstn skipn];
    rewrite ?app_nil_r;
    cbn [unlines fold_right app concat map section_lines fst snd render_entry
         tl firstn skipn];
    unfold entry_line, bare_line, header_line, indent4;
    rewrite ?append_assoc, ?append_nil_r; reflexivity.
Qed.

Lemma doc_lines_head (p : ParameterSet F) :
  doc_lines (doc_of p) = EmptyString :: tl (doc_lines (doc_of p)).
Proof. reflexivity. Qed.

(** X5. The temporary configuration of [Start Run], whose first lines are
    indented as the source has them, reads as the configuration that
    [Save Config] writes for the same values: the same sections, the same
    options and the same values. *)
Theorem temp_config_reads_as_saved (now : datetime) (p : ParameterSet F) :
  valid p →
  ∃ P, read_string (temp_config_content p) = Ok P
       ∧ read_string (serialize now p) = Ok P.
Proof.
  intros Hp. exists (parser_of p). split; [|by apply read_serialized].
  destruct (doc_of_ok p Hp) as [Hok Hnd].
  set (rest := tl (doc_lines (doc_of p))).
  assert (Hflat : Forall flat rest).
  { pose proof (doc_lines_flat _ Hok) as Hall. rewrite doc_lines_head in Hall.
    by apply Forall_cons in Hall as [_ ?]. }
  assert (Hsingle : Forall (fun l => single_line l = true) rest).
  { pose proof (doc_lines_single _ Hok) as Hall. rewrite doc_lines_head in Hall.
    by apply Forall_cons in Hall as [_ ?]. }
  unfold read_string. rewrite temp_config_content_unlines, split_lines_unlines.
  2:{ unfold temp_lines. fold rest. apply Forall_cons_2; [done|].
      apply Forall_app; split.
      - apply Forall_fmap. eapply Forall_impl; [by apply Forall_take|].
        intros l Hl. by apply single_line_indent4.
      - by apply Forall_drop. }
  unfold temp_lines. fold rest.
  destruct (read_comments ["# Temporary A3Dshell Configuration"] rs_init ∅ None)
    as (st1 & Hstep1 & Htr1); [by repeat constructor|apply tracks_init|].
  destruct (read_doc (doc_of p) st1 ∅ None Htr1 Hok Hnd) as (st2 & cur & Hstep2 & Htr2);
    [done|].
  assert (Hclosed : open_option st1 = None).
  { unfold open_option. by rewrite (tr_cursect _ _ _ Htr1). }
  assert (Hrest : read_lines (with_indent 0 st1) rest = Ok st2).
  { rewrite (with_indent_level st1 (tr_indent _ _ _ Htr1)).
    rewrite doc_lines_head in Hstep2. fold rest in Hstep2.
    cbn [read_lines] in Hstep2. unfold read_step in Hstep2.
    change (line_form_of EmptyString) with (Blank false) in Hstep2.
    by rewrite Hclosed in Hstep2. }
  destruct (read_lines_aligned 4 (map indent4 (firstn 11 rest) ++ skipn 11 rest) rest)
    with (st := st1) (st0 := st2) as (st' & Hread & Hst').
  { rewrite <- (firstn_skipn 11 rest) at 3.
    apply aligned_indent4; [by apply Forall_take|by apply Forall_drop]. }
  { by rewrite Hclosed. }
  { done. }
  change (read_lines rs_init (?c :: ?ls))
    with (let! st := read_lines rs_init [c] in read_lines st ls).
  rewrite Hstep1. cbn [bind]. rewrite Hread. cbn [bind].
  destruct Htr2 as [Hview Hdef Herr _ _ _ _].
  change (rs_error st') with (rs_error (with_indent 0 st')). rewrite Hst', Herr.
  change (join_multiline_values st') with (join_multiline_values (with_indent 0 st')).
  rewrite Hst'. unfold join_multiline_values, parser_of. f_equal.
  fold (view st2). rewrite Hdef, fmap_empty. by f_equal.
Qed.

End TempConfig.

(** ** The loader on any readable file *)

Section LoaderCommands.
Import ConfigParser.

(** A command that, when it runs to its end, leaves [v] under [k]. *)
Definition sets (k : string) (v : pyval) (c : cmd) : Prop :=
  ∀ cfg cfg', c cfg = (cfg', None) → cfg' !! k = Some v.

Lemma seq_done a b cfg cfg' :
  (a >>> b) cfg = (cfg', None) → ∃ cfg1, a cfg = (cfg1, None) ∧ b cfg1 = (cfg', None).
Proof.
  unfold seq. destruct (a cfg) as [cfg1 [e|]]; [done|]. intros Hb. by exists cfg1.
Qed.

Lemma sets_assign k v : sets k v (assign k (Ok v)).
Proof. intros cfg cfg' [= <-]. by rewrite lookup_insert_eq. Qed.

Lemma sets_seq_l k v a b : sets k v a → preserves k b → sets k v (a >>> b).
Proof.
  intros Ha Hb cfg cfg' (cfg1 & Hcfg1 & Hcfg')%seq_done.
  specialize (Hb cfg1). rewrite Hcfg' in Hb. simpl in Hb. rewrite Hb. by eapply Ha.
Qed.

Lemma sets_seq_r k v a b : sets k v b → sets k v (a >>> b).
Proof. intros Hb cfg cfg' (cfg1 & Hcfg1 & Hcfg')%seq_done. by eapply Hb. Qed.


Lemma load_lus_source_preserves k P : k ≠ "lus_source" → preserves k (load_lus_source P).
Proof.
  intros Hk. unfold load_lus_source.
  destruct (has_option P "A3D" "LUS_SOURCE"); [by apply preserves_assign|].
  destruct (has_option P "A3D" "USE_LUS_TLM"); by apply preserves_assign.
Qed.

End LoaderCommands.

Ltac preserved :=
  repeat first [ apply preserves_seq | apply preserves_when | apply preserves_skip
               | (apply preserves_assign; done)
               | (apply load_lus_source_preserves; done) ].

Ltac assigned :=
  first [ apply sets_assign
        | apply sets_seq_l; [assigned | preserved]
        | apply sets_seq_r; assigned ].

Section LoaderGeneral.
Import ConfigParser.



End LoaderGeneral.

Section LoaderStops.
Import ConfigParser.




End LoaderStops.

(** ** A test double for the conversions

    [int] on an optional minus sign and digits, [fromisoformat] on the one
    form [YYYY-MM-DD HH:MM:SS], [repr] between single quotes. *)

Definition strict_int (s : string) : result Z :=
  match NilZero.int_of_string s with
  | Some d => Ok (Z.of_int d)
  | None => Raise (ValueError ("invalid literal for int() with base 10: '" +:+ s +:+ "'"))
  end.

Definition digit_value (c : ascii) : option nat :=
  let n := nat_of_ascii c in
  if ((48 <=? n) && (n <=? 57))%nat then Some (n - 48)%nat else None.

Definition two_digits (a b : ascii) : option nat :=
  match digit_value a, digit_value b with
  | Some x, Some y => Some (10 * x + y)%nat
  | _, _ => None
  end.

Definition strict_fromisoformat (s : string) : result datetime :=
  let invalid := Raise (ValueError ("Invalid isoformat string: '" +:+ s +:+ "'")) in
  match s with
  | String y1 (String y2 (String y3 (String y4 (String c1
    (String m1 (String m2 (String c2
    (String d1 (String d2 (String c3
    (String h1 (String h2 (String c4
    (String n1 (String n2 (String c5
    (String s1 (String s2 EmptyString)))))))))))))))))) =>
      if bool_decide (c1 = "-"%char) && bool_decide (c2 = "-"%char)
         && bool_decide (c3 = " "%char) && bool_decide (c4 = ":"%char)
         && bool_decide (c5 = ":"%char)
      then
        match two_digits y1 y2, two_digits y3 y4, two_digits m1 m2, two_digits d1 d2,
              two_digits h1 h2, two_digits n1 n2, two_digits s1 s2 with
        | Some ya, Some yb, Some mo, Some da, Some ho, Some mi, Some se =>
            let dt := {| year := 100 * ya + yb; month := mo; day := da;
                         hour := ho; minute := mi; second := se |} in
            if valid_datetime dt then Ok dt else invalid
        | _, _, _, _, _, _, _ => invalid
        end
      else invalid
  | _ => invalid
  end.

Lemma strict_int_str n : strict_int (int_str n) = Ok n.
Proof.
  unfold strict_int, int_str. rewrite NilZero.isi.
  - by rewrite DecimalZ.of_to.
  - destruct n as [|q|q]; simpl; try done.
    intros [= H]. by apply DecimalPos.Unsigned.to_uint_nonnil in H.
  - destruct n as [|q|q]; simpl; try done.
    intros [= H]. by apply DecimalPos.Unsigned.to_uint_nonnil in H.
Qed.

Lemma digit_value_digit k : digit_value (digit k) = Some (k mod 10)%nat.
Proof.
  unfold digit_value, digit. pose proof (Nat.mod_upper_bound k 10 ltac:(done)) as Hlt.
  rewrite nat_ascii_embedding by lia.
  assert (((48 <=? 48 + k mod 10) && (48 + k mod 10 <=? 57))%nat = true) as ->.
  { apply andb_true_iff. split; apply Nat.leb_le; lia. }
  f_equal. lia.
Qed.

Lemma two_digits_pad n : (n < 100)%nat → two_digits (digit (n / 10)) (digit n) = Some n.
Proof.
  intros Hn. unfold two_digits. rewrite !digit_value_digit. f_equal.
  pose proof (Nat.div_mod_eq n 10). pose proof (Nat.div_mod_eq (n / 10) 10).
  pose proof (Nat.mod_upper_bound n 10). pose proof (Nat.mod_upper_bound (n / 10) 10).
  assert (n / 10 / 10 = 0)%nat.
  { rewrite Nat.Div0.div_div. apply Nat.div_small. lia. }
  lia.
Qed.

Lemma four_digits_pad y :
  (Z.of_nat y <= 9999)%Z →
  ∃ ya yb, two_digits (digit (y / 1000)) (digit (y / 100)) = Some ya
           ∧ two_digits (digit (y / 10)) (digit y) = Some yb
           ∧ (100 * ya + yb = y)%nat.
Proof.
  intros Hy. unfold two_digits. rewrite !digit_value_digit.
  eexists _, _. split; [done|]. split; [done|].
  pose proof (Nat.div_mod_eq y 10). pose proof (Nat.div_mod_eq (y / 10) 10).
  pose proof (Nat.div_mod_eq (y / 100) 10). pose proof (Nat.div_mod_eq (y / 1000) 10).
  pose proof (Nat.mod_upper_bound y 10). pose proof (Nat.mod_upper_bound (y / 10) 10).
  pose proof (Nat.mod_upper_bound (y / 100) 10).
  pose proof (Nat.mod_upper_bound (y / 1000) 10).
  assert (y / 100 = y / 10 / 10)%nat as H100.
  { rewrite Nat.Div0.div_div. reflexivity. }
  assert (y / 1000 = y / 100 / 10)%nat as H1000.
  { rewrite Nat.Div0.div_div. reflexivity. }
  assert (y / 1000 / 10 = 0)%nat.
  { rewrite Nat.Div0.div_div. apply Nat.div_small. lia. }
  lia.
Qed.

Lemma days_in_month_bound y m : (days_in_month y m <= 31)%nat.
Proof.
  unfold days_in_month.
  do 12 (destruct m as [|m]; [try lia; destruct (is_leap y); lia|]). lia.
Qed.

Lemma strict_fromisoformat_stamp dt :
  valid_datetime dt = true → strict_fromisoformat (strftime_stamp dt) = Ok dt.
Proof.
  intros Hvalid. pose proof Hvalid as Hv. unfold valid_datetime in Hv.
  repeat match goal with
         | H : _ && _ = true |- _ => apply andb_true_iff in H as [? ?]
         end.
  repeat match goal with
         | H : (_ <=? _)%nat = true |- _ => apply Nat.leb_le in H
         | H : (_ <? _)%nat = true |- _ => apply Nat.ltb_lt in H
         | H : (_ <=? _)%Z = true |- _ => apply Z.leb_le in H
         end.
  pose proof (days_in_month_bound (year dt) (month dt)).
  destruct (four_digits_pad (year dt)) as (ya & yb & Hya & Hyb & Hyear); [done|].
  destruct dt as [y mo da ho mi se]. cbn [year month day hour minute second] in *.
  unfold strict_fromisoformat, strftime_stamp, pad4, pad2.
  cbn [year month day hour minute second].
  cbv [String.append]. rewrite !bool_decide_eq_true_2 by done. cbn [andb].
  rewrite Hya, Hyb, !two_digits_pad by lia.
  by rewrite Hyear, Hvalid.
Qed.

#[export] Instance StrictConvert : PyConvert := {|
  int_of_str := strict_int;
  fromisoformat := strict_fromisoformat;
  repr := fun s => "'" +:+ s +:+ "'";
  int_of_int_str := fun n _ => strict_int_str n;
  fromisoformat_stamp := strict_fromisoformat_stamp
|}.

(** ** The tabs after a load *)

Definition coord_sys_index (c : coord_sys_t) : nat :=
  match c with CH1903plus => 0 | CH1903 => 1 | WGS84 => 2 end.

Definition lus_source_index (s : lus_source_t) : nat :=
  match s with Tlm => 0 | Bfs => 1 | Constant => 2 end.

Lemma replace_T_app a b : replace_T (a +:+ b) = replace_T a +:+ replace_T b.
Proof.
  induction a as [|c a IH]; [done|]. rewrite append_cons. cbn [replace_T].
  by rewrite IH.
Qed.

Lemma digit_not_T n : bool_decide (digit n = "T"%char) = false.
Proof.
  apply bool_decide_eq_false. intros Heq.
  apply (f_equal nat_of_ascii) in Heq. unfold digit in Heq.
  pose proof (Nat.mod_upper_bound n 10 ltac:(done)).
  rewrite nat_ascii_embedding in Heq by lia.
  change (nat_of_ascii "T") with 84%nat in Heq. lia.
Qed.

Lemma replace_T_pad2 n : replace_T (pad2 n) = pad2 n.
Proof. unfold pad2. cbn [replace_T]. by rewrite !digit_not_T. Qed.

Lemma replace_T_pad4 n : replace_T (pad4 n) = pad4 n.
Proof. unfold pad4. cbn [replace_T]. by rewrite !digit_not_T, replace_T_pad2. Qed.

(** The text of a date with its [T] replaced is the date and the time of
    day with a space between them. *)
Lemma replace_T_iso dt : replace_T (strftime_iso dt) = strftime_stamp dt.
Proof.
  unfold strftime_iso, strftime_stamp.
  by rewrite !replace_T_app, replace_T_pad4, !replace_T_pad2.
Qed.

Lemma strftime_iso_nonempty dt : strftime_iso dt ≠ EmptyString.
Proof. done. Qed.

Ltac loaded_key :=
  unfold loaded_config; repeat (rewrite lookup_insert_ne by done);
  rewrite lookup_insert_eq.

Section TabsAfterLoad.
Context {F : Type} {FL : PyFloat F} {PC : PyConvert}.

Lemma load_serialized now (p : ParameterSet F) cfg :
  valid p → load_selected_config (Some (serialize now p)) cfg = (loaded_config p cfg, None).
Proof.
  intros Hp. unfold load_selected_config, ConfigParser.read.
  rewrite (read_serialized now p Hp). by apply load_parsed_serialized.
Qed.

Lemma default_datetime_stored cfg key dt fallback :
  cfg !! key = Some (VStr (strftime_iso dt)) → valid_datetime dt = true →
  default_datetime cfg key fallback = dt.
Proof.
  intros Hkey Hdt. unfold default_datetime, config_get. rewrite Hkey.
  cbn [from_option id truthy].
  rewrite bool_decide_eq_false_2 by apply strftime_iso_nonempty. cbn [negb].
  by rewrite replace_T_iso, fromisoformat_stamp.
Qed.

(** X8. The [General] tab after a load of what [Save Config] wrote: the
    name input starts from the saved name, the coordinate-system box from
    the saved system, and the date and time widgets from the saved start
    and end. *)
Theorem general_tab_after_load (now : datetime) (p : ParameterSet F) (cfg : config_dict) :
  valid p → valid_datetime (start_dt p) = true → valid_datetime (end_dt p) = true →
  general_tab (fst (load_selected_config (Some (serialize now p)) cfg))
  = Ok {| gw_simu_name := VStr (simu_name p);
          gw_coord_sys_index := coord_sys_index (coord_sys p);
          gw_default_start := start_dt p;
          gw_default_end := end_dt p |}
  ∧ coord_sys_options !! coord_sys_index (coord_sys p) = Some (coord_sys_str (coord_sys p)).
Proof.
  intros Hp Hstart Hend. rewrite (load_serialized now p cfg Hp). cbn [fst].
  split; [|by destruct (coord_sys p)].
  unfold general_tab.
  rewrite (default_datetime_stored _ "start_date" (start_dt p)); [|by loaded_key|done].
  rewrite (default_datetime_stored _ "end_date" (end_dt p)); [|by loaded_key|done].
  unfold config_get.
  assert (loaded_config p cfg !! "simu_name" = Some (VStr (simu_name p))) as ->
    by by loaded_key.
  assert (loaded_config p cfg !! "coord_sys" = Some (VStr (coord_sys_str (coord_sys p))))
    as -> by by loaded_key.
  cbn [from_option id]. by destruct (coord_sys p).
Qed.

Lemma config_int_stored cfg key n default :
  cfg !! key = Some (VStr (int_str n)) → number_input_int n = true →
  config_int cfg key default = Ok n.
Proof. intros Hkey Hn. unfold config_int. rewrite Hkey. by apply int_of_int_str. Qed.

(** X9. The numeric widgets after a load of what [Save Config] wrote.  The
    check box of the spatial mode starts from the saved mode; the ROI size
    from the saved size (in the centre-point mode; 1000 otherwise); the
    buffer from the saved buffer; the land-cover box from the saved source
    and the land-cover code from the saved code (for the constant source;
    11500 otherwise). *)
Theorem numeric_defaults_after_load (now : datetime) (p : ParameterSet F)
    (cfg : config_dict) :
  valid p →
  number_input_int (roi_size p) = true → number_input_int (buffer_size p) = true →
  number_input_int (lus_constant p) = true →
  let cfg' := fst (load_selected_config (Some (serialize now p)) cfg) in
  use_shapefile_default cfg' = VBool (use_shapefile p)
  ∧ roi_size_default cfg' = Ok (if use_shapefile p then 1000 else roi_size p)
  ∧ buffer_size_default cfg' = Ok (buffer_size p)
  ∧ landcover_defaults cfg'
    = Ok (lus_source_index (lus_source p),
          match lus_source p with Constant => lus_constant p | _ => 11500 end)
  ∧ dict_get (default EmptyString (lus_source_options !! lus_source_index (lus_source p)))
      lus_source_map EmptyString
    = lus_source_str (lus_source p).
Proof.
  intros Hp Hroi Hbuffer Hcst cfg'. subst cfg'.
  rewrite (load_serialized now p cfg Hp). cbn [fst].
  assert (Hfallback : ∀ n, number_input_int n = true → int_of_str (int_str n) = Ok n)
    by apply int_of_int_str.
  split; [|split; [|split; [|split]]].
  - unfold use_shapefile_default, config_get. by loaded_key.
  - unfold roi_size_default. destruct (use_shapefile p) eqn:Hshp.
    + apply (config_int_stored _ _ 1000); [|done]. loaded_key. by rewrite Hshp.
    + apply config_int_stored; [|done]. loaded_key. by rewrite Hshp.
  - unfold buffer_size_default. apply config_int_stored; [|done]. by loaded_key.
  - unfold landcover_defaults, lus_default_index, config_get.
    assert (loaded_config p cfg !! "lus_source" = Some (VStr (lus_source_str (lus_source p))))
      as -> by by loaded_key.
    cbn [from_option id].
    destruct (lus_source p) eqn:Hsrc; cbn [lus_source_str lus_source_index].
    + rewrite (config_int_stored _ _ 11500); [done| |done]. loaded_key. by rewrite Hsrc.
    + rewrite (config_int_stored _ _ 11500); [done| |done]. loaded_key. by rewrite Hsrc.
    + rewrite (config_int_stored _ _ (lus_constant p)); [done| |done].
      loaded_key. by rewrite Hsrc.
  - by destruct (lus_source p).
Qed.


End TabsAfterLoad.

(** ** A file of the other mode, loaded *)

Section PlainDocuments.
Import ConfigParser.

(** A well-formed document reads as a parser that calls for no interpolation. *)
Lemma doc_model_plain doc :
  doc_ok doc → plain_parser {| p_sections := doc_model doc; p_defaults := ∅ |}.
Proof.
  intros [Hok Hnd]. split; [|apply map_Forall_empty]. simpl.
  intros n m Hn.
  destruct (decide (n ∈ map fst doc)) as [Hin|Hout].
  - apply list_elem_of_fmap in Hin as ([n' es] & -> & Hin). simpl in Hn.
    rewrite (doc_model_lookup doc n' es Hnd Hin) in Hn. simplify_eq.
    apply section_map_plain.
    rewrite Forall_forall in Hok. by destruct (Hok _ Hin) as (_ & _ & ? & _).
  - by rewrite doc_model_lookup_none in Hn.
Qed.

(** The loader runs to its end on a file without interpolation whose
    spatial mode is a boolean word and whose land-cover source is given. *)
Lemma load_parsed_completes P b :
  plain_parser P →
  getboolean P "INPUT" "USE_SHP_ROI" false = Ok b →
  has_option P "A3D" "LUS_SOURCE" = true →
  completes (load_parsed P).
Proof.
  intros Hplain Hshp Hsrc. unfold load_parsed.
  repeat apply completes_seq; apply completes_when.
  - by apply load_general_completes.
  - by eapply load_input_completes.
  - by apply load_output_completes.
  - unfold load_a3d, load_lus_source. rewrite Hsrc.
    apply completes_seq; by apply completes_get.
Qed.

End PlainDocuments.

Section OtherModeFile.
Context {F : Type} {FL : PyFloat F} {PC : PyConvert}.
Import ConfigParser.

Definition other_doc (o : OtherParameters) (gsd_other : F) (cfg : config_dict)
    (pois : list (poi F)) : list ini_section :=
  [ ("GENERAL", [Entry "SIMULATION_NAME" (simu_name_other o)]);
    ("INPUT", [ Entry "DEM_MODE" "user_provided";
                Entry "USER_DEM_PATH" (user_dem_path_str cfg);
                Entry "TARGET_EPSG" (int_str (target_epsg o)) ]);
    ("OUTPUT", [ Entry "OUT_COORDSYS" ("EPSG:" +:+ int_str (target_epsg o));
                 Entry "GSD" (float_str gsd_other);
                 Bare "DEM_ADDFMTLIST"; Entry "MESH_FMT" "vtu" ]);
    ("MAPS", [Entry "PLOT_HORIZON" "false"]);
    ("A3D", [ Entry "USE_GROUNDEYE" "false"; Entry "LUS_SOURCE" "constant";
              Entry "LUS_PREVAH_CST" (int_str (lus_constant_other o));
              Entry "DO_PVP_3D" "false"; Entry "PVP_3D_FMT" "vtu";
              Entry "SP_BIN_PATH" "input/bin/snowpack" ]) ]
  ++ match pois with
     | [] => []
     | _ => [("POIS", map poi_entry pois)]
     end.

Definition other_comments (now : datetime) : list string :=
  [ "# A3Dshell Configuration - Other Locations Mode";
    "# Generated: " +:+ strftime_iso now ].

Lemma serialize_other_unlines now o gsd_other cfg pois :
  serialize_other now o gsd_other cfg pois
  = unlines (other_comments now ++ doc_lines (other_doc o gsd_other cfg pois)).
Proof.
  unfold serialize_other, other_doc, other_comments, doc_lines.
  destruct pois as [|q pois];
    rewrite ?pois_content_unlines;
    cbn [unlines fold_right app concat map section_lines fst snd render_entry];
    rewrite ?app_nil_r;
    cbn [unlines fold_right app concat map section_lines fst snd render_entry];
    unfold entry_line, bare_line, header_line;
    rewrite ?append_assoc, ?append_nil_r; reflexivity.
Qed.

Lemma epsg_value_ok n : value_ok ("EPSG:" +:+ int_str n) = true.
Proof.
  unfold value_ok. apply orb_true_iff. right. unfold text_ok.
  pose proof (int_str_token n) as Htok.
  apply andb_true_iff; split; [apply andb_true_iff; split|].
  - rewrite string_forallb_app.
    apply token_text_ok, text_ok_elim in Htok as (-> & _ & _). done.
  - done.
  - rewrite ends_nonspace_app. apply is_token_elim in Htok as [Hne _].
    rewrite bool_decide_eq_false_2 by done. by apply token_ends_nonspace, int_str_token.
Qed.

Lemma other_doc_ok o gsd_other cfg pois :
  value_ok (simu_name_other o) = true →
  value_ok (user_dem_path_str cfg) = true →
  Forall (fun q => key_ok (poi_name q) = true) pois →
  NoDup (map (fun q => lower (poi_name q)) pois) →
  doc_ok (other_doc o gsd_other cfg pois).
Proof.
  intros Hname Hpath Hkeys Hdup. split.
  - unfold other_doc. apply Forall_app. split.
    + repeat apply Forall_cons_2; [..|apply Forall_nil_2];
        (apply section_ok_intro; [done|done| |closed_nodup]);
        repeat apply Forall_cons_2; try apply Forall_nil_2;
        (split; simpl; auto using float_str_ok, epsg_value_ok with ini_values).
    + destruct pois as [|q pois]; [constructor|].
      apply Forall_cons_2; [|apply Forall_nil_2].
      apply section_ok_intro; [done|done|by apply poi_entries_ok|].
      unfold entry_keys. by rewrite map_map.
  - unfold other_doc. destruct pois; closed_nodup.
Qed.

Lemma other_comments_ok now : Forall is_comment (other_comments now).
Proof.
  unfold other_comments. repeat constructor.
  unfold single_line. rewrite string_forallb_app.
  fold (single_line (strftime_iso now)).
  by rewrite (value_single_line _ (strftime_iso_ok now)).
Qed.

(** X10. A configuration saved in the other mode loads in the Switzerland
    mode without error, and then stops the page: its coordinate system
    [EPSG:<code>] is none of the three names of the coordinate-system box,
    and the [General] tab raises [ValueError] when it looks for it. *)
Theorem other_mode_file_stops_general_tab (now : datetime) (o : OtherParameters)
    (gsd_other : F) (saved_from : config_dict) (pois : list (poi F)) (cfg : config_dict) :
  value_ok (simu_name_other o) = true →
  value_ok (user_dem_path_str saved_from) = true →
  Forall (fun q => key_ok (poi_name q) = true) pois →
  NoDup (map (fun q => lower (poi_name q)) pois) →
  ∃ cfg',
    load_selected_config (Some (serialize_other now o gsd_other saved_from pois)) cfg
    = (cfg', None)
    ∧ cfg' !! "coord_sys" = Some (VStr ("EPSG:" +:+ int_str (target_epsg o)))
    ∧ general_tab cfg'
      = Raise (ValueError (repr ("EPSG:" +:+ int_str (target_epsg o)) +:+ " is not in list")).
Proof.
  intros Hname Hpath Hkeys Hdup.
  pose proof (other_doc_ok o gsd_other saved_from pois Hname Hpath Hkeys Hdup) as Hdoc.
  set (doc := other_doc o gsd_other saved_from pois) in *.
  set (P := {| p_sections := doc_model doc; p_defaults := ∅ |}).
  assert (Hread : read_string (serialize_other now o gsd_other saved_from pois) = Ok P).
  { rewrite serialize_other_unlines.
    apply read_string_document; [apply other_comments_ok|done]. }
  assert (Hsection : ∀ n es, (n, es) ∈ doc → p_sections P !! n = Some (section_map es)).
  { intros n es Hin. simpl. apply doc_model_lookup; [apply Hdoc|done]. }
  assert (Hsec_ok : ∀ n es, (n, es) ∈ doc → Forall entry_ok es ∧ NoDup (entry_keys es)).
  { intros n es Hin. destruct Hdoc as [Hok _]. rewrite Forall_forall in Hok.
    by destruct (Hok _ Hin) as (_ & _ & ? & ?). }
  assert (Hbase : ∀ sd, sd ∈ firstn 5 doc → sd ∈ doc).
  { intros sd Hin. subst doc. unfold other_doc. apply elem_of_app. by left. }
  assert (Hplain : plain_parser P) by by apply doc_model_plain.
  set (input := [ Entry "DEM_MODE" "user_provided";
                  Entry "USER_DEM_PATH" (user_dem_path_str saved_from);
                  Entry "TARGET_EPSG" (int_str (target_epsg o)) ]).
  set (output := [ Entry "OUT_COORDSYS" ("EPSG:" +:+ int_str (target_epsg o));
                   Entry "GSD" (float_str gsd_other);
                   Bare "DEM_ADDFMTLIST"; Entry "MESH_FMT" "vtu" ]).
  set (a3d := [ Entry "USE_GROUNDEYE" "false"; Entry "LUS_SOURCE" "constant";
                Entry "LUS_PREVAH_CST" (int_str (lus_constant_other o));
                Entry "DO_PVP_3D" "false"; Entry "PVP_3D_FMT" "vtu";
                Entry "SP_BIN_PATH" "input/bin/snowpack" ]).
  assert (Hinput : ("INPUT", input) ∈ doc) by (apply Hbase; entry_in).
  assert (Houtput : ("OUTPUT", output) ∈ doc) by (apply Hbase; entry_in).
  assert (Ha3d : ("A3D", a3d) ∈ doc) by (apply Hbase; entry_in).
  assert (Hshp : getboolean P "INPUT" "USE_SHP_ROI" false = Ok false).
  { rewrite (getboolean_section P eq_refl "INPUT" _ _ _ (Hsection _ _ Hinput)).
    - by rewrite section_map_lookup_none by closed_notin.
    - apply section_map_plain. by apply (Hsec_ok _ _ Hinput). }
  assert (Hsrc : has_option P "A3D" "LUS_SOURCE" = true).
  { apply (has_option_entry P eq_refl "A3D" a3d (Entry "LUS_SOURCE" "constant"));
      [done|done|by apply Hsection|by apply (Hsec_ok _ _ Ha3d)|entry_in]. }
  assert (Hcoord : get P "OUTPUT" "OUT_COORDSYS" "CH1903+"
                   = Ok ("EPSG:" +:+ int_str (target_epsg o))).
  { apply (get_entry P eq_refl "OUTPUT" output);
      [by apply Hsection|by apply (Hsec_ok _ _ Houtput)|by apply (Hsec_ok _ _ Houtput)
      |entry_in]. }
  destruct (load_parsed_completes P false Hplain Hshp Hsrc cfg) as [cfg' Hload].
  assert (Hkey : cfg' !! "coord_sys" = Some (VStr ("EPSG:" +:+ int_str (target_epsg o)))).
  { assert (Hsets : sets "coord_sys" (VStr ("EPSG:" +:+ int_str (target_epsg o)))
                      (load_parsed P)); [|by eapply Hsets].
    unfold load_parsed, load_general, load_input, load_output, load_a3d.
    rewrite (contains_section_some P "OUTPUT" _ (Hsection _ _ Houtput)). cbn [when].
    rewrite Hcoord. assigned. }
  exists cfg'. split; [|split; [done|]].
  - unfold load_selected_config, read. by rewrite Hread.
  - unfold general_tab, config_get, options_index. rewrite Hkey. cbn [from_option id].
    assert (list_index ("EPSG:" +:+ int_str (target_epsg o)) coord_sys_options = None) as ->;
      [|done].
    unfold coord_sys_options, list_index.
    rewrite !bool_decide_eq_false_2; done.
Qed.

End OtherModeFile.

(** ** The centre before the box *)

Section CentreFirst.
Context {F G J : Type} {FL : PyFloat F} {GL : Geometry F G J}.

(** X11. The box of a ROI is only looked at for a centre that was accepted:
    when the centre alone is rejected, or when its test raised, the verdict
    and the message on the ROI are those on the centre, whatever the size. *)
Theorem centre_verdict_first (x y : F) (roi_size : option Z) :
  fst (check_swiss_boundaries x y None) = false
  ∨ (∃ e, check_swiss_boundaries_try x y None = Raise e) →
  check_swiss_boundaries x y roi_size = check_swiss_boundaries x y None.
Proof.
  unfold check_swiss_boundaries, check_swiss_boundaries_try. simpl roi_size_truthy.
  destruct get_swiss_boundary_polygon as [swiss_boundary|].
  - destruct (Point x y) as [point|e]; simpl; [|done].
    destruct (contains swiss_boundary point) as [[]|e]; simpl; [|done|done].
    intros [?|[e ?]]; done.
  - destruct (negb _); [done|]. intros [?|[e ?]]; done.
Qed.

End CentreFirst.

(** ** The commands of the run handlers *)

Section Commands.
Context {F : Type} {FL : PyFloat F}.

(** X12. With the IMIS database out of reach (the web version), the check
    box of the meteo tab is of no effect, and [Start Run] launches nothing
    but [python -m src.cli --config <temporary file> --log-level <level>
    --skip-snowpack]: two process worlds that agree on this command give
    the same run. *)
Theorem web_version_always_skips_snowpack (imis_available : option string)
    (checked : bool) (p : ParameterSet F) (log_level : string) (r : run_state)
    (world1 world2 : process_world) :
  env_flag imis_available = false →
  let command :=
    ["python"; "-m"; "src.cli"; "--config"; "config/_temp_" +:+ simu_name p +:+ ".ini";
     "--log-level"; log_level; "--skip-snowpack"] in
  popen world1 command = popen world2 command →
  side_effect world1 command = side_effect world2 command →
  start_run world1 p log_level (skip_snowpack_checkbox imis_available checked) r
  = start_run world2 p log_level (skip_snowpack_checkbox imis_available checked) r.
Proof.
  intros Hflag command Hpopen Heffect.
  unfold skip_snowpack_checkbox. rewrite Hflag. cbn [negb].
  unfold start_run. case_bool_decide; [done|].
  cbn [app]. fold command. unfold try_except_finally, start_run_try.
  by rewrite Hpopen, Heffect.
Qed.

(** X13. The run handlers and [config].  [Start Run] changes one key, and
    only after a run that exited with code 0 and left a directory
    [output/<name>]: the working directory of the [Run A3D] tab.  In every
    other case, and for [Start Setup] always, [config] is as it was. *)
Theorem run_handlers_config (world : process_world) :
  (∀ (p : ParameterSet F) log_level skip_snowpack r,
     let command := start_run_command p log_level skip_snowpack in
     let written :=
       <["config/_temp_" +:+ simu_name p +:+ ".ini" := temp_config_content p]> (run_files r) in
     run_config (start_run world p log_level skip_snowpack r)
     = match popen world command with
       | Exited _ returncode =>
           if bool_decide (simu_name p ≠ EmptyString) && bool_decide (returncode = 0)
              && bool_decide ("output/" +:+ simu_name p
                              ∈ dom (side_effect world command written))
           then <["a3d_working_dir" := VStr ("output/" +:+ simu_name p)]> (run_config r)
           else run_config r
       | _ => run_config r
       end)
  ∧ (∀ (o : OtherParameters) (pois : list (poi F)) log_level r,
     run_config (start_setup world o pois log_level r) = run_config r).
Proof.
  split.
  - intros p log_level skip_snowpack r. cbv zeta. unfold start_run, start_run_command.
    set (command := (_ ++ _)%list).
    case_bool_decide as Hname.
    { rewrite bool_decide_eq_false_2 by (by intros ?). simpl.
      by destruct (popen world command) as [e|lines e|lines returncode]. }
    rewrite (bool_decide_eq_true_2 (simu_name p ≠ EmptyString)) by done. cbn [andb].
    unfold try_except_finally, start_run_try.
    destruct (popen world command) as [e|lines e|lines returncode].
    + by rewrite cleanup_config.
    + rewrite cleanup_config. cbn [say run_config]. by rewrite stream_output_config.
    + case_bool_decide as Hcode; cbn [andb].
      * unfold exists_path.
        destruct (stream_output_files [] lines
                    (with_files (side_effect world command)
                       (say (UiCode (join_space command))
                          (say (UiInfo ("🚀 Starting simulation: " +:+ simu_name p))
                             (write_file ("config/_temp_" +:+ simu_name p +:+ ".ini")
                                (temp_config_content p) r))))) as [Hf _].
        cbn [say run_files]. rewrite Hf. cbn [with_files write_file say run_files].
        case_bool_decide as Hdir.
        -- match goal with |- context [?m !! ?k] => destruct (m !! k) as [zip|] end;
             rewrite cleanup_config; cbn [say run_config with_run_config];
             by rewrite stream_output_config.
        -- rewrite cleanup_config. cbn [say run_config]. by rewrite stream_output_config.
      * rewrite cleanup_config. cbn [say run_config]. by rewrite stream_output_config.
  - intros o pois log_level r. unfold start_setup.
    case_bool_decide; [done|]. destruct (truthy _); [|done]. cbn [negb].
    unfold try_except_finally, start_setup_try.
    destruct (popen world _) as [e|lines e|lines returncode].
    + by rewrite cleanup_config.
    + rewrite cleanup_config. cbn [say run_config]. by rewrite stream_output_config.
    + case_bool_decide; rewrite cleanup_config; cbn [say run_config];
        by rewrite stream_output_config.
Qed.

End Commands.

(** ** The DEM of the other mode *)

Section DemSelection.
Context {F : Type} {FL : PyFloat F}.

(** X14. Every run of the DEM tab stores the current selection: with no
    file in [config/dem] or the placeholder selected, [user_dem_path]
    becomes [None], whatever path was there.  [Start Setup] then shows its
    error and does nothing else, while [Save Config] writes the text [None]
    as the path of the DEM. *)
Theorem start_setup_needs_current_dem (absolute : string → string)
    (dem_files : list string) (selected_dem : string) (world : process_world)
    (now : datetime) (o : OtherParameters) (gsd_other : F) (pois : list (poi F))
    (log_level : string) (r : run_state) :
  dem_files = [] ∨ selected_dem = "[Select a DEM file]" →
  let r' := with_run_config (dem_tab absolute dem_files selected_dem) r in
  run_config r' !! "user_dem_path" = Some VNone
  ∧ start_setup world o pois log_level r'
    = say (UiError (if bool_decide (simu_name_other o = EmptyString)
                    then "Please provide a simulation name"
                    else "Please select a DEM file")) r'
  ∧ ∃ before after,
      serialize_other now o gsd_other (run_config r') pois
      = before +:+ "USER_DEM_PATH = None" +:+ nl +:+ after.
Proof.
  intros Hnone r'.
  assert (Hkey : run_config r' !! "user_dem_path" = Some VNone).
  { subst r'. unfold dem_tab. cbn [with_run_config run_config].
    destruct Hnone as [-> | ->]; [by rewrite lookup_insert_eq|].
    destruct dem_files; [by rewrite lookup_insert_eq|].
    rewrite bool_decide_eq_true_2 by done. cbn [negb]. by rewrite lookup_insert_eq. }
  split; [done|]. split.
  - unfold start_setup, config_get. rewrite Hkey. simpl. by case_bool_decide.
  - unfold serialize_other, user_dem_path_str, config_get. rewrite Hkey.
    cbn [from_option id].
    exists ("# A3Dshell Configuration - Other Locations Mode" +:+ nl
            +:+ "# Generated: " +:+ strftime_iso now +:+ nl +:+ nl
            +:+ "[GENERAL]" +:+ nl
            +:+ "SIMULATION_NAME = " +:+ simu_name_other o +:+ nl +:+ nl
            +:+ "[INPUT]" +:+ nl
            +:+ "DEM_MODE = user_provided" +:+ nl).
    destruct pois as [|q pois]; eexists; rewrite !append_assoc; reflexivity.
Qed.

End DemSelection.

(** ** The lists of points of interest *)

Section PoiLists.
Context {F G J : Type} {FL : PyFloat F} {FE : PyFloatEq F} {GL : Geometry F G J}.

(** What the buttons of the POI tab of the Switzerland mode do to its list. *)
Inductive poi_step_ch : list (poi F) → list (poi F) → Prop :=
  | poi_ch_add roi_polygon use_shapefile roi_bounds name x y z pois pois' msg :
      add_poi_ch roi_polygon use_shapefile roi_bounds name x y z pois = Ok (pois', msg) →
      poi_step_ch pois pois'
  | poi_ch_delete idx pois :
      (idx < length pois)%nat → poi_step_ch pois (pop_poi idx pois)
  | poi_ch_clear pois : poi_step_ch pois [].

(** And those of the other mode. *)
Inductive poi_step_other : list (poi F) → list (poi F) → Prop :=
  | poi_other_add add_button name x y z pois :
      poi_step_other pois (add_poi_other add_button name x y z pois)
  | poi_other_remove idx pois :
      (idx < length pois)%nat → poi_step_other pois (pop_poi idx pois).

(** X15. Every point of interest of either list has a name, and no point of
    the Switzerland list sits at easting 0 and northing 0: the forms refuse
    the others, and deleting and clearing keep what is left. *)
Theorem poi_lists_hold_named_points :
  (∀ pois, rtc poi_step_ch [] pois →
     Forall (fun q => poi_name q ≠ EmptyString
                      ∧ float_eqb (poi_east q) (float_of_int 0)
                        && float_eqb (poi_north q) (float_of_int 0) = false) pois)
  ∧ (∀ pois, rtc poi_step_other [] pois →
       Forall (fun q => poi_name q ≠ EmptyString) pois).
Proof.
  split.
  - apply (rtc_ind_r (R := poi_step_ch) _ []); [constructor|].
    intros before after _ Hstep IH.
    destruct Hstep as [roi_polygon use_shapefile roi_bounds name x y z pois pois' msg Hadd
                      |idx pois Hidx|pois].
    + unfold add_poi_ch in Hadd. unfold nonempty in Hadd.
      case_bool_decide as Hname; simpl in Hadd; [by simplify_eq|].
      destruct (float_eqb x _ && float_eqb y _) eqn:Horigin; [by simplify_eq|].
      destruct (is_poi_in_roi _ _ _ _ _) as [[]|e]; simpl in Hadd; simplify_eq; [|done].
      apply Forall_app. split; [done|]. by repeat constructor.
    + unfold pop_poi. by apply Forall_delete.
    + constructor.
  - apply (rtc_ind_r (R := poi_step_other) _ []); [constructor|].
    intros before after _ Hstep IH.
    destruct Hstep as [add_button name x y z pois|idx pois Hidx].
    + unfold add_poi_other, nonempty. destruct add_button; [|done].
      case_bool_decide as Hname; simpl; [done|].
      apply Forall_app. split; [done|]. by repeat constructor.
    + unfold pop_poi. by apply Forall_delete.
Qed.

End PoiLists.

(** ** The properties above on the test doubles *)

#[export] Instance HalfFloatEq : PyFloatEq Z := {| float_eqb := Z.eqb |}.


(** A process that can only be launched with [--skip-snowpack]. *)
Definition skipping_world : process_world :=
  {| popen := fun command =>
       if bool_decide (last command = Some "--skip-snowpack")
       then Exited ["reading config"; "no DEM found"] 1
       else LaunchError (Exception "Snowpack is out of reach");
     side_effect := fun _ fs => fs |}.


Definition summit_again : poi Z :=
  {| poi_name := "SUMMIT"; poi_east := 2 * 645100; poi_north := 2 * 115100;
     poi_elev := 2 * 1480 |}.

(** The scenario with two points of interest whose names differ in case. *)
Definition scenario_two_summits : ParameterSet Z :=
  {| simu_name := "demo"; start_dt := october_first; end_dt := october_last;
     poi_x := 2 * 645000; poi_y := 2 * 115000; poi_z := 2 * 1500;
     use_shapefile := false; roi_shapefile := ""; roi_size := 1000;
     buffer_size := 10000; coord_sys := CH1903plus; gsd := 2 * 10; gsd_ref := 2 * 2;
     mask_dem_to_polygon := true; mask_lus_to_polygon := true;
     lus_source := Constant; lus_constant := 11500; poi_list := [summit; summit_again] |}.

Lemma duplicate_poi_names_unloadable_witness :
  ∃ pre q post,
    poi_list scenario_two_summits = (pre ++ q :: post)%list
    ∧ NoDup (map (fun q => lower (poi_name q)) pre)
    ∧ lower (poi_name q) ∈ map (fun q => lower (poi_name q)) pre
    ∧ load_selected_config (Some (serialize clock0 scenario_two_summits)) ∅
      = (∅, Some (DuplicateOptionError "POIS" (lower (poi_name q)))).
Proof.
  apply (duplicate_poi_names_unloadable clock0 scenario_two_summits ∅).
  - reflexivity.
  - discriminate.
  - repeat constructor.
  - intros Hnd. vm_compute in Hnd. apply NoDup_cons in Hnd as [Hnotin _].
    apply Hnotin. left.
Defined.

Lemma temp_config_reads_as_saved_witness :
  ∃ P, ConfigParser.read_string (temp_config_content scenario_with_poi) = Ok P
       ∧ ConfigParser.read_string (serialize clock0 scenario_with_poi) = Ok P.
Proof. apply (temp_config_reads_as_saved clock0 scenario_with_poi scenario_with_poi_valid). Defined.





Lemma general_tab_after_load_witness :
  general_tab (PC := StrictConvert)
    (fst (load_selected_config (Some (serialize clock0 scenario)) ∅))
  = Ok {| gw_simu_name := VStr "demo"; gw_coord_sys_index := 0;
          gw_default_start := october_first; gw_default_end := october_last |}.
Proof.
  apply (general_tab_after_load (PC := StrictConvert) clock0 scenario ∅ scenario_valid);
    reflexivity.
Defined.

Lemma numeric_defaults_after_load_witness :
  let cfg' := fst (load_selected_config (Some (serialize clock0 scenario)) ∅) in
  use_shapefile_default cfg' = VBool false
  ∧ roi_size_default (PC := StrictConvert) cfg' = Ok 1000
  ∧ buffer_size_default (PC := StrictConvert) cfg' = Ok 10000
  ∧ landcover_defaults (PC := StrictConvert) cfg' = Ok (2%nat, 11500).
Proof.
  intros cfg'.
  destruct (numeric_defaults_after_load (PC := StrictConvert) clock0 scenario ∅ scenario_valid
              eq_refl eq_refl eq_refl) as (Hshp & Hroi & Hbuffer & Hland & _).
  split; [exact Hshp|]. split; [exact Hroi|]. split; [exact Hbuffer|exact Hland].
Defined.

Lemma other_mode_file_stops_general_tab_witness :
  ∃ cfg',
    load_selected_config
      (Some (serialize_other clock0 other_scenario (2 * 25) (run_config other_run_init)
               [summit])) ∅
    = (cfg', None)
    ∧ cfg' !! "coord_sys" = Some (VStr "EPSG:32632")
    ∧ general_tab (PC := StrictConvert) cfg'
      = Raise (ValueError "'EPSG:32632' is not in list").
Proof.
  apply (other_mode_file_stops_general_tab (PC := StrictConvert) clock0 other_scenario
           (2 * 25) (run_config other_run_init) [summit] ∅).
  - reflexivity.
  - reflexivity.
  - repeat constructor.
  - apply NoDup_singleton.
Defined.

Lemma centre_verdict_first_witness :
  check_swiss_boundaries (GL := RectGeometry) (2 * 2400000) (2 * 1200000) (Some 400000)
  = check_swiss_boundaries (GL := RectGeometry) (2 * 2400000) (2 * 1200000) None.
Proof.
  apply (centre_verdict_first (GL := RectGeometry)). left. reflexivity.
Defined.

Lemma web_version_always_skips_snowpack_witness :
  start_run failing_world scenario "DEBUG" (skip_snowpack_checkbox (Some "no") false) run_init
  = start_run skipping_world scenario "DEBUG" (skip_snowpack_checkbox (Some "no") false)
      run_init.
Proof.
  apply (web_version_always_skips_snowpack (Some "no") false scenario "DEBUG" run_init
           failing_world skipping_world); reflexivity.
Defined.

Lemma start_setup_needs_current_dem_witness :
  let r' := with_run_config (dem_tab (fun path => "/srv/" +:+ path) [] "alps.tif")
              other_run_init in
  run_config r' !! "user_dem_path" = Some VNone
  ∧ start_setup failing_world other_scenario [summit] "INFO" r'
    = say (UiError "Please select a DEM file") r'
  ∧ ∃ before after,
      serialize_other clock0 other_scenario (2 * 25) (run_config r') [summit]
      = before +:+ "USER_DEM_PATH = None" +:+ nl +:+ after.
Proof.
  apply (start_setup_needs_current_dem (fun path => "/srv/" +:+ path) [] "alps.tif"
           failing_world clock0 other_scenario (2 * 25) [summit] "INFO" other_run_init).
  by left.
Defined.

Lemma poi_lists_hold_named_points_witness :
  Forall (fun q => poi_name q ≠ EmptyString
                   ∧ float_eqb (poi_east q) (float_of_int 0)
                     && float_eqb (poi_north q) (float_of_int 0) = false) [summit].
Proof.
  apply (proj1 (poi_lists_hold_named_points (GL := RectGeometry))).
  eapply rtc_l; [|apply rtc_refl].
  apply (poi_ch_add (GL := RectGeometry) None false
           (Some (2 * 644500, 2 * 114500, 2 * 645500, 2 * 115500))
           "Summit" (2 * 645000 + 1) (2 * 115000) (2 * 1500 + 1) [] [summit] None).
  reflexivity.
Defined.
